(** * Sentinel: ensemble anomaly scoring and circuit breaker

    A shallow embedding of [prometheus/models/sentinel.py]: the ensemble
    scorer [SentinelAI] and the [CircuitBreaker] state machine, followed by
    the properties of the specification that concern them.

    Conventions of the embedding.
    - A Python [float] is an exact rational ([Q]); comparisons and
      arithmetic are the exact ones, rounding is not modelled.
    - A [datetime] is a number of microseconds ([Z]); every read of the wall
      clock is an explicit argument of the operation that performs it.
    - A Python exception is the left summand of [PyResult].  [detect]
      mutates the scorer after its last raising statement only, so a raise
      leaves the scorer as it was; [detect_batch] returns the scorer on
      both outcomes.  [fit] assigns the statistics before it normalizes the
      training data, which cannot raise on the rectangular arrays of numpy
      with statistics of the same width.
    - The three PyOD detectors are external: a fitted detector is its
      [decision_function] on one row, the constructors-and-fit of the
      detectors and [np.std] (a square root) are parameters of [fit]. *)

From Stdlib Require Import ZArith QArith Qabs Qminmax Qround.
From Stdlib Require Import List String Ascii Bool Lia Lqa DecimalString.
Import ListNotations.
Open Scope Q_scope.

(** ** Python values and exceptions *)

Inductive PyError : Type :=
| ValueError (msg : string)
| IndexError (msg : string)
| AttributeError (msg : string)
| TypeError (msg : string).

Definition PyResult (A : Type) : Type := (PyError + A)%type.

Definition Ok {A : Type} (a : A) : PyResult A := inr a.
Definition Raise {A : Type} (e : PyError) : PyResult A := inl e.

Definition bind {A B : Type} (m : PyResult A) (k : A -> PyResult B) : PyResult B :=
  match m with
  | inl e => inl e
  | inr a => k a
  end.

Notation "x <- m ;; k" := (bind m (fun x => k))
  (at level 61, m at next level, right associativity).

Definition Time : Type := Z.

(** [x < y] on floats. *)
Definition Qlt_bool (x y : Q) : bool := negb (Qle_bool y x).

(** [xs[i]] on a Python list or a one-dimensional array, for [i >= 0]. *)
Definition index {A : Type} (xs : list A) (i : nat) : PyResult A :=
  match nth_error xs i with
  | Some x => Ok x
  | None => Raise (IndexError "index out of range")
  end.

(** [sum(xs)]. *)
Definition py_sum (xs : list Q) : Q := fold_left Qplus xs 0.

(** [int(x)] on a float: truncation toward zero. *)
Definition py_int (x : Q) : Z := Z.quot (Qnum x) (Zpos (Qden x)).

(** [d.get(key, default)] on a dict with string keys. *)
Fixpoint dict_get {A : Type} (d : list (string * A)) (key : string) (default : A) : A :=
  match d with
  | [] => default
  | (k, v) :: d' => if String.eqb k key then v else dict_get d' key default
  end.

(** *** Rendering: [f"{x:.nf}"], [str] of a list of strings, [in] on strings *)

Definition round_half_even (x : Q) : Z :=
  let f := Qfloor x in
  match Qcompare (x - inject_Z f) (1 # 2) with
  | Lt => f
  | Gt => (f + 1)%Z
  | Eq => if Z.even f then f else (f + 1)%Z
  end.

Definition string_of_Z (z : Z) : string := NilZero.string_of_int (Z.to_int z).

Fixpoint zeros (n : nat) : string :=
  match n with
  | O => EmptyString
  | S n' => String "0" (zeros n')
  end.

Definition pad_left (n : nat) (s : string) : string :=
  (zeros (n - String.length s) ++ s)%string.

(** [f"{x:.nf}"]: the value rounded to [n] decimals, ties to even. *)
Definition format_fixed (n : nat) (x : Q) : string :=
  let scale := (10 ^ Z.of_nat n)%Z in
  let r := round_half_even (Qabs x * inject_Z scale) in
  let sign := if Qlt_bool x 0 then "-"%string else ""%string in
  let int_part := string_of_Z (r / scale) in
  match n with
  | O => (sign ++ int_part)%string
  | _ => (sign ++ int_part ++ "." ++ pad_left n (string_of_Z (r mod scale)))%string
  end.

(** The two bytes of the UTF-8 encoding of the Greek letter sigma. *)
Definition sigma : string :=
  String (ascii_of_nat 207) (String (ascii_of_nat 131) EmptyString).

(** [str(xs)] for a list of strings free of quotes and escapes. *)
Definition py_str_list (xs : list string) : string :=
  ("[" ++ String.concat ", " (map (fun s => "'" ++ s ++ "'") xs) ++ "]")%string.

(** [needle in hay]. *)
Fixpoint contains (needle hay : string) : bool :=
  String.prefix needle hay
  || match hay with
     | EmptyString => false
     | String _ hay' => contains needle hay'
     end.

(** ** Enumerations and result containers *)

Inductive ThreatType : Type :=
| NONE
| HASHRATE_ANOMALY
| EARNINGS_ANOMALY
| WORKER_BEHAVIOR
| NETWORK_ATTACK
| POOL_HOPPING
| SHARE_MANIPULATION
| DDOS_ATTEMPT
| UNKNOWN.

Definition ThreatType_value (t : ThreatType) : string :=
  match t with
  | NONE => "none"
  | HASHRATE_ANOMALY => "hashrate_anomaly"
  | EARNINGS_ANOMALY => "earnings_anomaly"
  | WORKER_BEHAVIOR => "worker_behavior"
  | NETWORK_ATTACK => "network_attack"
  | POOL_HOPPING => "pool_hopping"
  | SHARE_MANIPULATION => "share_manipulation"
  | DDOS_ATTEMPT => "ddos_attempt"
  | UNKNOWN => "unknown"
  end.

Inductive Severity : Type :=
| LOW
| MEDIUM
| HIGH
| CRITICAL.

Definition Severity_value (s : Severity) : string :=
  match s with
  | LOW => "low"
  | MEDIUM => "medium"
  | HIGH => "high"
  | CRITICAL => "critical"
  end.

Record AnomalyDetectionResult : Type := mkResult {
  is_anomaly : bool;
  threat_type : ThreatType;
  severity : Severity;
  confidence : Q;
  anomaly_score : Q;
  contributing_factors : list string;
  timestamp : Time;
  metadata : list (string * Z)
}.

Record CircuitBreakerState : Type := mkCircuitBreakerState {
  cbs_is_open : bool;
  cbs_failures : Z;
  cbs_last_failure : option Time;
  cbs_recovery_time : option Time;
  cbs_reason : option string
}.

(** ** Arrays and detectors *)

(** The argument of [detect]: a feature vector of shape [(n_features,)] or
    a batch of shape [(n_samples, n_features)]. *)
Inductive NdArray : Type :=
| Vector (v : list Q)
| Matrix (rows : list (list Q)).

(** A fitted PyOD detector, seen through its score of one row. *)
Definition Detector : Type := list Q -> Q.

(** [d.decision_function(X)]: one raw score per row of [X]. *)
Definition decision_function (d : Detector) (X : list (list Q)) : list Q := map d X.

(** Element-wise [f] on two one-dimensional operands, with numpy's
    broadcasting of an operand of length 1. *)
Definition broadcast (f : Q -> Q -> Q) (xs ys : list Q) : PyResult (list Q) :=
  if Nat.eqb (List.length xs) (List.length ys)
  then Ok (map (fun p => f (fst p) (snd p)) (combine xs ys))
  else match xs, ys with
       | [x], _ => Ok (map (f x) ys)
       | _, [y] => Ok (map (fun x => f x y) xs)
       | _, _ => Raise (ValueError "operands could not be broadcast together")
       end.

(** [f] applied to every row, stopping at the first exception. *)
Fixpoint map_rows {A B : Type} (f : A -> PyResult B) (rows : list A) : PyResult (list B) :=
  match rows with
  | [] => Ok []
  | r :: rows' =>
      x <- f r ;;
      xs <- map_rows f rows' ;;
      Ok (x :: xs)
  end.

(** [np.mean(data, axis=0)] on a non-empty rectangular matrix. *)
Definition np_mean (data : list (list Q)) : list Q :=
  match data with
  | [] => []
  | r0 :: _ =>
      map (fun j => py_sum (map (fun r => nth j r 0) data)
                    / inject_Z (Z.of_nat (List.length data)))
          (seq 0 (List.length r0))
  end.

(** The nested function [normalize_scores] of [_get_ensemble_score]. *)
Definition normalize_scores (scores : list Q) : PyResult (list Q) :=
  match scores with
  | [] => Raise (ValueError "zero-size array to reduction operation minimum which has no identity")
  | s0 :: rest =>
      let min_s := fold_left Qmin rest s0 in
      let max_s := fold_left Qmax rest s0 in
      if Qlt_bool (max_s - min_s) 1e-8
      then Ok (map (fun _ => 0) scores)
      else Ok (map (fun s => (s - min_s) / (max_s - min_s)) scores)
  end.

(** [w0 * a + w1 * b + w2 * c] on three arrays of one length. *)
Definition weighted_combination (w0 w1 w2 : Q) (a b c : list Q) : list Q :=
  map (fun p => w0 * fst (fst p) + w1 * snd (fst p) + w2 * snd p)
      (combine (combine a b) c).

(** [threshold or default]: [None] and [0.0] are both falsy. *)
Definition threshold_or (threshold : option Q) (default : Q) : Q :=
  match threshold with
  | None => default
  | Some t => if Qeq_bool t 0 then default else t
  end.

Module SentinelAI.

Record t : Type := mk {
  contamination : Q;
  ensemble_weights : list Q;
  config : list (string * Z);
  _iforest : option Detector;
  _lof : option Detector;
  _knn : option Detector;
  _is_fitted : bool;
  _feature_mean : option (list Q);
  _feature_std : option (list Q);
  severity_thresholds : Severity -> Q;
  _detection_history : list AnomalyDetectionResult;
  _max_history : Z
}.

Definition default_contamination : Q := 0.1.
Definition default_ensemble_weights : list Q := [0.4; 0.3; 0.3].

Definition default_severity_thresholds (sev : Severity) : Q :=
  match sev with
  | LOW => 0.3
  | MEDIUM => 0.5
  | HIGH => 0.7
  | CRITICAL => 0.9
  end.

(** [ensemble_weights or [0.4, 0.3, 0.3]]: [None] and [[]] are falsy. *)
Definition weights_or_default (ensemble_weights : option (list Q)) : list Q :=
  match ensemble_weights with
  | None | Some [] => default_ensemble_weights
  | Some ws => ws
  end.

Definition __init__ (contamination : Q) (ensemble_weights : option (list Q))
    (config : option (list (string * Z))) : PyResult t :=
  let ensemble_weights := weights_or_default ensemble_weights in
  let config := match config with None | Some [] => [] | Some c => c end in
  if Qlt_bool 0.001 (Qabs (py_sum ensemble_weights - 1))
  then Raise (ValueError "Ensemble weights must sum to 1.0")
  else Ok {| contamination := contamination;
             ensemble_weights := ensemble_weights;
             config := config;
             _iforest := None;
             _lof := None;
             _knn := None;
             _is_fitted := false;
             _feature_mean := None;
             _feature_std := None;
             severity_thresholds := default_severity_thresholds;
             _detection_history := [];
             _max_history := dict_get config "max_history" 1000%Z |}.

Definition _normalize (s : t) (data : list (list Q)) : PyResult (list (list Q)) :=
  match _feature_mean s, _feature_std s with
  | Some mean, Some std =>
      map_rows (fun row =>
                  centered <- broadcast Qminus row mean ;;
                  broadcast Qdiv centered (map (fun sd => sd + 1e-8) std))
               data
  | _, _ => Ok data
  end.

Section Fit.

(** [np.std(data, axis=0)], and for each PyOD class the constructor
    followed by [fit]: contamination, the hyper-parameter read from
    [config], the normalized training data. *)
Variable np_std : list (list Q) -> list Q.
Variables IForest LOF KNN : Q -> Z -> list (list Q) -> Detector.

Definition fit (s : t) (data : list (list Q)) : PyResult t :=
  let feature_mean := np_mean data in
  let feature_std := np_std data in
  let s1 := {| contamination := contamination s;
               ensemble_weights := ensemble_weights s;
               config := config s;
               _iforest := _iforest s;
               _lof := _lof s;
               _knn := _knn s;
               _is_fitted := _is_fitted s;
               _feature_mean := Some feature_mean;
               _feature_std := Some feature_std;
               severity_thresholds := severity_thresholds s;
               _detection_history := _detection_history s;
               _max_history := _max_history s |} in
  normalized_data <- _normalize s1 data ;;
  Ok {| contamination := contamination s;
        ensemble_weights := ensemble_weights s;
        config := config s;
        _iforest := Some (IForest (contamination s)
                            (dict_get (config s) "iforest_n_estimators" 100%Z)
                            normalized_data);
        _lof := Some (LOF (contamination s)
                        (dict_get (config s) "lof_n_neighbors" 20%Z)
                        normalized_data);
        _knn := Some (KNN (contamination s)
                        (dict_get (config s) "knn_n_neighbors" 5%Z)
                        normalized_data);
        _is_fitted := true;
        _feature_mean := Some feature_mean;
        _feature_std := Some feature_std;
        severity_thresholds := severity_thresholds s;
        _detection_history := _detection_history s;
        _max_history := _max_history s |}.

End Fit.

(** Attribute access on a detector that may still be [None]. *)
Definition detector (d : option Detector) : PyResult Detector :=
  match d with
  | Some f => Ok f
  | None => Raise (AttributeError "'NoneType' object has no attribute 'decision_function'")
  end.

Definition _get_ensemble_score (s : t) (data : list (list Q)) : PyResult (list Q) :=
  normalized <- _normalize s data ;;
  iforest <- detector (_iforest s) ;;
  lof <- detector (_lof s) ;;
  knn <- detector (_knn s) ;;
  let iforest_scores := decision_function iforest normalized in
  let lof_scores := decision_function lof normalized in
  let knn_scores := decision_function knn normalized in
  iforest_norm <- normalize_scores iforest_scores ;;
  lof_norm <- normalize_scores lof_scores ;;
  knn_norm <- normalize_scores knn_scores ;;
  w0 <- index (ensemble_weights s) 0 ;;
  w1 <- index (ensemble_weights s) 1 ;;
  w2 <- index (ensemble_weights s) 2 ;;
  Ok (weighted_combination w0 w1 w2 iforest_norm lof_norm knn_norm).

Definition HASHRATE_IDX : nat := 0.
Definition EARNINGS_IDX : nat := 1.
Definition SHARE_RATE_IDX : nat := 2.
Definition REJECT_RATE_IDX : nat := 3.
Definition LATENCY_IDX : nat := 4.

(** Subscripting a statistics array that may still be [None]. *)
Definition statistics (a : option (list Q)) : PyResult (list Q) :=
  match a with
  | Some xs => Ok xs
  | None => Raise (TypeError "'NoneType' object is not subscriptable")
  end.

(** One of the three blocks "if len(features) > IDX: ..." of
    [_classify_threat]. *)
Definition analyze (s : t) (features : list Q) (idx : nat) (limit : Q)
    (label : string) (contributing_factors : list string) : PyResult (list string) :=
  if Nat.ltb idx (List.length features)
  then
    x <- index features idx ;;
    mean <- statistics (_feature_mean s) ;;
    m <- index mean idx ;;
    std <- statistics (_feature_std s) ;;
    sd <- index std idx ;;
    let z_score := Qabs (x - m) / (sd + 1e-8) in
    if Qlt_bool limit z_score
    then Ok (contributing_factors
               ++ [(label ++ ": " ++ format_fixed 2 z_score ++ sigma)%string])
    else Ok contributing_factors
  else Ok contributing_factors.

Definition _classify_threat (s : t) (features : list Q) (anomaly_score : Q)
    : PyResult (ThreatType * list string) :=
  f1 <- analyze s features HASHRATE_IDX 3 "hashrate_deviation" [] ;;
  f2 <- analyze s features EARNINGS_IDX 3 "earnings_deviation" f1 ;;
  contributing_factors <- analyze s features REJECT_RATE_IDX 2 "high_reject_rate" f2 ;;
  let rendered := py_str_list contributing_factors in
  if contains "hashrate_deviation" rendered
  then if contains "earnings_deviation" rendered
       then Ok (SHARE_MANIPULATION, contributing_factors)
       else Ok (HASHRATE_ANOMALY, contributing_factors)
  else if contains "earnings_deviation" rendered
  then Ok (EARNINGS_ANOMALY, contributing_factors)
  else if contains "high_reject_rate" rendered
  then Ok (NETWORK_ATTACK, contributing_factors)
  else if Qlt_bool 0.8 anomaly_score
  then Ok (UNKNOWN, contributing_factors)
  else Ok (NONE, contributing_factors).

Definition _determine_severity (s : t) (anomaly_score : Q) : Severity :=
  if Qle_bool (severity_thresholds s CRITICAL) anomaly_score then CRITICAL
  else if Qle_bool (severity_thresholds s HIGH) anomaly_score then HIGH
  else if Qle_bool (severity_thresholds s MEDIUM) anomaly_score then MEDIUM
  else if Qle_bool (severity_thresholds s LOW) anomaly_score then LOW
  else LOW.

(** [self._detection_history.append(result)] followed by the eviction of
    the oldest entry when the history is over its capacity. *)
Definition store (s : t) (result : AnomalyDetectionResult) : t :=
  let history := _detection_history s ++ [result] in
  {| contamination := contamination s;
     ensemble_weights := ensemble_weights s;
     config := config s;
     _iforest := _iforest s;
     _lof := _lof s;
     _knn := _knn s;
     _is_fitted := _is_fitted s;
     _feature_mean := _feature_mean s;
     _feature_std := _feature_std s;
     severity_thresholds := severity_thresholds s;
     _detection_history :=
       if (_max_history s <? Z.of_nat (List.length history))%Z then tl history else history;
     _max_history := _max_history s |}.

(** [detect], reading the clock once (the result's [timestamp]). *)
Definition detect (s : t) (features : NdArray) (threshold : option Q) (now : Time)
    : PyResult (AnomalyDetectionResult * t) :=
  if negb (_is_fitted s)
  then Raise (ValueError "Model must be fitted before detection. Call fit() first.")
  else
    let features := match features with
                    | Vector v => [v]
                    | Matrix rows => rows
                    end in
    anomaly_scores <- _get_ensemble_score s features ;;
    anomaly_score <- index anomaly_scores 0 ;;
    feature_vector <- index features 0 ;;
    let threshold := threshold_or threshold (1 - contamination s) in
    let is_anomaly := Qlt_bool threshold anomaly_score in
    classified <- _classify_threat s feature_vector anomaly_score ;;
    let threat_type := fst classified in
    let contributing_factors := snd classified in
    let severity := _determine_severity s anomaly_score in
    let margin := Qabs (anomaly_score - threshold) in
    let confidence := Qmin 1 (0.5 + margin) in
    let result := {| is_anomaly := is_anomaly;
                     threat_type := if is_anomaly then threat_type else NONE;
                     severity := if is_anomaly then severity else LOW;
                     confidence := confidence;
                     anomaly_score := anomaly_score;
                     contributing_factors := contributing_factors;
                     timestamp := now;
                     metadata := [] |} in
    Ok (result, store s result).

(** [detect_batch], the loop from row [i] on; [clock k] is the clock read
    by the call of [detect] on row [k].  The object is returned on both
    outcomes: an exception on a later row keeps the history entries of the
    earlier ones. *)
Fixpoint detect_batch_from (i : nat) (s : t) (rows : list (list Q))
    (threshold : option Q) (clock : nat -> Time)
    : PyResult (list AnomalyDetectionResult) * t :=
  match rows with
  | [] => (Ok [], s)
  | row :: rows' =>
      match detect s (Vector row) threshold (clock i) with
      | inl e => (Raise e, s)
      | inr (result, s1) =>
          let (rest, s2) := detect_batch_from (S i) s1 rows' threshold clock in
          (results <- rest ;; Ok (result :: results), s2)
      end
  end.

Definition detect_batch (s : t) (features : list (list Q)) (threshold : option Q)
    (clock : nat -> Time) : PyResult (list AnomalyDetectionResult) * t :=
  detect_batch_from 0 s features threshold clock.

End SentinelAI.

(** ** The circuit breaker *)

(** The three values of the string [_state]. *)
Inductive BreakerState : Type :=
| closed
| open
| half_open.

(** A registered callback is known by a name; calling it leaves a record in
    the breaker's log of invocations, with the argument it was given.  An
    exception raised by a callback is caught by the caller and changes
    nothing else. *)
Definition Callback : Type := nat.

Inductive Invocation : Type :=
| Called (callback : Callback) (argument : option string).

Module CircuitBreaker.

Record t : Type := mk {
  failure_threshold : Z;
  recovery_timeout : Z;
  half_open_max_calls : Z;
  _failures : Z;
  _successes_in_half_open : Z;
  _state : BreakerState;
  _last_failure_time : option Time;
  _last_failure_reason : option string;
  _on_open_callbacks : list Callback;
  _on_close_callbacks : list Callback;
  _on_half_open_callbacks : list Callback;
  invocations : list Invocation
}.

Definition default_failure_threshold : Z := 5.
Definition default_recovery_timeout : Z := 60.
Definition default_half_open_max_calls : Z := 3.

Definition __init__ (failure_threshold recovery_timeout half_open_max_calls : Z) : t :=
  {| failure_threshold := failure_threshold;
     recovery_timeout := recovery_timeout;
     half_open_max_calls := half_open_max_calls;
     _failures := 0;
     _successes_in_half_open := 0;
     _state := closed;
     _last_failure_time := None;
     _last_failure_reason := None;
     _on_open_callbacks := [];
     _on_close_callbacks := [];
     _on_half_open_callbacks := [];
     invocations := [] |}.

(** Assignments to one attribute. *)
Definition set_failures (v : Z) (cb : t) : t :=
  mk (failure_threshold cb) (recovery_timeout cb) (half_open_max_calls cb)
     v (_successes_in_half_open cb) (_state cb) (_last_failure_time cb)
     (_last_failure_reason cb) (_on_open_callbacks cb) (_on_close_callbacks cb)
     (_on_half_open_callbacks cb) (invocations cb).

Definition set_successes_in_half_open (v : Z) (cb : t) : t :=
  mk (failure_threshold cb) (recovery_timeout cb) (half_open_max_calls cb)
     (_failures cb) v (_state cb) (_last_failure_time cb)
     (_last_failure_reason cb) (_on_open_callbacks cb) (_on_close_callbacks cb)
     (_on_half_open_callbacks cb) (invocations cb).

Definition set_state (v : BreakerState) (cb : t) : t :=
  mk (failure_threshold cb) (recovery_timeout cb) (half_open_max_calls cb)
     (_failures cb) (_successes_in_half_open cb) v (_last_failure_time cb)
     (_last_failure_reason cb) (_on_open_callbacks cb) (_on_close_callbacks cb)
     (_on_half_open_callbacks cb) (invocations cb).

Definition set_last_failure_time (v : option Time) (cb : t) : t :=
  mk (failure_threshold cb) (recovery_timeout cb) (half_open_max_calls cb)
     (_failures cb) (_successes_in_half_open cb) (_state cb) v
     (_last_failure_reason cb) (_on_open_callbacks cb) (_on_close_callbacks cb)
     (_on_half_open_callbacks cb) (invocations cb).

Definition set_last_failure_reason (v : option string) (cb : t) : t :=
  mk (failure_threshold cb) (recovery_timeout cb) (half_open_max_calls cb)
     (_failures cb) (_successes_in_half_open cb) (_state cb) (_last_failure_time cb)
     v (_on_open_callbacks cb) (_on_close_callbacks cb)
     (_on_half_open_callbacks cb) (invocations cb).

Definition set_on_open_callbacks (v : list Callback) (cb : t) : t :=
  mk (failure_threshold cb) (recovery_timeout cb) (half_open_max_calls cb)
     (_failures cb) (_successes_in_half_open cb) (_state cb) (_last_failure_time cb)
     (_last_failure_reason cb) v (_on_close_callbacks cb)
     (_on_half_open_callbacks cb) (invocations cb).

Definition set_on_close_callbacks (v : list Callback) (cb : t) : t :=
  mk (failure_threshold cb) (recovery_timeout cb) (half_open_max_calls cb)
     (_failures cb) (_successes_in_half_open cb) (_state cb) (_last_failure_time cb)
     (_last_failure_reason cb) (_on_open_callbacks cb) v
     (_on_half_open_callbacks cb) (invocations cb).

Definition set_on_half_open_callbacks (v : list Callback) (cb : t) : t :=
  mk (failure_threshold cb) (recovery_timeout cb) (half_open_max_calls cb)
     (_failures cb) (_successes_in_half_open cb) (_state cb) (_last_failure_time cb)
     (_last_failure_reason cb) (_on_open_callbacks cb) (_on_close_callbacks cb)
     v (invocations cb).

(** The loop "for callback in callbacks: try: callback(...)". *)
Definition run_callbacks (callbacks : list Callback) (argument : option string)
    (cb : t) : t :=
  mk (failure_threshold cb) (recovery_timeout cb) (half_open_max_calls cb)
     (_failures cb) (_successes_in_half_open cb) (_state cb) (_last_failure_time cb)
     (_last_failure_reason cb) (_on_open_callbacks cb) (_on_close_callbacks cb)
     (_on_half_open_callbacks cb)
     (invocations cb ++ map (fun c => Called c argument) callbacks).

Definition _transition_to_open (reason : string) (cb : t) : t :=
  let cb := set_state open cb in
  let cb := set_last_failure_reason (Some reason) cb in
  run_callbacks (_on_open_callbacks cb) (Some reason) cb.

Definition _transition_to_half_open (cb : t) : t :=
  let cb := set_state half_open cb in
  let cb := set_successes_in_half_open 0 cb in
  run_callbacks (_on_half_open_callbacks cb) None cb.

Definition _transition_to_closed (cb : t) : t :=
  let cb := set_state closed cb in
  let cb := set_failures 0 cb in
  let cb := set_successes_in_half_open 0 cb in
  let cb := set_last_failure_reason None cb in
  run_callbacks (_on_close_callbacks cb) None cb.

(** [elapsed >= self.recovery_timeout], with [elapsed] in seconds and the
    two datetimes in microseconds. *)
Definition recovered (cb : t) (now last : Time) : bool :=
  (recovery_timeout cb * 1000000 <=? now - last)%Z.

Definition _check_state_transition (now : Time) (cb : t) : t :=
  match _state cb, _last_failure_time cb with
  | open, Some last =>
      if recovered cb now last then _transition_to_half_open cb else cb
  | _, _ => cb
  end.

(** The property [is_open]. *)
Definition is_open (now : Time) (cb : t) : bool * t :=
  let cb := _check_state_transition now cb in
  (match _state cb with open => true | _ => false end, cb).

(** The property [state]. *)
Definition state (now : Time) (cb : t) : BreakerState * t :=
  let cb := _check_state_transition now cb in
  (_state cb, cb).

Definition record_failure (now : Time) (reason : string) (cb : t) : t :=
  let cb := set_failures (_failures cb + 1) cb in
  let cb := set_last_failure_time (Some now) cb in
  match _state cb with
  | half_open => _transition_to_open reason cb
  | _ =>
      if (failure_threshold cb <=? _failures cb)%Z
      then _transition_to_open reason cb
      else cb
  end.

Definition record_success (cb : t) : t :=
  match _state cb with
  | half_open =>
      let cb := set_successes_in_half_open (_successes_in_half_open cb + 1) cb in
      if (half_open_max_calls cb <=? _successes_in_half_open cb)%Z
      then _transition_to_closed cb
      else cb
  | closed => set_failures (Z.max 0 (_failures cb - 1)) cb
  | open => cb
  end.

Definition can_execute (now : Time) (cb : t) : bool * t :=
  let cb := _check_state_transition now cb in
  (match _state cb with open => false | _ => true end, cb).

Definition get_state (now : Time) (cb : t) : CircuitBreakerState * t :=
  let cb := _check_state_transition now cb in
  let recovery_time :=
    match _state cb, _last_failure_time cb with
    | open, Some last => Some (last + recovery_timeout cb * 1000000)%Z
    | _, _ => None
    end in
  ({| cbs_is_open := match _state cb with open => true | _ => false end;
      cbs_failures := _failures cb;
      cbs_last_failure := _last_failure_time cb;
      cbs_recovery_time := recovery_time;
      cbs_reason := _last_failure_reason cb |}, cb).

Definition reset (cb : t) : t := _transition_to_closed cb.

Definition on_open (callback : Callback) (cb : t) : t :=
  set_on_open_callbacks (_on_open_callbacks cb ++ [callback]) cb.

Definition on_close (callback : Callback) (cb : t) : t :=
  set_on_close_callbacks (_on_close_callbacks cb ++ [callback]) cb.

Definition on_half_open (callback : Callback) (cb : t) : t :=
  set_on_half_open_callbacks (_on_half_open_callbacks cb ++ [callback]) cb.

(** The dict [severity_weight] of [process_detection]. *)
Definition severity_weight (sev : Severity) : Q :=
  match sev with
  | LOW => 0.5
  | MEDIUM => 1.0
  | HIGH => 2.0
  | CRITICAL => 3.0
  end.

(** The reason built by [process_detection] for each failure. *)
Definition detection_reason (result : AnomalyDetectionResult) : string :=
  (ThreatType_value (threat_type result) ++ " - "
   ++ Severity_value (severity result)
   ++ " (score: " ++ format_fixed 3 (anomaly_score result) ++ ")")%string.

(** [n] calls of [record_failure], the [k]-th one (counted from [i])
    reading the clock as [clock k]. *)
Fixpoint record_failures (n i : nat) (clock : nat -> Time) (reason : string)
    (cb : t) : t :=
  match n with
  | O => cb
  | S n' => record_failures n' (S i) clock reason (record_failure (clock i) reason cb)
  end.

Definition process_detection (clock : nat -> Time) (result : AnomalyDetectionResult)
    (cb : t) : t :=
  if is_anomaly result
  then
    let weight := severity_weight (severity result) in
    record_failures (Z.to_nat (py_int weight)) 0 clock (detection_reason result) cb
  else record_success cb.

End CircuitBreaker.

(** ** Notions used by the statements *)

(** The invariant of [EnsembleConfig] as the specification words it:
    non-empty, every entry non-negative, sum within 0.001 of 1.0. *)
Definition EnsembleConfig_valid (weights : list Q) : Prop :=
  weights <> [] /\ Forall (fun w => 0 <= w) weights /\ Qabs (py_sum weights - 1) <= 0.001.

(** A scorer after a successful [fit] on data of [n] features: the flag is
    set, the three detectors exist and both statistics arrays have one
    entry per feature. *)
Definition Fitted (s : SentinelAI.t) (n : nat) : Prop :=
  SentinelAI._is_fitted s = true
  /\ (exists d, SentinelAI._iforest s = Some d)
  /\ (exists d, SentinelAI._lof s = Some d)
  /\ (exists d, SentinelAI._knn s = Some d)
  /\ (exists mean, SentinelAI._feature_mean s = Some mean /\ List.length mean = n)
  /\ (exists std, SentinelAI._feature_std s = Some std /\ List.length std = n).

(** The scores the specification describes for a batch: one call of
    [_get_ensemble_score] on all the rows, rescaled jointly. *)
Definition joint_scores (s : SentinelAI.t) (rows : list (list Q)) : PyResult (list Q) :=
  SentinelAI._get_ensemble_score s rows.

(** The scorer [s] with its detection history replaced by [history]. *)
Definition with_history (history : list AnomalyDetectionResult) (s : SentinelAI.t)
    : SentinelAI.t :=
  {| SentinelAI.contamination := SentinelAI.contamination s;
     SentinelAI.ensemble_weights := SentinelAI.ensemble_weights s;
     SentinelAI.config := SentinelAI.config s;
     SentinelAI._iforest := SentinelAI._iforest s;
     SentinelAI._lof := SentinelAI._lof s;
     SentinelAI._knn := SentinelAI._knn s;
     SentinelAI._is_fitted := SentinelAI._is_fitted s;
     SentinelAI._feature_mean := SentinelAI._feature_mean s;
     SentinelAI._feature_std := SentinelAI._feature_std s;
     SentinelAI.severity_thresholds := SentinelAI.severity_thresholds s;
     SentinelAI._detection_history := history;
     SentinelAI._max_history := SentinelAI._max_history s |}.

(** [n] consecutive calls of [record_success]. *)
Fixpoint record_successes (n : nat) (cb : CircuitBreaker.t) : CircuitBreaker.t :=
  match n with
  | O => cb
  | S n' => record_successes n' (CircuitBreaker.record_success cb)
  end.

(** What every state reached from [__init__] satisfies: the two counters
    are never negative and an open breaker has a last failure time. *)
Definition breaker_invariant (cb : CircuitBreaker.t) : Prop :=
  (0 <= CircuitBreaker._failures cb)%Z
  /\ (0 <= CircuitBreaker._successes_in_half_open cb)%Z
  /\ (CircuitBreaker._state cb = open -> CircuitBreaker._last_failure_time cb <> None).

(** ** A concrete scorer *)

Module Sample.

(** Stand-ins for the external parts: a detector whose raw score is the
    sum of the normalized features, and unit standard deviations. *)
Definition sum_detector (contamination : Q) (parameter : Z)
    (training : list (list Q)) : Detector :=
  fun row => py_sum row.

Definition unit_std (data : list (list Q)) : list Q :=
  map (fun _ => 1) (hd [] data).

Definition training : list (list Q) := [[0]; [2]].

Definition fit_with (weights : option (list Q)) : PyResult SentinelAI.t :=
  s <- SentinelAI.__init__ 0.1 weights None ;;
  SentinelAI.fit unit_std sum_detector sum_detector sum_detector s training.

Definition scorer_with (weights : list Q) : SentinelAI.t :=
  {| SentinelAI.contamination := 0.1;
     SentinelAI.ensemble_weights := weights;
     SentinelAI.config := [];
     SentinelAI._iforest := Some py_sum;
     SentinelAI._lof := Some py_sum;
     SentinelAI._knn := Some py_sum;
     SentinelAI._is_fitted := true;
     SentinelAI._feature_mean := Some (np_mean training);
     SentinelAI._feature_std := Some [1];
     SentinelAI.severity_thresholds := SentinelAI.default_severity_thresholds;
     SentinelAI._detection_history := [];
     SentinelAI._max_history := 1000 |}.

(** The scorer with the default weights. *)
Definition scorer : SentinelAI.t := scorer_with [0.4; 0.3; 0.3].

(** A scorer whose weights are non-negative and sum to 1.0005. *)
Definition heavy_scorer : SentinelAI.t := scorer_with [0.4; 0.3; 0.3005].

Definition batch : list (list Q) := [[1]; [0]; [2]].

Definition clock (k : nat) : Time := Z.of_nat k.

End Sample.

(** ** Further operations of the two classes and of their callers *)

(** The order [LOW < MEDIUM < HIGH < CRITICAL] of the severity levels. *)
Definition severity_rank (sev : Severity) : nat :=
  match sev with
  | LOW => 0
  | MEDIUM => 1
  | HIGH => 2
  | CRITICAL => 3
  end.

(** [d[key] = v] on a dict, which keeps the order of first insertion. *)
Fixpoint dict_set {A : Type} (d : list (string * A)) (key : string) (v : A)
    : list (string * A) :=
  match d with
  | [] => [(key, v)]
  | (k, x) :: d' =>
      if String.eqb k key then (k, v) :: d' else (k, x) :: dict_set d' key v
  end.

(** [counts[key] = counts.get(key, 0) + 1]. *)
Definition count_key (counts : list (string * Z)) (key : string) : list (string * Z) :=
  dict_set counts key (dict_get counts key 0 + 1)%Z.

(** The dict returned by [get_statistics]: the single entry
    [total_detections] on an empty history, the six entries otherwise. *)
Inductive Statistics : Type :=
| NoDetections (total_detections : Z)
| Detections (total_detections total_anomalies : Z) (anomaly_rate : Q)
    (threat_distribution severity_distribution : list (string * Z))
    (avg_anomaly_score : Q).

(** The loop of [get_statistics] over the anomalous results. *)
Definition count_result (counts : list (string * Z) * list (string * Z))
    (result : AnomalyDetectionResult) : list (string * Z) * list (string * Z) :=
  (count_key (fst counts) (ThreatType_value (threat_type result)),
   count_key (snd counts) (Severity_value (severity result))).

Definition get_statistics (s : SentinelAI.t) : Statistics :=
  match SentinelAI._detection_history s with
  | [] => NoDetections 0
  | history =>
      let anomalies := filter is_anomaly history in
      let counts := fold_left count_result anomalies ([], []) in
      let total := Z.of_nat (List.length history) in
      Detections total
        (Z.of_nat (List.length anomalies))
        (inject_Z (Z.of_nat (List.length anomalies)) / inject_Z total)
        (fst counts)
        (snd counts)
        (py_sum (map anomaly_score history) / inject_Z total)
  end.

(** [ModelConfig.validate_weights] of [config.py]. *)
Definition validate_weights (v : list Q) : PyResult (list Q) :=
  if Qlt_bool 0.001 (Qabs (py_sum v - 1))
  then Raise (ValueError "Ensemble weights must sum to 1.0")
  else Ok v.

(** The pickled state read by [InferenceEngine._load_sentinel_model]: a
    dict in which each of the five keys may be missing. *)
Record Checkpoint : Type := mkCheckpoint {
  ck_iforest : option Detector;
  ck_lof : option Detector;
  ck_knn : option Detector;
  ck_feature_mean : option (list Q);
  ck_feature_std : option (list Q)
}.

(** The assignments of [_load_sentinel_model] from the loaded state. *)
Definition restore (state : Checkpoint) (s : SentinelAI.t) : SentinelAI.t :=
  {| SentinelAI.contamination := SentinelAI.contamination s;
     SentinelAI.ensemble_weights := SentinelAI.ensemble_weights s;
     SentinelAI.config := SentinelAI.config s;
     SentinelAI._iforest := ck_iforest state;
     SentinelAI._lof := ck_lof state;
     SentinelAI._knn := ck_knn state;
     SentinelAI._is_fitted := true;
     SentinelAI._feature_mean := ck_feature_mean state;
     SentinelAI._feature_std := ck_feature_std state;
     SentinelAI.severity_thresholds := SentinelAI.severity_thresholds s;
     SentinelAI._detection_history := SentinelAI._detection_history s;
     SentinelAI._max_history := SentinelAI._max_history s |}.

(** [_load_sentinel_model]: the value of [self._sentinel] afterwards.  The
    checkpoint is [None] when the file does not exist; an exception of the
    constructor is caught and leaves [self._sentinel] at [None]. *)
Definition _load_sentinel_model (sentinel_contamination : Q)
    (sentinel_ensemble_weights : list Q) (checkpoint : option Checkpoint)
    : option SentinelAI.t :=
  match SentinelAI.__init__ sentinel_contamination (Some sentinel_ensemble_weights) None with
  | inl _ => None
  | inr s =>
      match checkpoint with
      | Some state => Some (restore state s)
      | None => Some s
      end
  end.

(** The exceptions of [InferenceEngine.detect_anomaly]: its own
    [RuntimeError], or the one [detect] raised. *)
Inductive EngineError : Type :=
| RuntimeError (msg : string)
| Raised (e : PyError).

(** [InferenceEngine.detect_anomaly], run to completion. *)
Definition detect_anomaly (sentinel : option SentinelAI.t) (features : NdArray)
    (threshold : option Q) (now : Time)
    : EngineError + (AnomalyDetectionResult * option SentinelAI.t) :=
  match sentinel with
  | None => inl (RuntimeError "Sentinel model not loaded")
  | Some s =>
      if negb (SentinelAI._is_fitted s)
      then inl (RuntimeError "Sentinel model not trained")
      else match SentinelAI.detect s features threshold now with
           | inl e => inl (Raised e)
           | inr (result, s') => inr (result, Some s')
           end
  end.

(** The value of a statistics array at one position, 0 where it has none. *)
Definition stat_at (a : option (list Q)) (idx : nat) : Q :=
  nth idx (match a with Some xs => xs | None => [] end) 0.

(** The z-score [_classify_threat] computes for the feature [idx]. *)
Definition z_score (s : SentinelAI.t) (features : list Q) (idx : nat) : Q :=
  Qabs (nth idx features 0 - stat_at (SentinelAI._feature_mean s) idx)
  / (stat_at (SentinelAI._feature_std s) idx + 1e-8).

(** Whether the feature [idx] exists and deviates by more than [limit]. *)
Definition deviates (s : SentinelAI.t) (features : list Q) (idx : nat) (limit : Q) : bool :=
  Nat.ltb idx (List.length features) && Qlt_bool limit (z_score s features idx).

(** The text of one contributing factor. *)
Definition factor_text (label : string) (z : Q) : string :=
  (label ++ ": " ++ format_fixed 2 z ++ sigma)%string.

(** The precedence of the threat types, on the three deviations. *)
Definition threat_of (hashrate earnings reject : bool) (anomaly_score : Q) : ThreatType :=
  if hashrate then (if earnings then SHARE_MANIPULATION else HASHRATE_ANOMALY)
  else if earnings then EARNINGS_ANOMALY
  else if reject then NETWORK_ATTACK
  else if Qlt_bool 0.8 anomaly_score then UNKNOWN
  else NONE.

(** The characters [f"{x:.2f}"] can produce: digits, the point, the sign. *)
Definition numeric_char (c : ascii) : bool :=
  match c with
  | "0" | "1" | "2" | "3" | "4" | "5" | "6" | "7" | "8" | "9" | "." | "-" => true
  | _ => false
  end%char.

(** A string made of such characters only. *)
Fixpoint numeric (s : string) : bool :=
  match s with
  | EmptyString => true
  | String c s' => numeric_char c && numeric s'
  end.

(** The contributing factors of a feature vector, in the order in which
    [_classify_threat] appends them. *)
Definition factors_of (s : SentinelAI.t) (features : list Q) : list string :=
  (if deviates s features SentinelAI.HASHRATE_IDX 3
   then [factor_text "hashrate_deviation" (z_score s features SentinelAI.HASHRATE_IDX)]
   else [])
  ++ (if deviates s features SentinelAI.EARNINGS_IDX 3
      then [factor_text "earnings_deviation" (z_score s features SentinelAI.EARNINGS_IDX)]
      else [])
  ++ (if deviates s features SentinelAI.REJECT_RATE_IDX 2
      then [factor_text "high_reject_rate" (z_score s features SentinelAI.REJECT_RATE_IDX)]
      else []).

(** The scorer [s] with its list of weights replaced by [weights]. *)
Definition with_weights (weights : list Q) (s : SentinelAI.t) : SentinelAI.t :=
  {| SentinelAI.contamination := SentinelAI.contamination s;
     SentinelAI.ensemble_weights := weights;
     SentinelAI.config := SentinelAI.config s;
     SentinelAI._iforest := SentinelAI._iforest s;
     SentinelAI._lof := SentinelAI._lof s;
     SentinelAI._knn := SentinelAI._knn s;
     SentinelAI._is_fitted := SentinelAI._is_fitted s;
     SentinelAI._feature_mean := SentinelAI._feature_mean s;
     SentinelAI._feature_std := SentinelAI._feature_std s;
     SentinelAI.severity_thresholds := SentinelAI.severity_thresholds s;
     SentinelAI._detection_history := SentinelAI._detection_history s;
     SentinelAI._max_history := SentinelAI._max_history s |}.

(** The operations of a circuit breaker, each with the clock readings it
    makes. *)
Inductive Operation : Type :=
| ReadIsOpen (now : Time)
| ReadState (now : Time)
| ReadCanExecute (now : Time)
| ReadGetState (now : Time)
| DoRecordFailure (now : Time) (reason : string)
| DoRecordSuccess
| DoReset
| DoOnOpen (callback : Callback)
| DoOnClose (callback : Callback)
| DoOnHalfOpen (callback : Callback)
| DoProcessDetection (clock : nat -> Time) (result : AnomalyDetectionResult).

Definition perform (cb : CircuitBreaker.t) (op : Operation) : CircuitBreaker.t :=
  match op with
  | ReadIsOpen now => snd (CircuitBreaker.is_open now cb)
  | ReadState now => snd (CircuitBreaker.state now cb)
  | ReadCanExecute now => snd (CircuitBreaker.can_execute now cb)
  | ReadGetState now => snd (CircuitBreaker.get_state now cb)
  | DoRecordFailure now reason => CircuitBreaker.record_failure now reason cb
  | DoRecordSuccess => CircuitBreaker.record_success cb
  | DoReset => CircuitBreaker.reset cb
  | DoOnOpen callback => CircuitBreaker.on_open callback cb
  | DoOnClose callback => CircuitBreaker.on_close callback cb
  | DoOnHalfOpen callback => CircuitBreaker.on_half_open callback cb
  | DoProcessDetection clock result => CircuitBreaker.process_detection clock result cb
  end.

(** A sequence of operations, performed in order. *)
Definition perform_all (ops : list Operation) (cb : CircuitBreaker.t) : CircuitBreaker.t :=
  fold_left perform ops cb.

(** A concrete scorer fitted on two features. *)
Module Wide.

Definition training : list (list Q) := [[0; 0]; [2; 4]].

Definition scorer : SentinelAI.t :=
  {| SentinelAI.contamination := 0.1;
     SentinelAI.ensemble_weights := [0.4; 0.3; 0.3];
     SentinelAI.config := [];
     SentinelAI._iforest := Some py_sum;
     SentinelAI._lof := Some py_sum;
     SentinelAI._knn := Some py_sum;
     SentinelAI._is_fitted := true;
     SentinelAI._feature_mean := Some (np_mean training);
     SentinelAI._feature_std := Some [1; 1];
     SentinelAI.severity_thresholds := SentinelAI.default_severity_thresholds;
     SentinelAI._detection_history := [];
     SentinelAI._max_history := 1000 |}.

End Wide.

(** * Properties *)

(** ** Helper lemmas: results, comparisons, extrema *)

Lemma bind_Ok {A B : Type} (m : PyResult A) (k : A -> PyResult B) (b : B) :
  bind m k = Ok b -> exists a, m = Ok a /\ k a = Ok b.
Proof.
  destruct m as [e | a]; simpl; intro H.
  - discriminate H.
  - exists a. split; [reflexivity | exact H].
Qed.

Ltac bind_inv H :=
  let a := fresh "v" in
  let E := fresh "E" in
  apply bind_Ok in H; destruct H as (a & E & H).

Lemma Ok_inj {A : Type} (a b : A) : @Ok A a = Ok b -> a = b.
Proof. intro H. injection H. auto. Qed.

Lemma Qlt_bool_iff (x y : Q) : Qlt_bool x y = true <-> x < y.
Proof.
  unfold Qlt_bool. rewrite negb_true_iff. split; intro H.
  - apply Qnot_le_lt. intro L. apply Qle_bool_iff in L. congruence.
  - destruct (Qle_bool y x) eqn:E; [| reflexivity].
    apply Qle_bool_iff in E. exfalso. apply (Qlt_not_le _ _ H E).
Qed.

Lemma Qlt_bool_false_iff (x y : Q) : Qlt_bool x y = false <-> y <= x.
Proof.
  unfold Qlt_bool. rewrite negb_false_iff. apply Qle_bool_iff.
Qed.

Lemma fold_min_lower (l : list Q) (a : Q) :
  fold_left Qmin l a <= a /\ Forall (fun x => fold_left Qmin l a <= x) l.
Proof.
  revert a. induction l as [| x l IH]; intro a; simpl.
  - split; [apply Qle_refl | constructor].
  - destruct (IH (Qmin a x)) as [Ha Hl]. split.
    + eapply Qle_trans; [exact Ha | apply Q.le_min_l].
    + constructor; [| exact Hl].
      eapply Qle_trans; [exact Ha | apply Q.le_min_r].
Qed.

Lemma fold_max_upper (l : list Q) (a : Q) :
  a <= fold_left Qmax l a /\ Forall (fun x => x <= fold_left Qmax l a) l.
Proof.
  revert a. induction l as [| x l IH]; intro a; simpl.
  - split; [apply Qle_refl | constructor].
  - destruct (IH (Qmax a x)) as [Ha Hl]. split.
    + eapply Qle_trans; [apply Q.le_max_l | exact Ha].
    + constructor; [| exact Hl].
      eapply Qle_trans; [apply Q.le_max_r | exact Ha].
Qed.

Lemma fold_plus_ge (l : list Q) (a : Q) :
  Forall (fun w => 0 <= w) l -> a <= fold_left Qplus l a.
Proof.
  revert a. induction l as [| x l IH]; intros a H; simpl.
  - apply Qle_refl.
  - inversion H as [| ? ? Hx Hl]; subst.
    eapply Qle_trans; [| apply IH; exact Hl]. lra.
Qed.

(** ** The rescaling of one detector's scores *)

Lemma normalize_scores_unit_interval (scores normalized : list Q) :
  normalize_scores scores = Ok normalized ->
  Forall (fun q => 0 <= q <= 1) normalized.
Proof.
  unfold normalize_scores. destruct scores as [| s0 rest]; [discriminate |].
  set (lo := fold_left Qmin rest s0). set (hi := fold_left Qmax rest s0).
  destruct (Qlt_bool (hi - lo) 1e-8) eqn:R; intro H; apply Ok_inj in H; subst normalized.
  - apply Forall_map. apply Forall_forall. intros; lra.
  - apply Qlt_bool_false_iff in R.
    assert (Hpos : 0 < hi - lo).
    { eapply Qlt_le_trans; [| exact R]. reflexivity. }
    destruct (fold_min_lower rest s0) as [Lo0 LoR].
    destruct (fold_max_upper rest s0) as [Hi0 HiR].
    fold lo in Lo0, LoR. fold hi in Hi0, HiR.
    apply Forall_map. constructor.
    + split.
      * apply Qle_shift_div_l; [exact Hpos | lra].
      * apply Qle_shift_div_r; [exact Hpos | lra].
    + rewrite Forall_forall in LoR, HiR. apply Forall_forall. intros x Hx.
      specialize (LoR x Hx). specialize (HiR x Hx). split.
      * apply Qle_shift_div_l; [exact Hpos | lra].
      * apply Qle_shift_div_r; [exact Hpos | lra].
Qed.

Lemma normalize_scores_length (scores normalized : list Q) :
  normalize_scores scores = Ok normalized ->
  List.length normalized = List.length scores.
Proof.
  unfold normalize_scores. destruct scores as [| s0 rest]; [discriminate |].
  destruct (Qlt_bool _ _); intro H; apply Ok_inj in H; subst normalized;
    apply length_map.
Qed.

Lemma normalize_scores_single (x : Q) : normalize_scores [x] = Ok [0].
Proof.
  unfold normalize_scores. simpl fold_left.
  assert (R : Qlt_bool (x - x) 1e-8 = true).
  { apply Qlt_bool_iff. setoid_replace (x - x) with 0 by ring. reflexivity. }
  rewrite R. reflexivity.
Qed.

Lemma weighted_combination_bounds (w0 w1 w2 : Q) (a b c : list Q) :
  0 <= w0 -> 0 <= w1 -> 0 <= w2 ->
  Forall (fun q => 0 <= q <= 1) a ->
  Forall (fun q => 0 <= q <= 1) b ->
  Forall (fun q => 0 <= q <= 1) c ->
  Forall (fun q => 0 <= q <= w0 + w1 + w2) (weighted_combination w0 w1 w2 a b c).
Proof.
  intros H0 H1 H2 Ha Hb Hc. unfold weighted_combination.
  apply Forall_map. apply Forall_forall. intros [[x y] z] Hin. simpl.
  pose proof (in_combine_r _ _ _ _ Hin) as Hz.
  pose proof (in_combine_l _ _ _ _ Hin) as Hxy.
  pose proof (in_combine_l _ _ _ _ Hxy) as Hx.
  pose proof (in_combine_r _ _ _ _ Hxy) as Hy.
  rewrite Forall_forall in Ha, Hb, Hc.
  specialize (Ha x Hx). specialize (Hb y Hy). specialize (Hc z Hz).
  split; nra.
Qed.

Lemma first_three_le_sum (ws : list Q) (w0 w1 w2 : Q) :
  Forall (fun w => 0 <= w) ws ->
  index ws 0 = Ok w0 -> index ws 1 = Ok w1 -> index ws 2 = Ok w2 ->
  0 <= w0 /\ 0 <= w1 /\ 0 <= w2 /\ w0 + w1 + w2 <= py_sum ws.
Proof.
  intros Hnn E0 E1 E2.
  destruct ws as [| a [| b [| c rest]]]; try discriminate.
  unfold index in E0, E1, E2. simpl in E0, E1, E2.
  apply Ok_inj in E0, E1, E2. subst a b c.
  inversion Hnn as [| ? ? P0 Hnn1]; subst.
  inversion Hnn1 as [| ? ? P1 Hnn2]; subst.
  inversion Hnn2 as [| ? ? P2 Hnn3]; subst.
  repeat split; try assumption.
  unfold py_sum. simpl.
  eapply Qle_trans; [| apply fold_plus_ge; exact Hnn3]. lra.
Qed.

(** ** The ensemble score *)

Lemma broadcast_same_length (f : Q -> Q -> Q) (xs ys : list Q) :
  List.length xs = List.length ys ->
  exists zs, broadcast f xs ys = Ok zs /\ List.length zs = List.length xs.
Proof.
  intro L. unfold broadcast. rewrite L, Nat.eqb_refl.
  eexists. split; [reflexivity |].
  rewrite length_map, length_combine, L. apply Nat.min_id.
Qed.

Lemma normalize_row (s : SentinelAI.t) (n : nat) (x : list Q) :
  Fitted s n -> List.length x = n ->
  exists x', SentinelAI._normalize s [x] = Ok [x'].
Proof.
  intros (_ & _ & _ & _ & (mean & Em & Lm) & (std & Es & Ls)) Lx.
  unfold SentinelAI._normalize. rewrite Em, Es. simpl.
  destruct (broadcast_same_length Qminus x mean) as (c & Ec & Lc); [congruence |].
  rewrite Ec. simpl.
  destruct (broadcast_same_length Qdiv c (map (fun sd => sd + 1e-8) std)) as (z & Ez & _).
  { rewrite length_map. congruence. }
  rewrite Ez. simpl. eexists. reflexivity.
Qed.

(** [fit] on a non-empty training matrix delivers a fitted scorer. *)
Lemma fit_Fitted (np_std : list (list Q) -> list Q)
    (IForest LOF KNN : Q -> Z -> list (list Q) -> Detector)
    (s s' : SentinelAI.t) (row : list Q) (data : list (list Q)) :
  List.length (np_std (row :: data)) = List.length row ->
  SentinelAI.fit np_std IForest LOF KNN s (row :: data) = Ok s' ->
  Fitted s' (List.length row).
Proof.
  intros Ls H. unfold SentinelAI.fit in H. bind_inv H. apply Ok_inj in H. subst s'.
  unfold Fitted. cbn.
  repeat split; try (eexists; reflexivity).
  - eexists. split; [reflexivity |]. rewrite length_map, length_seq. reflexivity.
  - eexists. split; [reflexivity | exact Ls].
Qed.

Lemma index_lt {A : Type} (xs : list A) (i : nat) :
  (i < List.length xs)%nat -> exists x, index xs i = Ok x.
Proof.
  intro L. unfold index. destruct (nth_error xs i) eqn:E.
  - eexists. reflexivity.
  - apply nth_error_None in E. lia.
Qed.

Lemma single_row_score (s : SentinelAI.t) (n : nat) (x : list Q) :
  Fitted s n -> List.length x = n ->
  (3 <= List.length (SentinelAI.ensemble_weights s))%nat ->
  exists q, SentinelAI._get_ensemble_score s [x] = Ok [q] /\ q == 0.
Proof.
  intros F Lx Lw.
  destruct (normalize_row s n x F Lx) as (x' & En).
  destruct F as (_ & (d1 & E1) & (d2 & E2) & (d3 & E3) & _).
  destruct (index_lt (SentinelAI.ensemble_weights s) 0) as (w0 & W0); [lia |].
  destruct (index_lt (SentinelAI.ensemble_weights s) 1) as (w1 & W1); [lia |].
  destruct (index_lt (SentinelAI.ensemble_weights s) 2) as (w2 & W2); [lia |].
  unfold SentinelAI._get_ensemble_score.
  rewrite En, E1, E2, E3.
  cbn [bind Ok SentinelAI.detector decision_function map].
  rewrite !normalize_scores_single.
  cbn [bind Ok]. rewrite W0, W1, W2. cbn [bind Ok].
  eexists. split; [reflexivity | cbn; ring].
Qed.

Lemma analyze_total (s : SentinelAI.t) (n : nat) (x : list Q) (idx : nat) (limit : Q)
    (label : string) (factors : list string) :
  Fitted s n -> List.length x = n ->
  exists factors', SentinelAI.analyze s x idx limit label factors = Ok factors'.
Proof.
  intros (_ & _ & _ & _ & (mean & Em & Lm) & (std & Es & Ls)) Lx.
  unfold SentinelAI.analyze.
  destruct (Nat.ltb idx (List.length x)) eqn:L; [| eexists; reflexivity].
  apply Nat.ltb_lt in L.
  destruct (index_lt x idx L) as (v & Ev).
  destruct (index_lt mean idx) as (m & Emi); [lia |].
  destruct (index_lt std idx) as (sd & Esi); [lia |].
  rewrite Ev, Em, Es. simpl. rewrite Emi, Esi. simpl.
  destruct (Qlt_bool limit _); eexists; reflexivity.
Qed.

Lemma classify_threat_total (s : SentinelAI.t) (n : nat) (x : list Q) (score : Q) :
  Fitted s n -> List.length x = n ->
  exists c, SentinelAI._classify_threat s x score = Ok c.
Proof.
  intros F Lx. unfold SentinelAI._classify_threat.
  destruct (analyze_total s n x SentinelAI.HASHRATE_IDX 3 "hashrate_deviation" [] F Lx)
    as (f1 & A1).
  destruct (analyze_total s n x SentinelAI.EARNINGS_IDX 3 "earnings_deviation" f1 F Lx)
    as (f2 & A2).
  destruct (analyze_total s n x SentinelAI.REJECT_RATE_IDX 2 "high_reject_rate" f2 F Lx)
    as (f3 & A3).
  rewrite A1. simpl. rewrite A2. simpl. rewrite A3. simpl.
  repeat match goal with
         | |- context [if ?b then _ else _] => destruct b
         end; eexists; reflexivity.
Qed.

(** What [detect] returns, when it returns: the score of the first row and
    the comparison with the threshold that was put in force. *)
Lemma detect_inv (s : SentinelAI.t) (features : NdArray) (threshold : option Q)
    (now : Time) (r : AnomalyDetectionResult) (s' : SentinelAI.t) :
  SentinelAI.detect s features threshold now = Ok (r, s') ->
  exists scores,
    SentinelAI._get_ensemble_score s
      (match features with Vector v => [v] | Matrix rows => rows end) = Ok scores
    /\ index scores 0 = Ok (anomaly_score r)
    /\ is_anomaly r
       = Qlt_bool (threshold_or threshold (1 - SentinelAI.contamination s)) (anomaly_score r)
    /\ s' = SentinelAI.store s r.
Proof.
  unfold SentinelAI.detect. destruct (negb (SentinelAI._is_fitted s)); [discriminate |].
  intro H. bind_inv H. bind_inv H. bind_inv H. bind_inv H.
  apply Ok_inj in H. injection H as Hr Hs. subst r s'. simpl.
  exists v. repeat split; assumption.
Qed.

(** [detect] reports an anomaly exactly when the score is strictly above
    the threshold in force: the supplied one when it is supplied and not
    zero, [1 - contamination] otherwise. *)
Lemma detect_anomalous_iff (s : SentinelAI.t) (features : NdArray) (threshold : option Q)
    (now : Time) (r : AnomalyDetectionResult) (s' : SentinelAI.t) :
  SentinelAI.detect s features threshold now = Ok (r, s') ->
  (is_anomaly r = true
   <-> threshold_or threshold (1 - SentinelAI.contamination s) < anomaly_score r).
Proof.
  intro H. apply detect_inv in H. destruct H as (_ & _ & _ & -> & _).
  apply Qlt_bool_iff.
Qed.

Lemma threshold_or_supplied (t default : Q) :
  ~ t == 0 -> threshold_or (Some t) default = t.
Proof.
  intro H. unfold threshold_or. destruct (Qeq_bool t 0) eqn:E; [| reflexivity].
  apply Qeq_bool_eq in E. contradiction.
Qed.

Lemma default_threshold_at_one_tenth :
  threshold_or None (1 - SentinelAI.default_contamination) == 0.9.
Proof. reflexivity. Qed.

Lemma detect_single_total (s : SentinelAI.t) (n : nat) (x : list Q)
    (threshold : option Q) (now : Time) :
  Fitted s n -> List.length x = n ->
  (3 <= List.length (SentinelAI.ensemble_weights s))%nat ->
  exists r s', SentinelAI.detect s (Vector x) threshold now = Ok (r, s')
               /\ anomaly_score r == 0.
Proof.
  intros F Lx Lw.
  destruct (single_row_score s n x F Lx Lw) as (q & Eq & Hq).
  unfold SentinelAI.detect.
  destruct F as (Ef & F').
  destruct (classify_threat_total s n x q (conj Ef F') Lx) as (c & Ec).
  rewrite Ef. cbn [negb]. rewrite Eq.
  cbn [bind Ok index nth_error]. rewrite Ec. cbn [bind Ok].
  do 2 eexists. split; [reflexivity | exact Hq].
Qed.

Lemma map_rows_length {A B : Type} (f : A -> PyResult B) (rows : list A) (out : list B) :
  map_rows f rows = Ok out -> List.length out = List.length rows.
Proof.
  revert out. induction rows as [| r rows IH]; intros out H; simpl in H.
  - apply Ok_inj in H. subst out. reflexivity.
  - bind_inv H. bind_inv H. apply Ok_inj in H. subst out.
    simpl. f_equal. apply IH. assumption.
Qed.

Lemma normalize_length (s : SentinelAI.t) (data normalized : list (list Q)) :
  SentinelAI._normalize s data = Ok normalized ->
  List.length normalized = List.length data.
Proof.
  unfold SentinelAI._normalize.
  destruct (SentinelAI._feature_mean s), (SentinelAI._feature_std s);
    intro H; try (apply Ok_inj in H; subst; reflexivity).
  eapply map_rows_length. exact H.
Qed.

(** The shape of a successful run of [_get_ensemble_score]. *)
Lemma get_ensemble_score_inv (s : SentinelAI.t) (data : list (list Q)) (scores : list Q) :
  SentinelAI._get_ensemble_score s data = Ok scores ->
  exists normalized iforest lof knn a b c w0 w1 w2,
    SentinelAI._normalize s data = Ok normalized
    /\ normalize_scores (decision_function iforest normalized) = Ok a
    /\ normalize_scores (decision_function lof normalized) = Ok b
    /\ normalize_scores (decision_function knn normalized) = Ok c
    /\ index (SentinelAI.ensemble_weights s) 0 = Ok w0
    /\ index (SentinelAI.ensemble_weights s) 1 = Ok w1
    /\ index (SentinelAI.ensemble_weights s) 2 = Ok w2
    /\ scores = weighted_combination w0 w1 w2 a b c.
Proof.
  unfold SentinelAI._get_ensemble_score. intro H.
  do 10 bind_inv H. apply Ok_inj in H.
  exists v, v0, v1, v2, v3, v4, v5, v6, v7, v8.
  repeat split; try assumption. symmetry. exact H.
Qed.

Lemma single_row_score_inv (s : SentinelAI.t) (x : list Q) (scores : list Q) :
  SentinelAI._get_ensemble_score s [x] = Ok scores ->
  exists q, scores = [q] /\ q == 0.
Proof.
  intro H. apply get_ensemble_score_inv in H.
  destruct H as (nz & d1 & d2 & d3 & a & b & c & w0 & w1 & w2
                 & En & Ea & Eb & Ec & _ & _ & _ & ->).
  apply normalize_length in En.
  destruct nz as [| x' [| ? ?]]; try discriminate En.
  cbn [decision_function map] in Ea, Eb, Ec.
  rewrite normalize_scores_single in Ea, Eb, Ec.
  apply Ok_inj in Ea, Eb, Ec. subst a b c.
  eexists. split; [reflexivity | cbn; ring].
Qed.

(** ** The history does not influence a detection *)

Lemma with_history_same (s : SentinelAI.t) :
  with_history (SentinelAI._detection_history s) s = s.
Proof. destruct s. reflexivity. Qed.

Lemma detect_with_history (h : list AnomalyDetectionResult) (s : SentinelAI.t)
    (features : NdArray) (threshold : option Q) (now : Time) :
  SentinelAI.detect (with_history h s) features threshold now
  = match SentinelAI.detect s features threshold now with
    | inl e => inl e
    | inr (r, _) => inr (r, SentinelAI.store (with_history h s) r)
    end.
Proof.
  unfold SentinelAI.detect. cbn [with_history SentinelAI._is_fitted].
  destruct (negb (SentinelAI._is_fitted s)); [reflexivity |].
  set (rows := match features with Vector v => [v] | Matrix rows => rows end).
  change (SentinelAI._get_ensemble_score (with_history h s) rows)
    with (SentinelAI._get_ensemble_score s rows).
  destruct (SentinelAI._get_ensemble_score s rows) as [e | scores]; [reflexivity |].
  cbn [bind]. destruct (index scores 0) as [e | score]; [reflexivity |].
  cbn [bind]. destruct (index rows 0) as [e | row]; [reflexivity |].
  cbn [bind].
  change (SentinelAI._classify_threat (with_history h s) row score)
    with (SentinelAI._classify_threat s row score).
  destruct (SentinelAI._classify_threat s row score) as [e | c]; reflexivity.
Qed.

Lemma store_with_history (h : list AnomalyDetectionResult) (s : SentinelAI.t)
    (r : AnomalyDetectionResult) :
  exists h', SentinelAI.store (with_history h s) r = with_history h' s.
Proof. eexists. reflexivity. Qed.

(** Every result of [detect_batch] is the result of [detect] on that row
    alone, whatever the history was when the row was reached. *)
Lemma detect_batch_from_pointwise (s : SentinelAI.t) (threshold : option Q)
    (clock : nat -> Time) (rows : list (list Q)) :
  forall (i : nat) (h : list AnomalyDetectionResult)
         (results : list AnomalyDetectionResult) (s' : SentinelAI.t),
    SentinelAI.detect_batch_from i (with_history h s) rows threshold clock = (Ok results, s') ->
    List.length results = List.length rows
    /\ forall (k : nat) (row : list Q),
        nth_error rows k = Some row ->
        exists r sk,
          SentinelAI.detect s (Vector row) threshold (clock (i + k)%nat) = Ok (r, sk)
          /\ nth_error results k = Some r.
Proof.
  induction rows as [| row0 rows IH]; intros i h results s' H.
  - simpl in H. injection H as Hr _. subst results. split; [reflexivity |].
    intros k row Hk. destruct k; discriminate Hk.
  - cbn [SentinelAI.detect_batch_from] in H.
    rewrite detect_with_history in H.
    destruct (SentinelAI.detect s (Vector row0) threshold (clock i)) as [e | [r0 s0]] eqn:D0.
    + discriminate H.
    + destruct (store_with_history h s r0) as (h' & Eh). rewrite Eh in H.
      destruct (SentinelAI.detect_batch_from (S i) (with_history h' s) rows threshold clock)
        as [rest s2] eqn:Drest.
      destruct rest as [e | rest]; [discriminate H |].
      cbn [bind] in H. injection H as Hr Hs. subst results s'.
      destruct (IH _ _ _ _ Drest) as (L & P). split; [simpl; congruence |].
      intros k row Hk. destruct k as [| k].
      * simpl in Hk. injection Hk as ->. rewrite Nat.add_0_r.
        exists r0, s0. split; [exact D0 | reflexivity].
      * simpl in Hk. destruct (P k row Hk) as (r & sk & Dk & Nk).
        exists r, sk. split; [| exact Nk].
        replace (i + S k)%nat with (S i + k)%nat by lia. exact Dk.
Qed.

(** ** The sample scorer *)

Ltac compare_constants :=
  vm_compute; first [reflexivity | discriminate | (intro; discriminate)].

Ltac sample_fitted :=
  unfold Fitted;
  repeat split; try reflexivity; eexists; first [reflexivity | split; reflexivity].

Lemma sample_scorer_built : Sample.fit_with None = Ok Sample.scorer.
Proof. vm_compute. reflexivity. Qed.

Lemma sample_heavy_scorer_built :
  Sample.fit_with (Some [0.4; 0.3; 0.3005]) = Ok Sample.heavy_scorer.
Proof. vm_compute. reflexivity. Qed.

(** ** Claims on the ensemble scorer *)

(** On a batch of several rows the substitution of a supplied 0.0 shows:
    after a successful [fit] with contamination 0.1, [detect] on a batch
    whose first row scores 1/2, called with the explicit threshold 0.0,
    reports no anomaly, the threshold in force being 0.9. *)
Lemma detect_zero_threshold_not_applied :
  Sample.fit_with None = Ok Sample.scorer
  /\ exists r s',
      SentinelAI.detect Sample.scorer (Matrix Sample.batch) (Some 0) 0%Z = Ok (r, s')
      /\ anomaly_score r == 1 # 2
      /\ 0 < anomaly_score r
      /\ is_anomaly r = false.
Proof.
  split; [exact sample_scorer_built |].
  do 2 eexists. split; [vm_compute; reflexivity |].
  repeat split; compare_constants.
Qed.

(** C2. For a fitted scorer with at least three weights, a batch made of a
    single feature vector of the fitted width is rescaled to 0 for every
    detector, whatever the raw score; [_get_ensemble_score] returns the
    single score 0 and [detect] returns a result whose score is 0. *)
Theorem single_vector_score_is_zero (s : SentinelAI.t) (n : nat) (x : list Q) :
  Fitted s n ->
  List.length x = n ->
  (3 <= List.length (SentinelAI.ensemble_weights s))%nat ->
  (forall (d : Detector) (row : list Q),
      normalize_scores (decision_function d [row]) = Ok [0])
  /\ (exists q, SentinelAI._get_ensemble_score s [x] = Ok [q] /\ q == 0)
  /\ (forall (threshold : option Q) (now : Time),
        exists r s', SentinelAI.detect s (Vector x) threshold now = Ok (r, s')
                     /\ anomaly_score r == 0).
Proof.
  intros F Lx Lw. split; [| split].
  - intros d row. apply normalize_scores_single.
  - eapply single_row_score; eassumption.
  - intros threshold now. eapply detect_single_total; eassumption.
Qed.

Lemma single_vector_score_is_zero_witness :
  exists q, SentinelAI._get_ensemble_score Sample.scorer [[100]] = Ok [q] /\ q == 0.
Proof.
  refine (proj1 (proj2 (single_vector_score_is_zero Sample.scorer 1 [100] _ _ _))).
  - sample_fitted.
  - reflexivity.
  - simpl. lia.
Defined.

(** C3, as the specification states it, fails on the sample scorer: the
    scores of [detect_batch] on a three-row batch are all 0, as are those of
    [detect] on each row, while the joint rescaling of the batch is not. *)
Lemma detect_batch_is_not_joint :
  exists results s' joint,
    SentinelAI.detect_batch Sample.scorer Sample.batch None Sample.clock = (Ok results, s')
    /\ joint_scores Sample.scorer Sample.batch = Ok joint
    /\ Forall (fun r => anomaly_score r == 0) results
    /\ ~ Forall (fun q => q == 0) joint
    /\ forall (k : nat) (row : list Q),
        nth_error Sample.batch k = Some row ->
        exists r sk,
          SentinelAI.detect Sample.scorer (Vector row) None (Sample.clock k) = Ok (r, sk)
          /\ nth_error results k = Some r.
Proof.
  destruct (SentinelAI.detect_batch Sample.scorer Sample.batch None Sample.clock)
    as [[e | results] s'] eqn:D; [vm_compute in D; discriminate D |].
  exists results, s'. eexists.
  split; [reflexivity |].
  split; [vm_compute; reflexivity |].
  split; [| split].
  - vm_compute in D. injection D as <- _. repeat constructor.
  - intro H. inversion H as [| ? ? H0 _]. vm_compute in H0. discriminate H0.
  - unfold SentinelAI.detect_batch in D.
    rewrite <- (with_history_same Sample.scorer) in D at 1.
    apply detect_batch_from_pointwise in D. destruct D as [_ P]. exact P.
Qed.

(** C3, amended. Whenever [detect_batch] returns, it returns one result per
    row, the k-th one being what [detect] returns on row k alone; every row
    is rescaled in isolation and every anomaly score is 0. *)
Theorem detect_batch_rescales_each_row_alone (s : SentinelAI.t) (rows : list (list Q))
    (threshold : option Q) (clock : nat -> Time)
    (results : list AnomalyDetectionResult) (s' : SentinelAI.t) :
  SentinelAI.detect_batch s rows threshold clock = (Ok results, s') ->
  List.length results = List.length rows
  /\ forall (k : nat) (row : list Q),
      nth_error rows k = Some row ->
      exists r sk,
        SentinelAI.detect s (Vector row) threshold (clock k) = Ok (r, sk)
        /\ nth_error results k = Some r
        /\ anomaly_score r == 0.
Proof.
  intro D. unfold SentinelAI.detect_batch in D.
  rewrite <- (with_history_same s) in D at 1.
  apply detect_batch_from_pointwise in D. destruct D as [L P].
  split; [exact L |].
  intros k row Hk. destruct (P k row Hk) as (r & sk & Dk & Nk).
  exists r, sk. repeat split; try assumption.
  apply detect_inv in Dk. destruct Dk as (scores & Es & Ei & _).
  apply single_row_score_inv in Es. destruct Es as (q & -> & Hq).
  unfold index in Ei. simpl in Ei. apply Ok_inj in Ei. rewrite <- Ei. exact Hq.
Qed.

Lemma detect_batch_rescales_each_row_alone_witness :
  exists results,
    fst (SentinelAI.detect_batch Sample.scorer Sample.batch None Sample.clock) = Ok results
    /\ List.length results = List.length Sample.batch.
Proof.
  destruct (SentinelAI.detect_batch Sample.scorer Sample.batch None Sample.clock)
    as [[e | results] s'] eqn:D; [vm_compute in D; discriminate D |].
  exists results. split; [reflexivity |].
  exact (proj1 (detect_batch_rescales_each_row_alone _ _ _ _ _ _ D)).
Defined.

(** C8, as the specification states it, fails: a weight sequence with a
    negative entry and an empty one both violate the invariant, and both
    are accepted by the constructor (the empty one is replaced by the
    default weights). *)
Lemma init_accepts_invalid_weights :
  ~ EnsembleConfig_valid [1.5; -0.5; 0]
  /\ (exists s, SentinelAI.__init__ 0.1 (Some [1.5; -0.5; 0]) None = Ok s
                /\ SentinelAI.ensemble_weights s = [1.5; -0.5; 0])
  /\ ~ EnsembleConfig_valid []
  /\ (exists s, SentinelAI.__init__ 0.1 (Some []) None = Ok s
                /\ SentinelAI.ensemble_weights s = [0.4; 0.3; 0.3]).
Proof.
  split; [| split; [| split]].
  - intros (_ & H & _). inversion H as [| ? ? _ Htail]. inversion Htail as [| ? ? Hneg _].
    vm_compute in Hneg. apply Hneg. reflexivity.
  - eexists. split; vm_compute; reflexivity.
  - intros (H & _). apply H. reflexivity.
  - eexists. split; vm_compute; reflexivity.
Qed.

(** C8, amended. The constructor validates the sum only: it raises
    [ValueError] exactly when the sum of the weights in force (the default
    ones for a missing or empty sequence) is farther than 0.001 from 1.0,
    and otherwise returns an unfitted scorer holding these weights; the
    weights [0.5, 0.5, 0.5] are rejected. *)
Theorem init_validates_sum_of_weights (contamination : Q)
    (ensemble_weights : option (list Q)) (config : option (list (string * Z))) :
  ((exists e, SentinelAI.__init__ contamination ensemble_weights config = Raise e)
   <-> 0.001 < Qabs (py_sum (SentinelAI.weights_or_default ensemble_weights) - 1))
  /\ ((exists s, SentinelAI.__init__ contamination ensemble_weights config = Ok s
                 /\ SentinelAI.ensemble_weights s
                    = SentinelAI.weights_or_default ensemble_weights
                 /\ SentinelAI._is_fitted s = false)
      <-> Qabs (py_sum (SentinelAI.weights_or_default ensemble_weights) - 1) <= 0.001)
  /\ SentinelAI.__init__ contamination (Some [0.5; 0.5; 0.5]) config
     = Raise (ValueError "Ensemble weights must sum to 1.0").
Proof.
  split; [| split].
  - unfold SentinelAI.__init__.
    destruct (Qlt_bool 0.001 _) eqn:B.
    + split; [intros _; apply Qlt_bool_iff; exact B | intros _; eexists; reflexivity].
    + split.
      * intros (e & H). discriminate H.
      * intro H. apply Qlt_bool_iff in H. congruence.
  - unfold SentinelAI.__init__.
    destruct (Qlt_bool 0.001 _) eqn:B.
    + split.
      * intros (s & H & _). discriminate H.
      * intro H. apply Qlt_bool_iff in B. exfalso. apply (Qlt_not_le _ _ B H).
    + split.
      * intros _. apply Qlt_bool_false_iff. exact B.
      * intros _. eexists. split; [reflexivity | split; reflexivity].
  - reflexivity.
Qed.

(** C9, as the specification states it, fails: the weights
    [0.4, 0.3, 0.3005] satisfy the invariant of [EnsembleConfig], the
    scorer built from them is fitted, and the third row of the sample batch
    gets an ensemble score above 1. *)
Lemma ensemble_score_above_one :
  EnsembleConfig_valid (SentinelAI.ensemble_weights Sample.heavy_scorer)
  /\ Sample.fit_with (Some [0.4; 0.3; 0.3005]) = Ok Sample.heavy_scorer
  /\ exists scores q,
      SentinelAI._get_ensemble_score Sample.heavy_scorer Sample.batch = Ok scores
      /\ nth_error scores 2 = Some q
      /\ 1 < q.
Proof.
  split; [| split].
  - split; [discriminate |]. split.
    + repeat constructor; compare_constants.
    + compare_constants.
  - exact sample_heavy_scorer_built.
  - do 2 eexists. split; [vm_compute; reflexivity |].
    split; [reflexivity | compare_constants].
Qed.

(** A successful run of [_get_ensemble_score], with the detectors it
    queried. *)
Lemma get_ensemble_score_detectors (s : SentinelAI.t) (data : list (list Q))
    (scores : list Q) :
  SentinelAI._get_ensemble_score s data = Ok scores ->
  exists normalized iforest lof knn a b c w0 w1 w2,
    SentinelAI._normalize s data = Ok normalized
    /\ SentinelAI._iforest s = Some iforest
    /\ SentinelAI._lof s = Some lof
    /\ SentinelAI._knn s = Some knn
    /\ normalize_scores (decision_function iforest normalized) = Ok a
    /\ normalize_scores (decision_function lof normalized) = Ok b
    /\ normalize_scores (decision_function knn normalized) = Ok c
    /\ index (SentinelAI.ensemble_weights s) 0 = Ok w0
    /\ index (SentinelAI.ensemble_weights s) 1 = Ok w1
    /\ index (SentinelAI.ensemble_weights s) 2 = Ok w2
    /\ scores = weighted_combination w0 w1 w2 a b c.
Proof.
  unfold SentinelAI._get_ensemble_score. intro H.
  bind_inv H.
  destruct (SentinelAI._iforest s) as [d1 |] eqn:D1; [| discriminate H].
  destruct (SentinelAI._lof s) as [d2 |] eqn:D2; [| discriminate H].
  destruct (SentinelAI._knn s) as [d3 |] eqn:D3; [| discriminate H].
  cbn [SentinelAI.detector bind Ok] in H.
  do 6 bind_inv H. apply Ok_inj in H.
  exists v, d1, d2, d3, v0, v1, v2, v3, v4, v5.
  repeat split; try assumption. symmetry. exact H.
Qed.

(** C9, amended. For a scorer whose weights satisfy the invariant of
    [EnsembleConfig] and any batch on which [_get_ensemble_score] returns,
    the scores are the weighted combination, by the first three weights, of
    the rescaled scores of the scorer's three detectors on the normalized
    batch, and each of these three rescaled sequences lies in [0,1], as
    does every sequence [normalize_scores] returns; every ensemble score
    lies between 0 and the sum of the weights, hence in [0, 1.001], and in
    [0,1] when the weights sum to at most 1. *)
Theorem ensemble_score_bounds (s : SentinelAI.t) (data : list (list Q)) (scores : list Q) :
  EnsembleConfig_valid (SentinelAI.ensemble_weights s) ->
  SentinelAI._get_ensemble_score s data = Ok scores ->
  (exists normalized iforest lof knn a b c w0 w1 w2,
      SentinelAI._normalize s data = Ok normalized
      /\ SentinelAI._iforest s = Some iforest
      /\ SentinelAI._lof s = Some lof
      /\ SentinelAI._knn s = Some knn
      /\ normalize_scores (decision_function iforest normalized) = Ok a
      /\ normalize_scores (decision_function lof normalized) = Ok b
      /\ normalize_scores (decision_function knn normalized) = Ok c
      /\ index (SentinelAI.ensemble_weights s) 0 = Ok w0
      /\ index (SentinelAI.ensemble_weights s) 1 = Ok w1
      /\ index (SentinelAI.ensemble_weights s) 2 = Ok w2
      /\ scores = weighted_combination w0 w1 w2 a b c
      /\ Forall (fun q => 0 <= q <= 1) a
      /\ Forall (fun q => 0 <= q <= 1) b
      /\ Forall (fun q => 0 <= q <= 1) c)
  /\ Forall (fun q => 0 <= q <= py_sum (SentinelAI.ensemble_weights s)) scores
  /\ Forall (fun q => 0 <= q <= 1.001) scores
  /\ (py_sum (SentinelAI.ensemble_weights s) <= 1 -> Forall (fun q => 0 <= q <= 1) scores)
  /\ (forall (d : Detector) (rows : list (list Q)) (rescaled : list Q),
        normalize_scores (decision_function d rows) = Ok rescaled ->
        Forall (fun q => 0 <= q <= 1) rescaled).
Proof.
  intros (_ & Hnn & Hsum) H.
  apply get_ensemble_score_detectors in H.
  destruct H as (nz & d1 & d2 & d3 & a & b & c & w0 & w1 & w2
                 & En & D1 & D2 & D3 & Ea & Eb & Ec & W0 & W1 & W2 & ->).
  pose proof (normalize_scores_unit_interval _ _ Ea) as Ua.
  pose proof (normalize_scores_unit_interval _ _ Eb) as Ub.
  pose proof (normalize_scores_unit_interval _ _ Ec) as Uc.
  destruct (first_three_le_sum _ _ _ _ Hnn W0 W1 W2) as (P0 & P1 & P2 & Le).
  pose proof (weighted_combination_bounds w0 w1 w2 a b c P0 P1 P2 Ua Ub Uc) as B.
  apply Qabs_Qle_condition in Hsum. destruct Hsum as [_ Hup].
  assert (S1 : py_sum (SentinelAI.ensemble_weights s) <= 1.001) by lra.
  split.
  { exists nz, d1, d2, d3, a, b, c, w0, w1, w2. repeat split; assumption. }
  split; [eapply Forall_impl; [| exact B]; cbv beta; intros q Hq; lra |].
  split; [eapply Forall_impl; [| exact B]; cbv beta; intros q Hq; lra |].
  split.
  - intro S0. eapply Forall_impl; [| exact B]. cbv beta. intros q Hq. lra.
  - intros d rows rescaled E. eapply normalize_scores_unit_interval. exact E.
Qed.

Lemma ensemble_score_bounds_witness :
  exists scores,
    SentinelAI._get_ensemble_score Sample.heavy_scorer Sample.batch = Ok scores
    /\ Forall (fun q => 0 <= q <= 1.001) scores.
Proof.
  eexists. split; [vm_compute; reflexivity |].
  refine (proj1 (proj2 (proj2
            (ensemble_score_bounds Sample.heavy_scorer Sample.batch _ _ _)))).
  - split; [discriminate |]. split.
    + repeat constructor; compare_constants.
    + compare_constants.
  - vm_compute. reflexivity.
Defined.

(** C10. [detect] called with the explicit threshold 0.0 does not use
    it: the result it returns is anomalous exactly when the score is
    strictly above [1 - contamination], and the call is in every respect
    the call with no threshold, in [detect] and in [detect_batch].
    Whatever threshold is supplied, the one [detect] compares the score
    with is zero only when the contamination is 1: a threshold of zero
    cannot be requested. *)
Theorem detect_zero_threshold_is_default (s : SentinelAI.t) (features : NdArray)
    (now : Time) (rows : list (list Q)) (clock : nat -> Time) :
  threshold_or (Some 0) (1 - SentinelAI.contamination s) = 1 - SentinelAI.contamination s
  /\ threshold_or None (1 - SentinelAI.contamination s) = 1 - SentinelAI.contamination s
  /\ SentinelAI.detect s features (Some 0) now = SentinelAI.detect s features None now
  /\ SentinelAI.detect_batch s rows (Some 0) clock = SentinelAI.detect_batch s rows None clock
  /\ (forall (r : AnomalyDetectionResult) (s' : SentinelAI.t),
        SentinelAI.detect s features (Some 0) now = Ok (r, s') ->
        is_anomaly r = Qlt_bool (1 - SentinelAI.contamination s) (anomaly_score r)
        /\ (is_anomaly r = true <-> 1 - SentinelAI.contamination s < anomaly_score r))
  /\ (forall (threshold : option Q) (r : AnomalyDetectionResult) (s' : SentinelAI.t),
        SentinelAI.detect s features threshold now = Ok (r, s') ->
        is_anomaly r
        = Qlt_bool (threshold_or threshold (1 - SentinelAI.contamination s))
                   (anomaly_score r))
  /\ (forall threshold : option Q,
        threshold_or threshold (1 - SentinelAI.contamination s) == 0 ->
        SentinelAI.contamination s == 1).
Proof.
  split; [reflexivity |]. split; [reflexivity |]. split; [reflexivity |].
  split.
  { unfold SentinelAI.detect_batch. generalize 0%nat. revert s.
    induction rows as [| row rows IH]; intros s i; [reflexivity |].
    cbn [SentinelAI.detect_batch_from].
    change (SentinelAI.detect s (Vector row) (Some 0) (clock i))
      with (SentinelAI.detect s (Vector row) None (clock i)).
    destruct (SentinelAI.detect s (Vector row) None (clock i)) as [e | [r s1]]; [reflexivity |].
    rewrite IH. reflexivity. }
  split.
  { intros r s' H. apply detect_inv in H. destruct H as (_ & _ & _ & Ha & _).
    change (threshold_or (Some 0) (1 - SentinelAI.contamination s))
      with (1 - SentinelAI.contamination s) in Ha.
    split; [exact Ha |]. rewrite Ha. apply Qlt_bool_iff. }
  split.
  { intros threshold r s' H. apply detect_inv in H.
    destruct H as (_ & _ & _ & Ha & _). exact Ha. }
  intros threshold Z0. destruct threshold as [t |]; cbn [threshold_or] in Z0.
  - destruct (Qeq_bool t 0) eqn:E.
    + lra.
    + apply Qeq_bool_neq in E. contradiction.
  - lra.
Qed.

Lemma detect_zero_threshold_is_default_witness :
  exists r s',
    SentinelAI.detect Sample.scorer (Matrix Sample.batch) (Some 0) 0%Z = Ok (r, s')
    /\ is_anomaly r
       = Qlt_bool (1 - SentinelAI.contamination Sample.scorer) (anomaly_score r).
Proof.
  do 2 eexists. split; [vm_compute; reflexivity |].
  refine (proj1 (proj1 (proj2 (proj2 (proj2 (proj2
            (detect_zero_threshold_is_default Sample.scorer (Matrix Sample.batch) 0%Z
               [] Sample.clock))))) _ _ _)).
  vm_compute. reflexivity.
Defined.

(** ** The circuit breaker: invariant and counting lemmas *)

Ltac breaker_cases :=
  repeat match goal with
         | |- context [match ?x with _ => _ end] => destruct x eqn:?; cbn in *
         end;
  repeat split; intros; try lia; try congruence.

Lemma init_invariant (failure_threshold recovery_timeout half_open_max_calls : Z) :
  breaker_invariant
    (CircuitBreaker.__init__ failure_threshold recovery_timeout half_open_max_calls).
Proof.
  unfold breaker_invariant. cbn. breaker_cases.
Qed.

Lemma record_failure_invariant (now : Time) (reason : string) (cb : CircuitBreaker.t) :
  breaker_invariant cb -> breaker_invariant (CircuitBreaker.record_failure now reason cb).
Proof.
  unfold breaker_invariant, CircuitBreaker.record_failure.
  destruct cb; cbn. intros (F & S & T). breaker_cases.
Qed.

Lemma record_success_invariant (cb : CircuitBreaker.t) :
  breaker_invariant cb -> breaker_invariant (CircuitBreaker.record_success cb).
Proof.
  unfold breaker_invariant, CircuitBreaker.record_success.
  destruct cb; cbn. intros (F & S & T). breaker_cases; auto.
Qed.

Lemma check_state_transition_invariant (now : Time) (cb : CircuitBreaker.t) :
  breaker_invariant cb -> breaker_invariant (CircuitBreaker._check_state_transition now cb).
Proof.
  unfold breaker_invariant, CircuitBreaker._check_state_transition.
  destruct cb; cbn. intros (F & S & T). breaker_cases; auto.
Qed.

Lemma reset_invariant (cb : CircuitBreaker.t) :
  breaker_invariant cb -> breaker_invariant (CircuitBreaker.reset cb).
Proof.
  unfold breaker_invariant. destruct cb; cbn. intros _. breaker_cases.
Qed.

Lemma record_failures_invariant (n i : nat) (clock : nat -> Time) (reason : string)
    (cb : CircuitBreaker.t) :
  breaker_invariant cb ->
  breaker_invariant (CircuitBreaker.record_failures n i clock reason cb).
Proof.
  revert i cb. induction n as [| n IH]; intros i cb H; [exact H |].
  cbn [CircuitBreaker.record_failures]. apply IH. apply record_failure_invariant. exact H.
Qed.

Lemma process_detection_invariant (clock : nat -> Time) (result : AnomalyDetectionResult)
    (cb : CircuitBreaker.t) :
  breaker_invariant cb ->
  breaker_invariant (CircuitBreaker.process_detection clock result cb).
Proof.
  intro H. unfold CircuitBreaker.process_detection. destruct (is_anomaly result).
  - apply record_failures_invariant. exact H.
  - apply record_success_invariant. exact H.
Qed.

Lemma record_failure_failures (now : Time) (reason : string) (cb : CircuitBreaker.t) :
  CircuitBreaker._failures (CircuitBreaker.record_failure now reason cb)
  = (CircuitBreaker._failures cb + 1)%Z.
Proof.
  unfold CircuitBreaker.record_failure. cbn.
  destruct (CircuitBreaker._state cb); cbn; try destruct (_ <=? _)%Z; reflexivity.
Qed.

Lemma record_failure_threshold (now : Time) (reason : string) (cb : CircuitBreaker.t) :
  CircuitBreaker.failure_threshold (CircuitBreaker.record_failure now reason cb)
  = CircuitBreaker.failure_threshold cb.
Proof.
  unfold CircuitBreaker.record_failure. cbn.
  destruct (CircuitBreaker._state cb); cbn; try destruct (_ <=? _)%Z; reflexivity.
Qed.

Lemma record_failure_state (now : Time) (reason : string) (cb : CircuitBreaker.t) :
  CircuitBreaker._state (CircuitBreaker.record_failure now reason cb)
  = match CircuitBreaker._state cb with
    | half_open => open
    | st =>
        if (CircuitBreaker.failure_threshold cb <=? CircuitBreaker._failures cb + 1)%Z
        then open else st
    end.
Proof.
  unfold CircuitBreaker.record_failure. cbn.
  destruct (CircuitBreaker._state cb) eqn:St; cbn; try destruct (_ <=? _)%Z; cbn;
    congruence.
Qed.

Lemma record_failures_failures (n i : nat) (clock : nat -> Time) (reason : string)
    (cb : CircuitBreaker.t) :
  CircuitBreaker._failures (CircuitBreaker.record_failures n i clock reason cb)
  = (CircuitBreaker._failures cb + Z.of_nat n)%Z.
Proof.
  revert i cb. induction n as [| n IH]; intros i cb.
  - simpl. lia.
  - cbn [CircuitBreaker.record_failures]. rewrite IH, record_failure_failures. lia.
Qed.

Lemma record_failures_stay_open (n i : nat) (clock : nat -> Time) (reason : string)
    (cb : CircuitBreaker.t) :
  CircuitBreaker._state cb = open ->
  CircuitBreaker._state (CircuitBreaker.record_failures n i clock reason cb) = open.
Proof.
  revert i cb. induction n as [| n IH]; intros i cb St; [exact St |].
  cbn [CircuitBreaker.record_failures]. apply IH.
  rewrite record_failure_state, St. destruct (_ <=? _)%Z; reflexivity.
Qed.

Lemma record_successes_closed (n : nat) (cb : CircuitBreaker.t) :
  CircuitBreaker._state cb = closed ->
  CircuitBreaker._failures cb = 0%Z ->
  CircuitBreaker._successes_in_half_open cb = 0%Z ->
  let cb' := record_successes n cb in
  CircuitBreaker._state cb' = closed
  /\ CircuitBreaker._failures cb' = 0%Z
  /\ CircuitBreaker._successes_in_half_open cb' = 0%Z.
Proof.
  revert cb. induction n as [| n IH]; intros cb St F S; [cbn; auto |].
  cbn [record_successes]. apply IH.
  - unfold CircuitBreaker.record_success. rewrite St. exact St.
  - unfold CircuitBreaker.record_success. rewrite St. cbn. rewrite F. reflexivity.
  - unfold CircuitBreaker.record_success. rewrite St. exact S.
Qed.

Lemma record_success_half_open (cb : CircuitBreaker.t) :
  CircuitBreaker._state cb = half_open ->
  CircuitBreaker.record_success cb
  = let cb1 := CircuitBreaker.set_successes_in_half_open
                 (CircuitBreaker._successes_in_half_open cb + 1) cb in
    if (CircuitBreaker.half_open_max_calls cb
        <=? CircuitBreaker._successes_in_half_open cb + 1)%Z
    then CircuitBreaker._transition_to_closed cb1
    else cb1.
Proof.
  intro St. unfold CircuitBreaker.record_success. rewrite St. reflexivity.
Qed.

Lemma record_successes_half_open (n : nat) (cb : CircuitBreaker.t) :
  CircuitBreaker._state cb = half_open ->
  (1 <= Z.of_nat n)%Z ->
  (CircuitBreaker.half_open_max_calls cb - CircuitBreaker._successes_in_half_open cb
   <= Z.of_nat n)%Z ->
  let cb' := record_successes n cb in
  CircuitBreaker._state cb' = closed
  /\ CircuitBreaker._failures cb' = 0%Z
  /\ CircuitBreaker._successes_in_half_open cb' = 0%Z.
Proof.
  revert cb. induction n as [| n IH]; intros cb St N1 Need; [lia |].
  cbn [record_successes]. rewrite (record_success_half_open cb St). cbv zeta.
  destruct (_ <=? _)%Z eqn:C.
  - apply record_successes_closed; reflexivity.
  - apply Z.leb_gt in C. apply IH; cbn; try assumption; lia.
Qed.

(** ** Claims on the circuit breaker *)

(** C4, as the specification states it, fails: on a fresh breaker with
    [failure_threshold = 3] the first failure is counted and timed, but its
    reason is not recorded. *)
Lemma closed_failure_reason_not_recorded :
  let cb := CircuitBreaker.__init__ 3 60 3 in
  let cb' := CircuitBreaker.record_failure 0%Z "test1" cb in
  CircuitBreaker._state cb = closed
  /\ CircuitBreaker._failures cb' = 1%Z
  /\ CircuitBreaker._last_failure_time cb' = Some 0%Z
  /\ CircuitBreaker._last_failure_reason cb' = None
  /\ CircuitBreaker._last_failure_reason cb' <> Some "test1"%string.
Proof.
  cbn. repeat split. discriminate.
Qed.

(** C4, amended. While the breaker is closed, [record_failure] adds exactly
    1 to the failure counter and records the failure time; the breaker
    becomes open exactly when the new count is at least
    [failure_threshold], and only then is the reason recorded, otherwise
    the breaker stays closed with its former reason; [record_success]
    subtracts 1 from the counter with a floor of 0 and leaves the breaker
    closed.  With [failure_threshold = 3], after three failures on a fresh
    breaker [is_open], read before the recovery timeout has elapsed, is
    true, and after two failures it is false. *)
Theorem closed_breaker_counts_failures (cb : CircuitBreaker.t) (now : Time)
    (reason : string) :
  CircuitBreaker._state cb = closed ->
  let cb' := CircuitBreaker.record_failure now reason cb in
  CircuitBreaker._failures cb' = (CircuitBreaker._failures cb + 1)%Z
  /\ CircuitBreaker._last_failure_time cb' = Some now
  /\ (CircuitBreaker._state cb' = open
      <-> (CircuitBreaker.failure_threshold cb <= CircuitBreaker._failures cb + 1)%Z)
  /\ (CircuitBreaker._state cb' = closed
      <-> (CircuitBreaker._failures cb + 1 < CircuitBreaker.failure_threshold cb)%Z)
  /\ CircuitBreaker._last_failure_reason cb'
     = (if (CircuitBreaker.failure_threshold cb <=? CircuitBreaker._failures cb + 1)%Z
        then Some reason
        else CircuitBreaker._last_failure_reason cb)
  /\ CircuitBreaker._failures (CircuitBreaker.record_success cb)
     = Z.max 0 (CircuitBreaker._failures cb - 1)
  /\ CircuitBreaker._state (CircuitBreaker.record_success cb) = closed
  /\ (forall (recovery_timeout half_open_max_calls : Z) (t1 t2 t3 read : Time)
             (r1 r2 r3 : string),
        let fresh := CircuitBreaker.__init__ 3 recovery_timeout half_open_max_calls in
        let two := CircuitBreaker.record_failure t2 r2
                     (CircuitBreaker.record_failure t1 r1 fresh) in
        let three := CircuitBreaker.record_failure t3 r3 two in
        fst (CircuitBreaker.is_open read two) = false
        /\ ((read - t3 < recovery_timeout * 1000000)%Z ->
            fst (CircuitBreaker.is_open read three) = true)).
Proof.
  intro St. cbv zeta.
  unfold CircuitBreaker.record_failure, CircuitBreaker.record_success.
  destruct cb as [ft rt hm f sh st lt lr oo oc oh inv]. cbn in St. subst st. cbn.
  destruct (ft <=? f + 1)%Z eqn:C; cbn.
  - apply Z.leb_le in C. repeat split; intros; try lia; try congruence.
    unfold CircuitBreaker.is_open, CircuitBreaker._check_state_transition,
      CircuitBreaker.recovered. cbn.
    destruct (_ <=? _)%Z eqn:R; [apply Z.leb_le in R; lia | reflexivity].
  - apply Z.leb_gt in C. repeat split; intros; try lia; try congruence.
    unfold CircuitBreaker.is_open, CircuitBreaker._check_state_transition,
      CircuitBreaker.recovered. cbn.
    destruct (_ <=? _)%Z eqn:R; [apply Z.leb_le in R; lia | reflexivity].
Qed.

Lemma closed_breaker_counts_failures_witness :
  CircuitBreaker._failures
    (CircuitBreaker.record_failure 7%Z "test1" (CircuitBreaker.__init__ 3 60 3)) = 1%Z.
Proof.
  refine (proj1 (closed_breaker_counts_failures
                   (CircuitBreaker.__init__ 3 60 3) 7%Z "test1" _)).
  reflexivity.
Defined.



(** C6. On an open breaker whose last failure is at least
    [recovery_timeout] seconds old, each of the four reads ([is_open],
    [state], [can_execute], [get_state]) performs the transition to
    half-open and answers accordingly; no other operation does, even at
    that late time: [record_failure] and [process_detection] leave the
    breaker open, [record_success] and the registrations leave it as it
    is, [reset] closes it.  A read made before the timeout has elapsed
    leaves the breaker open. *)
Theorem open_to_half_open_only_on_read (cb : CircuitBreaker.t) (last now : Time) :
  CircuitBreaker._state cb = open ->
  CircuitBreaker._last_failure_time cb = Some last ->
  (CircuitBreaker.recovery_timeout cb * 1000000 <= now - last)%Z ->
  (fst (CircuitBreaker.is_open now cb) = false
   /\ CircuitBreaker._state (snd (CircuitBreaker.is_open now cb)) = half_open)
  /\ (fst (CircuitBreaker.state now cb) = half_open
      /\ CircuitBreaker._state (snd (CircuitBreaker.state now cb)) = half_open)
  /\ (fst (CircuitBreaker.can_execute now cb) = true
      /\ CircuitBreaker._state (snd (CircuitBreaker.can_execute now cb)) = half_open)
  /\ (cbs_is_open (fst (CircuitBreaker.get_state now cb)) = false
      /\ CircuitBreaker._state (snd (CircuitBreaker.get_state now cb)) = half_open)
  /\ (forall reason : string,
        CircuitBreaker._state (CircuitBreaker.record_failure now reason cb) = open)
  /\ CircuitBreaker.record_success cb = cb
  /\ CircuitBreaker._state (CircuitBreaker.reset cb) = closed
  /\ (forall callback : Callback,
        CircuitBreaker._state (CircuitBreaker.on_open callback cb) = open
        /\ CircuitBreaker._state (CircuitBreaker.on_close callback cb) = open
        /\ CircuitBreaker._state (CircuitBreaker.on_half_open callback cb) = open)
  /\ (forall (clock : nat -> Time) (result : AnomalyDetectionResult),
        CircuitBreaker._state (CircuitBreaker.process_detection clock result cb) = open)
  /\ (forall earlier : Time,
        (earlier - last < CircuitBreaker.recovery_timeout cb * 1000000)%Z ->
        fst (CircuitBreaker.is_open earlier cb) = true
        /\ CircuitBreaker._state (snd (CircuitBreaker.is_open earlier cb)) = open).
Proof.
  intros St Lt Late.
  assert (T : CircuitBreaker._check_state_transition now cb
              = CircuitBreaker._transition_to_half_open cb).
  { unfold CircuitBreaker._check_state_transition, CircuitBreaker.recovered.
    rewrite St, Lt. apply Z.leb_le in Late. rewrite Late. reflexivity. }
  split; [unfold CircuitBreaker.is_open; rewrite T; split; reflexivity |].
  split; [unfold CircuitBreaker.state; rewrite T; split; reflexivity |].
  split; [unfold CircuitBreaker.can_execute; rewrite T; split; reflexivity |].
  split; [unfold CircuitBreaker.get_state; rewrite T; split; reflexivity |].
  split.
  { intro reason. rewrite record_failure_state, St. destruct (_ <=? _)%Z; reflexivity. }
  split.
  { unfold CircuitBreaker.record_success. rewrite St. reflexivity. }
  split; [reflexivity |].
  split.
  { intro callback. repeat split; exact St. }
  split.
  { intros clock result. unfold CircuitBreaker.process_detection.
    destruct (is_anomaly result).
    - apply record_failures_stay_open. exact St.
    - unfold CircuitBreaker.record_success. rewrite St. exact St. }
  intros earlier Early.
  unfold CircuitBreaker.is_open, CircuitBreaker._check_state_transition,
    CircuitBreaker.recovered.
  rewrite St, Lt. apply Z.leb_gt in Early. rewrite Early. rewrite St.
  split; [reflexivity | exact St].
Qed.

Lemma open_to_half_open_only_on_read_witness :
  let cb := CircuitBreaker.record_failure 0%Z "test" (CircuitBreaker.__init__ 1 1 3) in
  fst (CircuitBreaker.state 1100000%Z cb) = half_open
  /\ CircuitBreaker._state (snd (CircuitBreaker.state 1100000%Z cb)) = half_open.
Proof.
  refine (proj1 (proj2 (open_to_half_open_only_on_read
                          (CircuitBreaker.record_failure 0%Z "test"
                             (CircuitBreaker.__init__ 1 1 3))
                          0%Z 1100000%Z _ _ _))).
  - reflexivity.
  - reflexivity.
  - simpl. lia.
Defined.

(** C7. [process_detection] on an anomalous result performs exactly
    [floor(weight)] calls of [record_failure], that is 0 for LOW, 1 for
    MEDIUM, 2 for HIGH and 3 for CRITICAL, and the failure counter advances
    by that number in the one call; on a result that is not anomalous it
    performs exactly one [record_success].  With [failure_threshold = 5],
    two CRITICAL anomalies on a fresh breaker bring the counter to 6 and
    open the breaker. *)
Theorem process_detection_records_weighted_failures (clock : nat -> Time)
    (result : AnomalyDetectionResult) (cb : CircuitBreaker.t) :
  let recordings := match severity result with
                    | LOW => 0%nat
                    | MEDIUM => 1%nat
                    | HIGH => 2%nat
                    | CRITICAL => 3%nat
                    end in
  Z.of_nat recordings = Qfloor (CircuitBreaker.severity_weight (severity result))
  /\ CircuitBreaker.process_detection clock result cb
     = (if is_anomaly result
        then CircuitBreaker.record_failures recordings 0 clock
               (CircuitBreaker.detection_reason result) cb
        else CircuitBreaker.record_success cb)
  /\ CircuitBreaker._failures (CircuitBreaker.process_detection clock result cb)
     = (if is_anomaly result
        then (CircuitBreaker._failures cb + Z.of_nat recordings)%Z
        else CircuitBreaker._failures (CircuitBreaker.record_success cb))
  /\ (forall (recovery_timeout half_open_max_calls : Z) (clock1 clock2 : nat -> Time)
             (r1 r2 : AnomalyDetectionResult),
        let critical := fun r => mkResult true (threat_type r) CRITICAL (confidence r)
                                   (anomaly_score r) (contributing_factors r)
                                   (timestamp r) (metadata r) in
        let fresh := CircuitBreaker.__init__ 5 recovery_timeout half_open_max_calls in
        let one := CircuitBreaker.process_detection clock1 (critical r1) fresh in
        let two := CircuitBreaker.process_detection clock2 (critical r2) one in
        CircuitBreaker._failures one = 3%Z
        /\ CircuitBreaker._state one = closed
        /\ CircuitBreaker._failures two = 6%Z
        /\ CircuitBreaker._state two = open).
Proof.
  cbv zeta.
  assert (P : CircuitBreaker.process_detection clock result cb
              = (if is_anomaly result
                 then CircuitBreaker.record_failures
                        match severity result with
                        | LOW => 0%nat
                        | MEDIUM => 1%nat
                        | HIGH => 2%nat
                        | CRITICAL => 3%nat
                        end 0 clock (CircuitBreaker.detection_reason result) cb
                 else CircuitBreaker.record_success cb)).
  { unfold CircuitBreaker.process_detection.
    destruct (is_anomaly result); [| reflexivity].
    destruct (severity result); reflexivity. }
  split; [destruct (severity result); reflexivity |].
  split; [exact P |].
  split.
  - rewrite P. destruct (is_anomaly result); [| reflexivity].
    apply record_failures_failures.
  - intros rt hm clock1 clock2 r1 r2. cbn. repeat split.
Qed.

(** * Further properties *)

(** ** Severity and the shape of a detection result *)

Lemma Qle_bool_mono (t a b : Q) : a <= b -> Qle_bool t a = true -> Qle_bool t b = true.
Proof.
  intros L H. apply Qle_bool_iff in H. apply Qle_bool_iff. lra.
Qed.

(** X1. The severity ladder is monotonic whatever the four thresholds are:
    a greater or equal score never gets a lower severity. *)
Theorem determine_severity_monotone (s : SentinelAI.t) (a b : Q) :
  a <= b ->
  (severity_rank (SentinelAI._determine_severity s a)
   <= severity_rank (SentinelAI._determine_severity s b))%nat.
Proof.
  intro L. unfold SentinelAI._determine_severity.
  destruct (Qle_bool (SentinelAI.severity_thresholds s CRITICAL) a) eqn:C.
  { rewrite (Qle_bool_mono _ _ _ L C). apply Nat.le_refl. }
  destruct (Qle_bool (SentinelAI.severity_thresholds s HIGH) a) eqn:H.
  { rewrite (Qle_bool_mono _ _ _ L H).
    destruct (Qle_bool _ b); simpl; lia. }
  destruct (Qle_bool (SentinelAI.severity_thresholds s MEDIUM) a) eqn:M.
  { rewrite (Qle_bool_mono _ _ _ L M).
    repeat destruct (Qle_bool _ b); simpl; lia. }
  assert (Z : severity_rank (if Qle_bool (SentinelAI.severity_thresholds s LOW) a
                             then LOW else LOW) = 0%nat)
    by (destruct (Qle_bool (SentinelAI.severity_thresholds s LOW) a); reflexivity).
  rewrite Z. lia.
Qed.

Lemma determine_severity_monotone_witness :
  (severity_rank (SentinelAI._determine_severity Sample.scorer 0.6)
   <= severity_rank (SentinelAI._determine_severity Sample.scorer 0.95))%nat.
Proof.
  apply (determine_severity_monotone Sample.scorer 0.6 0.95).
  vm_compute. discriminate.
Defined.

(** Everything [detect] computes on the way to a result. *)
Lemma detect_inv_full (s : SentinelAI.t) (features : NdArray) (threshold : option Q)
    (now : Time) (r : AnomalyDetectionResult) (s' : SentinelAI.t) :
  SentinelAI.detect s features threshold now = Ok (r, s') ->
  let rows := match features with Vector v => [v] | Matrix rows => rows end in
  let limit := threshold_or threshold (1 - SentinelAI.contamination s) in
  exists scores row classified,
    SentinelAI._is_fitted s = true
    /\ SentinelAI._get_ensemble_score s rows = Ok scores
    /\ index scores 0 = Ok (anomaly_score r)
    /\ index rows 0 = Ok row
    /\ SentinelAI._classify_threat s row (anomaly_score r) = Ok classified
    /\ is_anomaly r = Qlt_bool limit (anomaly_score r)
    /\ threat_type r = (if is_anomaly r then fst classified else NONE)
    /\ severity r
       = (if is_anomaly r
          then SentinelAI._determine_severity s (anomaly_score r) else LOW)
    /\ confidence r = Qmin 1 (0.5 + Qabs (anomaly_score r - limit))
    /\ contributing_factors r = snd classified
    /\ timestamp r = now
    /\ metadata r = []
    /\ s' = SentinelAI.store s r.
Proof.
  unfold SentinelAI.detect.
  destruct (SentinelAI._is_fitted s); [| discriminate]. cbn [negb].
  intro H. bind_inv H. bind_inv H. bind_inv H. bind_inv H.
  apply Ok_inj in H. injection H as Hr Hs. subst r s'. cbn.
  exists v, v1, v2. repeat split; assumption.
Qed.

(** X2. In every result of [detect] the confidence lies in [0.5, 1] and is
    1 exactly when the score is at least 0.5 away from the threshold in
    force; a result that is not anomalous has threat type NONE and severity
    LOW whatever the classifier found, while its contributing factors are
    kept; the timestamp is the clock reading and the metadata is empty. *)
Theorem detect_result_shape (s : SentinelAI.t) (features : NdArray)
    (threshold : option Q) (now : Time) (r : AnomalyDetectionResult)
    (s' : SentinelAI.t) :
  SentinelAI.detect s features threshold now = Ok (r, s') ->
  0.5 <= confidence r <= 1
  /\ (confidence r == 1
      <-> 0.5 <= Qabs (anomaly_score r
                       - threshold_or threshold (1 - SentinelAI.contamination s)))
  /\ (is_anomaly r = false -> threat_type r = NONE /\ severity r = LOW)
  /\ (is_anomaly r = true
      -> severity r = SentinelAI._determine_severity s (anomaly_score r))
  /\ timestamp r = now
  /\ metadata r = [].
Proof.
  intro H. apply detect_inv_full in H. cbv zeta in H.
  destruct H as (scores & row & c & _ & _ & _ & _ & _ & _ & Ht & Hs & Hc & _ & Hn & Hm & _).
  set (m := Qabs (anomaly_score r
                  - threshold_or threshold (1 - SentinelAI.contamination s))) in *.
  assert (M : 0 <= m) by apply Qabs_nonneg.
  rewrite Hc.
  split; [split |].
  - apply Q.min_glb; lra.
  - apply Q.le_min_l.
  - split; [split |].
    + intro E. destruct (Q.min_spec 1 (0.5 + m)) as [[L E'] | [L E']];
        rewrite E' in E; lra.
    + intro L. apply Q.min_l. lra.
    + repeat split; try assumption.
      * rewrite Ht, H. reflexivity.
      * rewrite Hs, H. reflexivity.
      * intro A. rewrite Hs, A. reflexivity.
Qed.

Lemma detect_result_shape_witness :
  exists r s',
    SentinelAI.detect Sample.scorer (Vector [100]) None 7%Z = Ok (r, s')
    /\ 0.5 <= confidence r <= 1.
Proof.
  do 2 eexists. split; [vm_compute; reflexivity |].
  refine (proj1 (detect_result_shape Sample.scorer (Vector [100]) None 7%Z _ _ _)).
  vm_compute. reflexivity.
Defined.

(** ** Single vectors, the history and rejected inputs *)

Lemma Qlt_bool_compat_r (t a b : Q) : a == b -> Qlt_bool t a = Qlt_bool t b.
Proof.
  intro E. unfold Qlt_bool. rewrite E. reflexivity.
Qed.

Lemma detect_vector_anomaly (s : SentinelAI.t) (x : list Q) (threshold : option Q)
    (now : Time) (r : AnomalyDetectionResult) (s' : SentinelAI.t) :
  SentinelAI.detect s (Vector x) threshold now = Ok (r, s') ->
  is_anomaly r
  = Qlt_bool (threshold_or threshold (1 - SentinelAI.contamination s)) 0.
Proof.
  intro H. apply detect_inv in H. destruct H as (scores & Es & Ei & Ha & _).
  apply single_row_score_inv in Es. destruct Es as (q & -> & Hq).
  unfold index in Ei. simpl in Ei. apply Ok_inj in Ei.
  rewrite Ha. apply Qlt_bool_compat_r. rewrite <- Ei. exact Hq.
Qed.

(** X3. [detect] on a single feature vector reports an anomaly exactly
    when the threshold in force is negative.  With no threshold supplied
    and a contamination of at most 1 it never does: the result has threat
    type NONE and severity LOW, and [process_detection] turns it into one
    [record_success], never into a failure. *)
Theorem single_vector_never_anomalous (s : SentinelAI.t) (x : list Q)
    (threshold : option Q) (now : Time) (r : AnomalyDetectionResult)
    (s' : SentinelAI.t) :
  SentinelAI.detect s (Vector x) threshold now = Ok (r, s') ->
  (is_anomaly r = true
   <-> threshold_or threshold (1 - SentinelAI.contamination s) < 0)
  /\ (threshold = None -> SentinelAI.contamination s <= 1 ->
      is_anomaly r = false
      /\ threat_type r = NONE
      /\ severity r = LOW
      /\ forall (clock : nat -> Time) (cb : CircuitBreaker.t),
          CircuitBreaker.process_detection clock r cb = CircuitBreaker.record_success cb).
Proof.
  intro H. pose proof (detect_vector_anomaly _ _ _ _ _ _ H) as A.
  split.
  - rewrite A. apply Qlt_bool_iff.
  - intros -> C.
    assert (N : is_anomaly r = false).
    { rewrite A. apply Qlt_bool_false_iff. cbn [threshold_or]. lra. }
    apply detect_inv_full in H. cbv zeta in H.
    destruct H as (scores & row & c & _ & _ & _ & _ & _ & _ & Ht & Hs & _).
    rewrite N in Ht, Hs. repeat split; try assumption.
    intros clock cb. unfold CircuitBreaker.process_detection. rewrite N. reflexivity.
Qed.

Lemma single_vector_never_anomalous_witness :
  exists r s',
    SentinelAI.detect Sample.scorer (Vector [100]) None 7%Z = Ok (r, s')
    /\ (is_anomaly r = true
        <-> threshold_or None (1 - SentinelAI.contamination Sample.scorer) < 0).
Proof.
  do 2 eexists. split; [vm_compute; reflexivity |].
  refine (proj1 (single_vector_never_anomalous Sample.scorer [100] None 7%Z _ _ _)).
  vm_compute. reflexivity.
Defined.

Lemma store_history (s : SentinelAI.t) (r : AnomalyDetectionResult) :
  SentinelAI._detection_history (SentinelAI.store s r)
  = (if (SentinelAI._max_history s
         <? Z.of_nat (List.length (SentinelAI._detection_history s ++ [r])))%Z
     then tl (SentinelAI._detection_history s ++ [r])
     else SentinelAI._detection_history s ++ [r]).
Proof. reflexivity. Qed.

Lemma store_bounded (s : SentinelAI.t) (r : AnomalyDetectionResult) :
  (Z.of_nat (List.length (SentinelAI._detection_history s)) <= SentinelAI._max_history s)%Z ->
  (Z.of_nat (List.length (SentinelAI._detection_history (SentinelAI.store s r)))
   <= SentinelAI._max_history (SentinelAI.store s r))%Z.
Proof.
  intro B. rewrite store_history. cbn [SentinelAI.store SentinelAI._max_history].
  destruct (_ <? _)%Z eqn:C.
  - apply Z.ltb_lt in C.
    destruct (SentinelAI._detection_history s) as [| r0 h]; cbn [app tl].
    + simpl in *. lia.
    + rewrite length_app in *. cbn [List.length] in *. lia.
  - apply Z.ltb_ge in C. exact C.
Qed.

(** X4. The history is a bounded FIFO: if it holds at most [_max_history]
    results before a successful [detect], it does so afterwards; the new
    result is appended when there is room, and otherwise the oldest entry
    is evicted and the new result is appended; a capacity of 0 keeps the
    history empty. *)
Theorem detect_history_bounded_fifo (s : SentinelAI.t) (features : NdArray)
    (threshold : option Q) (now : Time) (r : AnomalyDetectionResult)
    (s' : SentinelAI.t) :
  SentinelAI.detect s features threshold now = Ok (r, s') ->
  (Z.of_nat (List.length (SentinelAI._detection_history s)) <= SentinelAI._max_history s)%Z ->
  SentinelAI._max_history s' = SentinelAI._max_history s
  /\ (Z.of_nat (List.length (SentinelAI._detection_history s')) <= SentinelAI._max_history s')%Z
  /\ ((Z.of_nat (List.length (SentinelAI._detection_history s)) < SentinelAI._max_history s)%Z ->
      SentinelAI._detection_history s' = SentinelAI._detection_history s ++ [r])
  /\ (Z.of_nat (List.length (SentinelAI._detection_history s)) = SentinelAI._max_history s ->
      SentinelAI._detection_history s' = tl (SentinelAI._detection_history s ++ [r]))
  /\ (SentinelAI._max_history s = 0%Z -> SentinelAI._detection_history s' = []).
Proof.
  intros H B. apply detect_inv in H. destruct H as (_ & _ & _ & _ & ->).
  split; [reflexivity |]. split; [apply store_bounded; exact B |].
  rewrite store_history, length_app. cbn [List.length].
  repeat split.
  - intro L. destruct (_ <? _)%Z eqn:C; [apply Z.ltb_lt in C; lia | reflexivity].
  - intro L. destruct (_ <? _)%Z eqn:C; [reflexivity | apply Z.ltb_ge in C; lia].
  - intro Z0. destruct (SentinelAI._detection_history s) as [| r0 h].
    + destruct (_ <? _)%Z eqn:C; [reflexivity | apply Z.ltb_ge in C; simpl in C; lia].
    + simpl in B. lia.
Qed.

Lemma detect_history_bounded_fifo_witness :
  exists r s',
    SentinelAI.detect Sample.scorer (Vector [100]) None 7%Z = Ok (r, s')
    /\ SentinelAI._max_history s' = SentinelAI._max_history Sample.scorer.
Proof.
  do 2 eexists. split; [vm_compute; reflexivity |].
  refine (proj1 (detect_history_bounded_fifo Sample.scorer (Vector [100]) None 7%Z _ _ _ _)).
  - vm_compute. reflexivity.
  - vm_compute. discriminate.
Defined.

Lemma detect_batch_from_history (threshold : option Q) (clock : nat -> Time)
    (rows : list (list Q)) :
  forall (i : nat) (s s' : SentinelAI.t) (outcome : PyResult (list AnomalyDetectionResult)),
    SentinelAI.detect_batch_from i s rows threshold clock = (outcome, s') ->
    (Z.of_nat (List.length (SentinelAI._detection_history s)) <= SentinelAI._max_history s)%Z ->
    SentinelAI._max_history s' = SentinelAI._max_history s
    /\ (Z.of_nat (List.length (SentinelAI._detection_history s'))
        <= SentinelAI._max_history s')%Z
    /\ forall results,
        outcome = Ok results ->
        (Z.of_nat (List.length (SentinelAI._detection_history s))
         + Z.of_nat (List.length rows) <= SentinelAI._max_history s)%Z ->
        SentinelAI._detection_history s' = SentinelAI._detection_history s ++ results.
Proof.
  induction rows as [| row rows IH]; intros i s s' outcome H B.
  - simpl in H. injection H as <- <-. repeat split; try assumption.
    intros results E _. apply Ok_inj in E. subst results. symmetry. apply app_nil_r.
  - cbn [SentinelAI.detect_batch_from] in H.
    destruct (SentinelAI.detect s (Vector row) threshold (clock i)) as [e | [r s1]] eqn:D.
    + injection H as <- <-. repeat split; try assumption.
      intros results E. discriminate E.
    + destruct (SentinelAI.detect_batch_from (S i) s1 rows threshold clock)
        as [rest s2] eqn:R.
      injection H as <- <-.
      pose proof D as D'. apply detect_inv in D'. destruct D' as (_ & _ & _ & _ & Es1).
      assert (M1 : SentinelAI._max_history s1 = SentinelAI._max_history s)
        by (subst s1; reflexivity).
      assert (B1 : (Z.of_nat (List.length (SentinelAI._detection_history s1))
                    <= SentinelAI._max_history s1)%Z)
        by (subst s1; apply store_bounded; exact B).
      destruct (IH _ _ _ _ R B1) as (M2 & B2 & A2).
      split; [congruence |]. split; [exact B2 |].
      intros results E Room. destruct rest as [e | rest]; [discriminate E |].
      cbn [bind] in E. apply Ok_inj in E. subst results.
      assert (H1 : SentinelAI._detection_history s1
                   = SentinelAI._detection_history s ++ [r]).
      { subst s1. rewrite store_history, length_app. cbn [List.length] in *.
        destruct (_ <? _)%Z eqn:C; [apply Z.ltb_lt in C; lia | reflexivity]. }
      rewrite (A2 rest eq_refl).
      * rewrite H1, <- app_assoc. reflexivity.
      * rewrite H1, length_app, M1. cbn [List.length] in *. lia.
Qed.

(** X5. [detect_batch] keeps the history within its capacity, on success
    and on an exception alike; when the batch fits in the remaining room,
    the history afterwards is the former one followed by the results of the
    batch, in row order. *)
Theorem detect_batch_history (s : SentinelAI.t) (rows : list (list Q))
    (threshold : option Q) (clock : nat -> Time)
    (outcome : PyResult (list AnomalyDetectionResult)) (s' : SentinelAI.t) :
  SentinelAI.detect_batch s rows threshold clock = (outcome, s') ->
  (Z.of_nat (List.length (SentinelAI._detection_history s)) <= SentinelAI._max_history s)%Z ->
  (Z.of_nat (List.length (SentinelAI._detection_history s')) <= SentinelAI._max_history s')%Z
  /\ forall results,
      outcome = Ok results ->
      (Z.of_nat (List.length (SentinelAI._detection_history s))
       + Z.of_nat (List.length rows) <= SentinelAI._max_history s)%Z ->
      SentinelAI._detection_history s' = SentinelAI._detection_history s ++ results.
Proof.
  intros H B. unfold SentinelAI.detect_batch in H.
  destruct (detect_batch_from_history _ _ _ _ _ _ _ H B) as (_ & B' & A).
  split; assumption.
Qed.

Lemma detect_batch_history_witness :
  (Z.of_nat (List.length (SentinelAI._detection_history
                            (snd (SentinelAI.detect_batch Sample.scorer Sample.batch
                                    None Sample.clock))))
   <= SentinelAI._max_history
        (snd (SentinelAI.detect_batch Sample.scorer Sample.batch None Sample.clock)))%Z.
Proof.
  refine (proj1 (detect_batch_history Sample.scorer Sample.batch None Sample.clock
                   _ _ _ _)).
  - apply surjective_pairing.
  - vm_compute. discriminate.
Defined.

(** ** Scorers that are not fitted, inputs of another width *)

(** X6. A scorer fresh from the constructor is not fitted: [detect] raises
    [ValueError] on every input, [detect_batch] raises on every non-empty
    batch and leaves the scorer untouched, [detect_batch] on an empty batch
    returns the empty list without raising, and [get_statistics] reports
    zero detections. *)
Theorem fresh_scorer_is_not_fitted (contamination : Q) (ensemble_weights : option (list Q))
    (config : option (list (string * Z))) (s : SentinelAI.t) :
  SentinelAI.__init__ contamination ensemble_weights config = Ok s ->
  (forall (features : NdArray) (threshold : option Q) (now : Time),
      SentinelAI.detect s features threshold now
      = Raise (ValueError "Model must be fitted before detection. Call fit() first."))
  /\ (forall (row : list Q) (rows : list (list Q)) (threshold : option Q)
             (clock : nat -> Time),
        SentinelAI.detect_batch s (row :: rows) threshold clock
        = (Raise (ValueError "Model must be fitted before detection. Call fit() first."), s))
  /\ (forall (threshold : option Q) (clock : nat -> Time),
        SentinelAI.detect_batch s [] threshold clock = (Ok [], s))
  /\ get_statistics s = NoDetections 0.
Proof.
  unfold SentinelAI.__init__. destruct (Qlt_bool 0.001 _); [discriminate |].
  intro H. apply Ok_inj in H. subst s. repeat split.
Qed.

Lemma fresh_scorer_is_not_fitted_witness :
  exists s,
    SentinelAI.__init__ 0.1 None None = Ok s
    /\ get_statistics s = NoDetections 0.
Proof.
  eexists. split; [vm_compute; reflexivity |].
  refine (proj2 (proj2 (proj2 (fresh_scorer_is_not_fitted 0.1 None None _ _)))).
  vm_compute. reflexivity.
Defined.

Lemma broadcast_mismatch (f : Q -> Q -> Q) (xs ys : list Q) :
  List.length xs <> List.length ys ->
  List.length xs <> 1%nat ->
  List.length ys <> 1%nat ->
  broadcast f xs ys = Raise (ValueError "operands could not be broadcast together").
Proof.
  intros N X Y. unfold broadcast.
  destruct (Nat.eqb (List.length xs) (List.length ys)) eqn:E.
  - apply Nat.eqb_eq in E. contradiction.
  - destruct xs as [| x [| x' xs]]; destruct ys as [| y [| y' ys]];
      try reflexivity; simpl in *; congruence.
Qed.

(** X7. A fitted scorer rejects a feature vector of another width with the
    [ValueError] of numpy's broadcasting, unless one of the two widths is
    1; the scorer and its history are left as they were, since [detect]
    returns no new state. *)
Theorem detect_rejects_other_width (s : SentinelAI.t) (n : nat) (x : list Q)
    (threshold : option Q) (now : Time) :
  Fitted s n ->
  List.length x <> n ->
  List.length x <> 1%nat ->
  n <> 1%nat ->
  SentinelAI.detect s (Vector x) threshold now
  = Raise (ValueError "operands could not be broadcast together").
Proof.
  intros (Ef & _ & _ & _ & (mean & Em & Lm) & (std & Es & Ls)) N X1 N1.
  unfold SentinelAI.detect. rewrite Ef. cbn [negb].
  unfold SentinelAI._get_ensemble_score, SentinelAI._normalize.
  rewrite Em, Es. cbn [map_rows].
  rewrite broadcast_mismatch by congruence. reflexivity.
Qed.

Lemma wide_scorer_built :
  (s <- SentinelAI.__init__ 0.1 None None ;;
   SentinelAI.fit Sample.unit_std Sample.sum_detector Sample.sum_detector
     Sample.sum_detector s Wide.training)
  = Ok Wide.scorer.
Proof. vm_compute. reflexivity. Qed.

Lemma detect_rejects_other_width_witness :
  SentinelAI.detect Wide.scorer (Vector [1; 2; 3]) None 0%Z
  = Raise (ValueError "operands could not be broadcast together").
Proof.
  apply (detect_rejects_other_width Wide.scorer 2 [1; 2; 3] None 0%Z).
  - sample_fitted.
  - simpl. lia.
  - simpl. lia.
  - lia.
Defined.

Lemma broadcast_singleton (f : Q -> Q -> Q) (x : Q) (ys : list Q) :
  (1 <= List.length ys)%nat ->
  exists zs, broadcast f [x] ys = Ok zs /\ List.length zs = List.length ys.
Proof.
  intro L. unfold broadcast.
  destruct (Nat.eqb (List.length [x]) (List.length ys)) eqn:E.
  - eexists. split; [reflexivity |].
    apply Nat.eqb_eq in E. rewrite length_map, length_combine, <- E. reflexivity.
  - eexists. split; [reflexivity | apply length_map].
Qed.

(** X8. A vector of one element is never rejected for its width: on a
    scorer fitted on any number n >= 1 of features (with the three weights
    the score needs) numpy's broadcasting stretches it to n values, and
    [detect] returns a result. *)
Theorem detect_accepts_one_element_vector (s : SentinelAI.t) (n : nat) (v : Q)
    (threshold : option Q) (now : Time) :
  Fitted s n ->
  (1 <= n)%nat ->
  (3 <= List.length (SentinelAI.ensemble_weights s))%nat ->
  exists r s', SentinelAI.detect s (Vector [v]) threshold now = Ok (r, s').
Proof.
  intros (Ef & (d1 & E1) & (d2 & E2) & (d3 & E3) & (mean & Em & Lm) & (std & Es & Ls)) N W.
  destruct (broadcast_singleton Qminus v mean) as (c & Ec & Lc); [lia |].
  destruct (broadcast_same_length Qdiv c (map (fun sd => sd + 1e-8) std)) as (z & Ez & _).
  { rewrite length_map. congruence. }
  destruct (index_lt (SentinelAI.ensemble_weights s) 0) as (w0 & W0); [lia |].
  destruct (index_lt (SentinelAI.ensemble_weights s) 1) as (w1 & W1); [lia |].
  destruct (index_lt (SentinelAI.ensemble_weights s) 2) as (w2 & W2); [lia |].
  assert (M0 : exists m0, index mean 0 = Ok m0) by (apply index_lt; lia).
  assert (S0 : exists s0, index std 0 = Ok s0) by (apply index_lt; lia).
  destruct M0 as (m0 & M0). destruct S0 as (s0 & S0).
  unfold SentinelAI.detect. rewrite Ef. cbn [negb].
  unfold SentinelAI._get_ensemble_score, SentinelAI._normalize.
  rewrite Em, Es. cbn [map_rows]. rewrite Ec. cbn [bind Ok]. rewrite Ez. cbn [bind Ok].
  rewrite E1, E2, E3. cbn [bind Ok SentinelAI.detector decision_function map].
  rewrite !normalize_scores_single. cbn [bind Ok]. rewrite W0, W1, W2. cbn [bind Ok].
  unfold weighted_combination. cbn [combine map index nth_error bind Ok].
  unfold SentinelAI._classify_threat, SentinelAI.analyze, SentinelAI.HASHRATE_IDX,
    SentinelAI.EARNINGS_IDX, SentinelAI.REJECT_RATE_IDX.
  cbn [List.length Nat.ltb Nat.leb].
  change (index [v] 0) with (@Ok Q v).
  rewrite Em, Es. cbn [SentinelAI.statistics bind Ok]. rewrite M0, S0. cbn [bind Ok].
  repeat match goal with
         | |- context [if ?b then _ else _] => destruct b; cbn [bind Ok]
         end; do 2 eexists; reflexivity.
Qed.

Lemma detect_accepts_one_element_vector_witness :
  exists r s', SentinelAI.detect Wide.scorer (Vector [5]) None 0%Z = Ok (r, s').
Proof.
  apply (detect_accepts_one_element_vector Wide.scorer 2 5 None 0%Z).
  - sample_fitted.
  - lia.
  - simpl. lia.
Defined.

(** ** Statistics over the history *)

Lemma dict_get_set {A : Type} (d : list (string * A)) (k key : string) (v default : A) :
  dict_get (dict_set d k v) key default
  = if String.eqb k key then v else dict_get d key default.
Proof.
  induction d as [| [k0 x] d IH]; simpl.
  - reflexivity.
  - destruct (String.eqb k0 k) eqn:E0.
    + apply String.eqb_eq in E0. subst k0. simpl.
      destruct (String.eqb k key); reflexivity.
    + simpl. destruct (String.eqb k0 key) eqn:E1.
      * apply String.eqb_eq in E1. subst k0.
        rewrite String.eqb_sym, E0. reflexivity.
      * exact IH.
Qed.

Lemma dict_set_keys_fresh {A : Type} (d : list (string * A)) (k : string) (v : A) :
  NoDup (map fst d) ->
  NoDup (map fst (dict_set d k v))
  /\ forall key, In key (map fst (dict_set d k v)) -> key = k \/ In key (map fst d).
Proof.
  induction d as [| [k0 x] d IH]; intro N; simpl.
  - split; [repeat constructor; intros [] | intros key [<- | []]; left; reflexivity].
  - inversion N as [| ? ? Nin Nd]; subst.
    destruct (String.eqb k0 k) eqn:E0.
    + apply String.eqb_eq in E0. subst k0. split; [exact N |].
      intros key Hk. right. exact Hk.
    + destruct (IH Nd) as (N' & Sub). split.
      * simpl. constructor; [| exact N'].
        intro Hin. destruct (Sub _ Hin) as [-> | Hin']; [| contradiction].
        rewrite String.eqb_refl in E0. discriminate.
      * simpl. intros key [<- | Hk]; [right; left; reflexivity |].
        destruct (Sub _ Hk); [left | right; right]; assumption.
Qed.

Lemma dict_set_total (d : list (string * Z)) (k : string) :
  fold_right Z.add 0%Z (map snd (count_key d k))
  = (fold_right Z.add 0%Z (map snd d) + 1)%Z.
Proof.
  unfold count_key. induction d as [| [k0 x] d IH]; simpl.
  - reflexivity.
  - destruct (String.eqb k0 k) eqn:E0; simpl.
    + lia.
    + rewrite IH. lia.
Qed.

Lemma fold_count_result (rs : list AnomalyDetectionResult)
    (threats severities : list (string * Z)) :
  fold_left count_result rs (threats, severities)
  = (fold_left (fun d r => count_key d (ThreatType_value (threat_type r))) rs threats,
     fold_left (fun d r => count_key d (Severity_value (severity r))) rs severities).
Proof.
  revert threats severities. induction rs as [| r rs IH]; intros; simpl.
  - reflexivity.
  - unfold count_result at 2. simpl. apply IH.
Qed.

(** Counting the keys of a sequence into a dict, one increment each. *)
Lemma fold_count_key {A : Type} (keyof : A -> string) (rs : list A)
    (d : list (string * Z)) :
  NoDup (map fst d) ->
  NoDup (map fst (fold_left (fun d r => count_key d (keyof r)) rs d))
  /\ fold_right Z.add 0%Z (map snd (fold_left (fun d r => count_key d (keyof r)) rs d))
     = (fold_right Z.add 0%Z (map snd d) + Z.of_nat (List.length rs))%Z
  /\ forall key,
      dict_get (fold_left (fun d r => count_key d (keyof r)) rs d) key 0%Z
      = (dict_get d key 0
         + Z.of_nat (List.length (filter (fun r => String.eqb (keyof r) key) rs)))%Z.
Proof.
  revert d. induction rs as [| r rs IH]; intros d N.
  - simpl. repeat split; try assumption; intros; lia.
  - cbn [fold_left].
    destruct (dict_set_keys_fresh d (keyof r) (dict_get d (keyof r) 0 + 1)%Z N) as (N' & _).
    destruct (IH (count_key d (keyof r)) N') as (Nk & Sum & Get).
    split; [exact Nk |]. split.
    + rewrite Sum, dict_set_total. cbn [List.length]. lia.
    + intro key. rewrite Get. unfold count_key at 1. rewrite dict_get_set.
      cbn [filter]. destruct (String.eqb (keyof r) key) eqn:E.
      * apply String.eqb_eq in E. rewrite E. cbn [List.length]. lia.
      * lia.
Qed.

Lemma ratio_unit_interval (a n : Z) :
  (0 <= a <= n)%Z -> (0 < n)%Z -> 0 <= inject_Z a / inject_Z n <= 1.
Proof.
  intros A N.
  assert (P : 0 < inject_Z n) by (change 0 with (inject_Z 0); rewrite <- Zlt_Qlt; lia).
  split.
  - apply Qle_shift_div_l; [exact P |]. rewrite Qmult_0_l.
    change 0 with (inject_Z 0). rewrite <- Zle_Qle. lia.
  - apply Qle_shift_div_r; [exact P |]. rewrite Qmult_1_l.
    rewrite <- Zle_Qle. lia.
Qed.

(** X9. On a non-empty history [get_statistics] reports the six entries:
    the number of stored results, the number of anomalous ones, which is
    at most the former, and a rate in [0,1]; each distribution has
    distinct keys, its counts add up to the number of anomalies, and the
    count under a key is the number of anomalous results carrying that
    threat type (or severity), 0 for a key that never occurred. *)
Theorem get_statistics_counts (s : SentinelAI.t) :
  SentinelAI._detection_history s <> [] ->
  exists total anomalies rate threats severities average,
    get_statistics s = Detections total anomalies rate threats severities average
    /\ total = Z.of_nat (List.length (SentinelAI._detection_history s))
    /\ anomalies
       = Z.of_nat (List.length (filter is_anomaly (SentinelAI._detection_history s)))
    /\ (0 <= anomalies <= total)%Z
    /\ 0 <= rate <= 1
    /\ NoDup (map fst threats)
    /\ NoDup (map fst severities)
    /\ fold_right Z.add 0%Z (map snd threats) = anomalies
    /\ fold_right Z.add 0%Z (map snd severities) = anomalies
    /\ (forall key,
          dict_get threats key 0%Z
          = Z.of_nat (List.length
                        (filter (fun r => is_anomaly r
                                          && String.eqb (ThreatType_value (threat_type r)) key)
                                (SentinelAI._detection_history s))))
    /\ (forall key,
          dict_get severities key 0%Z
          = Z.of_nat (List.length
                        (filter (fun r => is_anomaly r
                                          && String.eqb (Severity_value (severity r)) key)
                                (SentinelAI._detection_history s)))).
Proof.
  intro NE. unfold get_statistics.
  destruct (SentinelAI._detection_history s) as [| r0 h] eqn:H; [contradiction |].
  set (history := r0 :: h) in *.
  rewrite fold_count_result. cbn [fst snd].
  destruct (fold_count_key (fun r => ThreatType_value (threat_type r))
              (filter is_anomaly history) [] (NoDup_nil _)) as (Nt & St & Gt).
  destruct (fold_count_key (fun r => Severity_value (severity r))
              (filter is_anomaly history) [] (NoDup_nil _)) as (Ns & Ss & Gs).
  assert (Lf : (List.length (filter is_anomaly history) <= List.length history)%nat)
    by apply filter_length_le.
  assert (Lp : (0 < List.length history)%nat) by (subst history; simpl; lia).
  assert (Ff : forall (keyof : AnomalyDetectionResult -> string) key,
             filter (fun r => String.eqb (keyof r) key) (filter is_anomaly history)
             = filter (fun r => is_anomaly r && String.eqb (keyof r) key) history).
  { intros keyof key. clear. induction history as [| r l IH]; [reflexivity |].
    cbn [filter]. destruct (is_anomaly r); cbn [filter andb]; rewrite IH; reflexivity. }
  do 6 eexists. split; [reflexivity |].
  split; [reflexivity |]. split; [reflexivity |].
  split; [lia |]. split; [apply ratio_unit_interval; lia |].
  split; [exact Nt |]. split; [exact Ns |].
  split; [rewrite St; simpl; lia |]. split; [rewrite Ss; simpl; lia |].
  split.
  - intro key. rewrite Gt, Ff. simpl. reflexivity.
  - intro key. rewrite Gs, Ff. simpl. reflexivity.
Qed.

Lemma get_statistics_counts_witness :
  exists total anomalies rate threats severities average,
    get_statistics
      (with_history [mkResult true UNKNOWN HIGH 1 0.95 [] 0%Z []] Sample.scorer)
    = Detections total anomalies rate threats severities average
    /\ total = 1%Z.
Proof.
  destruct (get_statistics_counts
              (with_history [mkResult true UNKNOWN HIGH 1 0.95 [] 0%Z []] Sample.scorer))
    as (t & a & r & th & sv & av & E & Et & _).
  - discriminate.
  - exists t, a, r, th, sv, av. split; [exact E | rewrite Et; reflexivity].
Defined.

(** ** The configuration validator, [fit] and the serving layer *)

(** X10. Every weight sequence the validator of [ModelConfig] accepts is
    returned unchanged, is not empty, and is accepted by the constructor of
    the scorer, which then holds exactly these weights; the empty sequence
    is rejected by the validator although the constructor would replace it
    by the default weights. *)
Theorem validated_weights_are_accepted (v v' : list Q) :
  validate_weights v = Ok v' ->
  v' = v
  /\ v <> []
  /\ (forall (contamination : Q) (config : option (list (string * Z))),
        exists s, SentinelAI.__init__ contamination (Some v) config = Ok s
                  /\ SentinelAI.ensemble_weights s = v)
  /\ validate_weights [] = Raise (ValueError "Ensemble weights must sum to 1.0").
Proof.
  unfold validate_weights. destruct (Qlt_bool 0.001 (Qabs (py_sum v - 1))) eqn:B;
    [discriminate |].
  intro H. apply Ok_inj in H. subst v'.
  assert (NE : v <> []).
  { intros ->. vm_compute in B. discriminate B. }
  repeat split; try assumption.
  intros contamination config. unfold SentinelAI.__init__.
  assert (W : SentinelAI.weights_or_default (Some v) = v)
    by (destruct v; [contradiction | reflexivity]).
  rewrite W, B. eexists. split; reflexivity.
Qed.

Lemma validated_weights_are_accepted_witness :
  exists s, SentinelAI.__init__ 0.1 (Some [0.4; 0.3; 0.3]) None = Ok s
            /\ SentinelAI.ensemble_weights s = [0.4; 0.3; 0.3].
Proof.
  refine (proj1 (proj2 (proj2
            (validated_weights_are_accepted [0.4; 0.3; 0.3] [0.4; 0.3; 0.3] _))) 0.1 None).
  vm_compute. reflexivity.
Defined.

(** X11. A successful [fit] on a non-empty training matrix, with standard
    deviations of the training width, gives a fitted scorer of that width
    and changes neither the weights, the contamination, the thresholds,
    the capacity nor the history; with at least three weights, [detect]
    then returns a result on every vector of the training width. *)
Theorem fit_then_detect (np_std : list (list Q) -> list Q)
    (IForest LOF KNN : Q -> Z -> list (list Q) -> Detector)
    (s s' : SentinelAI.t) (row : list Q) (data : list (list Q)) :
  List.length (np_std (row :: data)) = List.length row ->
  SentinelAI.fit np_std IForest LOF KNN s (row :: data) = Ok s' ->
  Fitted s' (List.length row)
  /\ SentinelAI.ensemble_weights s' = SentinelAI.ensemble_weights s
  /\ SentinelAI.contamination s' = SentinelAI.contamination s
  /\ SentinelAI.severity_thresholds s' = SentinelAI.severity_thresholds s
  /\ SentinelAI._max_history s' = SentinelAI._max_history s
  /\ SentinelAI._detection_history s' = SentinelAI._detection_history s
  /\ ((3 <= List.length (SentinelAI.ensemble_weights s))%nat ->
      forall (x : list Q) (threshold : option Q) (now : Time),
        List.length x = List.length row ->
        exists r s'', SentinelAI.detect s' (Vector x) threshold now = Ok (r, s'')).
Proof.
  intros Ls H. pose proof (fit_Fitted _ _ _ _ _ _ _ _ Ls H) as F.
  unfold SentinelAI.fit in H. bind_inv H. apply Ok_inj in H.
  assert (W : SentinelAI.ensemble_weights s' = SentinelAI.ensemble_weights s)
    by (subst s'; reflexivity).
  split; [exact F |]. split; [exact W |].
  split; [subst s'; reflexivity |]. split; [subst s'; reflexivity |].
  split; [subst s'; reflexivity |]. split; [subst s'; reflexivity |].
  intros L3 x threshold now Lx.
  destruct (detect_single_total s' (List.length row) x threshold now F Lx) as (r & s2 & D & _).
  - rewrite W. exact L3.
  - exists r, s2. exact D.
Qed.

Lemma fit_then_detect_witness :
  exists s', Sample.fit_with None = Ok s' /\ Fitted s' 1.
Proof.
  exists Sample.scorer. split; [vm_compute; reflexivity |].
  refine (proj1 (fit_then_detect Sample.unit_std Sample.sum_detector Sample.sum_detector
                   Sample.sum_detector
                   (SentinelAI.mk 0.1 [0.4; 0.3; 0.3] [] None None None false None None
                      SentinelAI.default_severity_thresholds [] 1000)
                   Sample.scorer [0] [[2]] _ _)).
  - reflexivity.
  - vm_compute. reflexivity.
Defined.

(** X12. What the serving layer sees after [_load_sentinel_model]: when
    the constructor raised, [detect_anomaly] raises "Sentinel model not
    loaded"; with no checkpoint file it raises "Sentinel model not
    trained"; with a checkpoint, the scorer counts as fitted whatever the
    checkpoint holds, so a checkpoint without the Isolation Forest passes
    both checks and makes every call fail with an exception raised inside
    [detect]. *)
Theorem detect_anomaly_after_loading (contamination : Q) (weights : list Q)
    (features : NdArray) (threshold : option Q) (now : Time) :
  (_load_sentinel_model contamination weights None = None
   -> detect_anomaly (_load_sentinel_model contamination weights None)
        features threshold now
      = inl (RuntimeError "Sentinel model not loaded"))
  /\ (forall s,
        _load_sentinel_model contamination weights None = Some s ->
        detect_anomaly (Some s) features threshold now
        = inl (RuntimeError "Sentinel model not trained"))
  /\ (forall state s,
        _load_sentinel_model contamination weights (Some state) = Some s ->
        SentinelAI._is_fitted s = true
        /\ (ck_iforest state = None ->
            exists e, detect_anomaly (Some s) features threshold now = inl (Raised e))).
Proof.
  unfold _load_sentinel_model.
  destruct (SentinelAI.__init__ contamination (Some weights) None) as [e | s0] eqn:I.
  - split; [intros _; reflexivity |]. split; intros; discriminate.
  - split; [discriminate |]. split.
    + intros s E. injection E as <-.
      unfold SentinelAI.__init__ in I. destruct (Qlt_bool _ _); [discriminate |].
      apply Ok_inj in I. subst s0. reflexivity.
    + intros state s E. injection E as <-. split; [reflexivity |].
      intro N. unfold detect_anomaly. cbn [restore SentinelAI._is_fitted negb].
      unfold SentinelAI.detect. cbn [restore SentinelAI._is_fitted negb].
      unfold SentinelAI._get_ensemble_score.
      destruct (SentinelAI._normalize _ _) as [e | nz]; [eexists; reflexivity |].
      cbn [bind restore SentinelAI._iforest]. rewrite N. eexists. reflexivity.
Qed.

(** ** The circuit breaker over sequences of operations *)

Lemma callbacks_invariant (cb : CircuitBreaker.t) (callback : Callback) :
  breaker_invariant cb ->
  breaker_invariant (CircuitBreaker.on_open callback cb)
  /\ breaker_invariant (CircuitBreaker.on_close callback cb)
  /\ breaker_invariant (CircuitBreaker.on_half_open callback cb).
Proof.
  intro H. repeat split; apply H.
Qed.

Lemma perform_invariant (cb : CircuitBreaker.t) (op : Operation) :
  breaker_invariant cb -> breaker_invariant (perform cb op).
Proof.
  intro H. destruct op; cbn [perform].
  - apply check_state_transition_invariant. exact H.
  - apply check_state_transition_invariant. exact H.
  - apply check_state_transition_invariant. exact H.
  - apply check_state_transition_invariant. exact H.
  - apply record_failure_invariant. exact H.
  - apply record_success_invariant. exact H.
  - apply reset_invariant. exact H.
  - apply callbacks_invariant. exact H.
  - apply callbacks_invariant. exact H.
  - apply callbacks_invariant. exact H.
  - apply process_detection_invariant. exact H.
Qed.

(** X13. Whatever sequence of operations is performed on a breaker fresh
    from its constructor, with any clock readings, the failure counter and
    the half-open success counter are never negative, and a breaker that is
    open always has a last failure time, so that its recovery can be
    evaluated. *)
Theorem breaker_invariant_always (failure_threshold recovery_timeout half_open_max_calls : Z)
    (ops : list Operation) :
  breaker_invariant
    (perform_all ops
       (CircuitBreaker.__init__ failure_threshold recovery_timeout half_open_max_calls)).
Proof.
  unfold perform_all.
  generalize (init_invariant failure_threshold recovery_timeout half_open_max_calls).
  generalize (CircuitBreaker.__init__ failure_threshold recovery_timeout half_open_max_calls).
  induction ops as [| op ops IH]; intros cb H; [exact H |].
  cbn [fold_left]. apply IH. apply perform_invariant. exact H.
Qed.

Lemma record_failures_recovery_timeout (n i : nat) (clock : nat -> Time) (reason : string)
    (cb : CircuitBreaker.t) :
  CircuitBreaker.recovery_timeout (CircuitBreaker.record_failures n i clock reason cb)
  = CircuitBreaker.recovery_timeout cb.
Proof.
  revert i cb. induction n as [| n IH]; intros i cb; [reflexivity |].
  cbn [CircuitBreaker.record_failures]. rewrite IH.
  unfold CircuitBreaker.record_failure. cbn.
  destruct (CircuitBreaker._state cb); cbn; try destruct (_ <=? _)%Z; reflexivity.
Qed.

Lemma record_failures_below_threshold (n i : nat) (clock : nat -> Time) (reason : string)
    (cb : CircuitBreaker.t) :
  CircuitBreaker._state cb = closed ->
  (CircuitBreaker._failures cb + Z.of_nat n < CircuitBreaker.failure_threshold cb)%Z ->
  let cb' := CircuitBreaker.record_failures n i clock reason cb in
  CircuitBreaker._state cb' = closed
  /\ CircuitBreaker._failures cb' = (CircuitBreaker._failures cb + Z.of_nat n)%Z
  /\ CircuitBreaker.failure_threshold cb' = CircuitBreaker.failure_threshold cb
  /\ CircuitBreaker._last_failure_reason cb' = CircuitBreaker._last_failure_reason cb
  /\ CircuitBreaker.invocations cb' = CircuitBreaker.invocations cb.
Proof.
  revert i cb. induction n as [| n IH]; intros i cb St B; cbv zeta.
  - cbn. repeat split; try assumption; lia.
  - cbn [CircuitBreaker.record_failures].
    assert (E : CircuitBreaker.record_failure (clock i) reason cb
                = CircuitBreaker.set_last_failure_time (Some (clock i))
                    (CircuitBreaker.set_failures (CircuitBreaker._failures cb + 1) cb)).
    { unfold CircuitBreaker.record_failure. cbn. rewrite St.
      destruct (_ <=? _)%Z eqn:C; [apply Z.leb_le in C; lia | reflexivity]. }
    rewrite E.
    destruct (IH (S i) (CircuitBreaker.set_last_failure_time (Some (clock i))
                          (CircuitBreaker.set_failures (CircuitBreaker._failures cb + 1) cb)))
      as (A1 & A2 & A3 & A4 & A5).
    + exact St.
    + cbn. lia.
    + cbn in *. repeat split; try assumption. lia.
Qed.

(** X14. On a fresh breaker with [failure_threshold = n >= 1], the first
    [k < n] failures leave it closed with the counter at [k], no recorded
    reason and no callback invoked, and admission granted; the n-th
    failure opens it, records that failure's reason and time, and refuses
    admission until the recovery timeout has elapsed. *)
Theorem breaker_opens_at_threshold (n k : nat) (recovery_timeout half_open_max_calls : Z)
    (clock : nat -> Time) (reason : string) (now : Time) :
  (k < n)%nat ->
  let fresh := CircuitBreaker.__init__ (Z.of_nat n) recovery_timeout half_open_max_calls in
  let before := CircuitBreaker.record_failures k 0 clock reason fresh in
  let tripped := CircuitBreaker.record_failures n 0 clock reason fresh in
  (CircuitBreaker._state before = closed
   /\ CircuitBreaker._failures before = Z.of_nat k
   /\ CircuitBreaker._last_failure_reason before = None
   /\ fst (CircuitBreaker.can_execute now before) = true)
  /\ (CircuitBreaker._state tripped = open
      /\ CircuitBreaker._failures tripped = Z.of_nat n
      /\ CircuitBreaker._last_failure_reason tripped = Some reason
      /\ CircuitBreaker._last_failure_time tripped = Some (clock (n - 1)%nat)
      /\ ((now - clock (n - 1)%nat < recovery_timeout * 1000000)%Z ->
          fst (CircuitBreaker.can_execute now tripped) = false)).
Proof.
  intros K fresh before tripped.
  assert (Below : forall j i, (j < n)%nat ->
            let cb := CircuitBreaker.record_failures j i clock reason fresh in
            CircuitBreaker._state cb = closed
            /\ CircuitBreaker._failures cb = Z.of_nat j
            /\ CircuitBreaker.failure_threshold cb = Z.of_nat n
            /\ CircuitBreaker._last_failure_reason cb = None).
  { intros j i J.
    destruct (record_failures_below_threshold j i clock reason fresh) as (A1 & A2 & A3 & A4 & _).
    - reflexivity.
    - cbn. lia.
    - cbn in A2, A3, A4. repeat split; assumption. }
  split.
  - destruct (Below k 0%nat K) as (A1 & A2 & _ & A4). fold before in A1, A2, A4.
    repeat split; try assumption.
    unfold CircuitBreaker.can_execute, CircuitBreaker._check_state_transition.
    rewrite A1. cbn. rewrite A1. reflexivity.
  - destruct n as [| m]; [lia |].
    assert (Split : forall j i cb,
              CircuitBreaker.record_failures (S j) i clock reason cb
              = CircuitBreaker.record_failure (clock (i + j)%nat) reason
                  (CircuitBreaker.record_failures j i clock reason cb)).
    { induction j as [| j IH]; intros i cb.
      - cbn. rewrite Nat.add_0_r. reflexivity.
      - cbn [CircuitBreaker.record_failures]. rewrite <- Nat.add_succ_comm.
        rewrite <- IH. reflexivity. }
    unfold tripped. rewrite Split. cbn [Nat.add].
    destruct (Below m 0%nat (Nat.lt_succ_diag_r m)) as (A1 & A2 & A3 & A4).
    set (cb := CircuitBreaker.record_failures m 0 clock reason fresh) in *.
    replace (S m - 1)%nat with m by lia.
    assert (T : CircuitBreaker.record_failure (clock m) reason cb
                = CircuitBreaker._transition_to_open reason
                    (CircuitBreaker.set_last_failure_time (Some (clock m))
                       (CircuitBreaker.set_failures (CircuitBreaker._failures cb + 1) cb))).
    { unfold CircuitBreaker.record_failure. cbn. rewrite A1, A2, A3.
      destruct (_ <=? _)%Z eqn:C; [reflexivity | apply Z.leb_gt in C; lia]. }
    rewrite T. cbn. rewrite A2. repeat split; try lia.
    intro Early. unfold CircuitBreaker.recovered. cbn.
    unfold cb. rewrite record_failures_recovery_timeout. cbn.
    destruct (_ <=? _)%Z eqn:C; [apply Z.leb_le in C; lia | reflexivity].
Qed.

Lemma breaker_opens_at_threshold_witness :
  CircuitBreaker._state
    (CircuitBreaker.record_failures 3 0 Sample.clock "overload"
       (CircuitBreaker.__init__ 3 60 3)) = open.
Proof.
  refine (proj1 (proj2 (breaker_opens_at_threshold 3 2 60 3 Sample.clock "overload" 0%Z _))).
  lia.
Defined.

(** X15. A failure recorded while the breaker is already open, with the
    counter at or above the threshold, runs the transition to open again:
    the reason is replaced, every [on_open] callback is invoked once more,
    in registration order, with the new reason, and the last failure time
    is moved to the new failure, so the recovery timeout starts over: a
    read less than [recovery_timeout] after the new failure finds the
    breaker open however old the first failure is. *)
Theorem failure_while_open_restarts_recovery (cb : CircuitBreaker.t) (now read : Time)
    (reason : string) :
  CircuitBreaker._state cb = open ->
  (CircuitBreaker.failure_threshold cb <= CircuitBreaker._failures cb + 1)%Z ->
  let cb' := CircuitBreaker.record_failure now reason cb in
  CircuitBreaker._state cb' = open
  /\ CircuitBreaker._last_failure_reason cb' = Some reason
  /\ CircuitBreaker._last_failure_time cb' = Some now
  /\ CircuitBreaker.invocations cb'
     = CircuitBreaker.invocations cb
       ++ map (fun c => Called c (Some reason)) (CircuitBreaker._on_open_callbacks cb)
  /\ ((read - now < CircuitBreaker.recovery_timeout cb * 1000000)%Z ->
      fst (CircuitBreaker.is_open read cb') = true).
Proof.
  destruct cb as [ft rt hm f sh st lt lr oo oc oh inv]. cbn. intros St T. subst st.
  unfold CircuitBreaker.record_failure. cbn.
  apply Z.leb_le in T. rewrite T. cbn. repeat split.
  intro Early. unfold CircuitBreaker.is_open, CircuitBreaker._check_state_transition,
    CircuitBreaker.recovered. cbn.
  destruct (rt * 1000000 <=? read - now)%Z eqn:C; [apply Z.leb_le in C; lia | reflexivity].
Qed.

Lemma failure_while_open_restarts_recovery_witness :
  let cb := CircuitBreaker.record_failure 0%Z "first"
              (CircuitBreaker.on_open 7%nat (CircuitBreaker.__init__ 1 60 3)) in
  CircuitBreaker.invocations (CircuitBreaker.record_failure 90000000%Z "second" cb)
  = [Called 7%nat (Some "first"%string); Called 7%nat (Some "second"%string)].
Proof.
  refine (proj1 (proj2 (proj2 (proj2
            (failure_while_open_restarts_recovery
               (CircuitBreaker.record_failure 0%Z "first"
                  (CircuitBreaker.on_open 7%nat (CircuitBreaker.__init__ 1 60 3)))
               90000000%Z 0%Z "second" _ _))))).
  - reflexivity.
  - simpl. lia.
Defined.

(** X16. [reset] closes the breaker from any state: both counters are 0,
    the reason is cleared, every [on_close] callback is invoked once, and
    from then on every read, at any time, finds the breaker closed and
    grants admission; the last failure time is not cleared and is still
    reported by [get_state]. *)
Theorem reset_closes_from_any_state (cb : CircuitBreaker.t) (now : Time) :
  let cb' := CircuitBreaker.reset cb in
  CircuitBreaker._state cb' = closed
  /\ CircuitBreaker._failures cb' = 0%Z
  /\ CircuitBreaker._successes_in_half_open cb' = 0%Z
  /\ CircuitBreaker._last_failure_reason cb' = None
  /\ CircuitBreaker._last_failure_time cb' = CircuitBreaker._last_failure_time cb
  /\ CircuitBreaker.invocations cb'
     = CircuitBreaker.invocations cb
       ++ map (fun c => Called c None) (CircuitBreaker._on_close_callbacks cb)
  /\ CircuitBreaker.is_open now cb' = (false, cb')
  /\ CircuitBreaker.state now cb' = (closed, cb')
  /\ CircuitBreaker.can_execute now cb' = (true, cb')
  /\ fst (CircuitBreaker.get_state now cb')
     = mkCircuitBreakerState false 0 (CircuitBreaker._last_failure_time cb) None None.
Proof.
  cbv zeta. repeat split.
Qed.

Lemma check_state_transition_cases (now : Time) (cb : CircuitBreaker.t) :
  CircuitBreaker._check_state_transition now cb = cb
  \/ CircuitBreaker._check_state_transition now cb
     = CircuitBreaker._transition_to_half_open cb.
Proof.
  unfold CircuitBreaker._check_state_transition.
  destruct (CircuitBreaker._state cb); try (left; reflexivity).
  destruct (CircuitBreaker._last_failure_time cb); try (left; reflexivity).
  destruct (CircuitBreaker.recovered cb now t); [right | left]; reflexivity.
Qed.

Lemma check_state_transition_idempotent (now : Time) (cb : CircuitBreaker.t) :
  CircuitBreaker._check_state_transition now (CircuitBreaker._check_state_transition now cb)
  = CircuitBreaker._check_state_transition now cb.
Proof.
  destruct (check_state_transition_cases now cb) as [E | E]; rewrite E.
  - exact E.
  - reflexivity.
Qed.

(** X17. The four reads agree and only ever move an open breaker to
    half-open: at one clock reading they leave the same breaker behind,
    [can_execute] is the negation of [is_open], [is_open] is true exactly
    when [state] is open, and reading twice is reading once; a read changes
    neither the counters of failures, nor the last failure time or reason,
    nor the configuration.  A half-open breaker grants every
    [can_execute], without counting the calls it admits. *)
Theorem reads_agree (cb : CircuitBreaker.t) (now : Time) :
  let cb' := snd (CircuitBreaker.is_open now cb) in
  snd (CircuitBreaker.state now cb) = cb'
  /\ snd (CircuitBreaker.can_execute now cb) = cb'
  /\ snd (CircuitBreaker.get_state now cb) = cb'
  /\ fst (CircuitBreaker.can_execute now cb) = negb (fst (CircuitBreaker.is_open now cb))
  /\ (fst (CircuitBreaker.is_open now cb) = true <-> fst (CircuitBreaker.state now cb) = open)
  /\ cbs_is_open (fst (CircuitBreaker.get_state now cb)) = fst (CircuitBreaker.is_open now cb)
  /\ CircuitBreaker.is_open now cb' = (fst (CircuitBreaker.is_open now cb), cb')
  /\ CircuitBreaker._failures cb' = CircuitBreaker._failures cb
  /\ CircuitBreaker._last_failure_time cb' = CircuitBreaker._last_failure_time cb
  /\ CircuitBreaker._last_failure_reason cb' = CircuitBreaker._last_failure_reason cb
  /\ CircuitBreaker.failure_threshold cb' = CircuitBreaker.failure_threshold cb
  /\ CircuitBreaker.recovery_timeout cb' = CircuitBreaker.recovery_timeout cb
  /\ CircuitBreaker.half_open_max_calls cb' = CircuitBreaker.half_open_max_calls cb
  /\ (CircuitBreaker._state cb' <> CircuitBreaker._state cb ->
      CircuitBreaker._state cb = open /\ CircuitBreaker._state cb' = half_open)
  /\ (CircuitBreaker._state cb = half_open ->
      CircuitBreaker.can_execute now cb = (true, cb)).
Proof.
  cbv zeta. unfold CircuitBreaker.is_open, CircuitBreaker.state,
    CircuitBreaker.can_execute, CircuitBreaker.get_state. cbn [fst snd].
  rewrite check_state_transition_idempotent.
  assert (F : forall {A : Type} (f : CircuitBreaker.t -> A),
             (forall c, f (CircuitBreaker._transition_to_half_open c) = f c) ->
             f (CircuitBreaker._check_state_transition now cb) = f cb).
  { intros A f Hf. unfold CircuitBreaker._check_state_transition.
    destruct (CircuitBreaker._state cb); try reflexivity.
    destruct (CircuitBreaker._last_failure_time cb); try reflexivity.
    destruct (CircuitBreaker.recovered cb now t); [apply Hf | reflexivity]. }
  split; [reflexivity |]. split; [reflexivity |]. split; [reflexivity |].
  split; [destruct (CircuitBreaker._state _); reflexivity |].
  split; [destruct (CircuitBreaker._state _); split; congruence |].
  split; [reflexivity |]. split; [reflexivity |].
  split; [apply (F _ CircuitBreaker._failures); reflexivity |].
  split; [apply (F _ CircuitBreaker._last_failure_time); reflexivity |].
  split; [apply (F _ CircuitBreaker._last_failure_reason); reflexivity |].
  split; [apply (F _ CircuitBreaker.failure_threshold); reflexivity |].
  split; [apply (F _ CircuitBreaker.recovery_timeout); reflexivity |].
  split; [apply (F _ CircuitBreaker.half_open_max_calls); reflexivity |].
  split.
  - unfold CircuitBreaker._check_state_transition.
    destruct (CircuitBreaker._state cb) eqn:St; try congruence.
    destruct (CircuitBreaker._last_failure_time cb); try congruence.
    destruct (CircuitBreaker.recovered cb now t); [| congruence].
    intros _. split; reflexivity.
  - intro St. unfold CircuitBreaker._check_state_transition. rewrite St. cbn. rewrite St.
    reflexivity.
Qed.

(** X18. The whole recovery cycle: on a fresh breaker with a threshold of
    n >= 1 failures and [half_open_max_calls >= 1], n failures, then a
    read at least [recovery_timeout] after the last of them, then
    [half_open_max_calls] successes bring the breaker back to closed with
    the failure counter at 0, and admission is granted again. *)
Theorem breaker_recovery_cycle (n : nat) (recovery_timeout half_open_max_calls : Z)
    (clock : nat -> Time) (reason : string) (read later : Time) :
  (1 <= n)%nat ->
  (1 <= half_open_max_calls)%Z ->
  (recovery_timeout * 1000000 <= read - clock (n - 1)%nat)%Z ->
  let fresh := CircuitBreaker.__init__ (Z.of_nat n) recovery_timeout half_open_max_calls in
  let tripped := CircuitBreaker.record_failures n 0 clock reason fresh in
  let probing := snd (CircuitBreaker.can_execute read tripped) in
  let recovered := record_successes (Z.to_nat half_open_max_calls) probing in
  CircuitBreaker._state tripped = open
  /\ fst (CircuitBreaker.can_execute read tripped) = true
  /\ CircuitBreaker._state probing = half_open
  /\ CircuitBreaker._state recovered = closed
  /\ CircuitBreaker._failures recovered = 0%Z
  /\ fst (CircuitBreaker.can_execute later recovered) = true.
Proof.
  intros N M Late fresh tripped probing recovered.
  destruct n as [| m]; [lia |].
  assert (Split : forall j i cb,
            CircuitBreaker.record_failures (S j) i clock reason cb
            = CircuitBreaker.record_failure (clock (i + j)%nat) reason
                (CircuitBreaker.record_failures j i clock reason cb)).
  { induction j as [| j IH]; intros i cb.
    - cbn. rewrite Nat.add_0_r. reflexivity.
    - cbn [CircuitBreaker.record_failures]. rewrite <- Nat.add_succ_comm.
      rewrite <- IH. reflexivity. }
  destruct (record_failures_below_threshold m 0 clock reason fresh) as (A1 & A2 & A3 & _).
  { reflexivity. }
  { cbn. lia. }
  change (CircuitBreaker._failures fresh) with 0%Z in A2.
  change (CircuitBreaker.failure_threshold fresh) with (Z.of_nat (S m)) in A3.
  set (cb := CircuitBreaker.record_failures m 0 clock reason fresh) in *.
  assert (Rt : CircuitBreaker.recovery_timeout cb = recovery_timeout)
    by (unfold cb; rewrite record_failures_recovery_timeout; reflexivity).
  assert (Hm : CircuitBreaker.half_open_max_calls tripped = half_open_max_calls).
  { assert (G : forall j i c,
              CircuitBreaker.half_open_max_calls
                (CircuitBreaker.record_failures j i clock reason c)
              = CircuitBreaker.half_open_max_calls c).
    { induction j as [| j IH]; intros i c; [reflexivity |].
      cbn [CircuitBreaker.record_failures]. rewrite IH.
      unfold CircuitBreaker.record_failure. cbn.
      destruct (CircuitBreaker._state c); cbn; try destruct (_ <=? _)%Z; reflexivity. }
    unfold tripped. rewrite G. reflexivity. }
  assert (T : tripped
              = CircuitBreaker._transition_to_open reason
                  (CircuitBreaker.set_last_failure_time (Some (clock m))
                     (CircuitBreaker.set_failures (CircuitBreaker._failures cb + 1) cb))).
  { unfold tripped. rewrite Split. cbn [Nat.add]. fold cb.
    unfold CircuitBreaker.record_failure. cbn. rewrite A1, A2, A3.
    destruct (_ <=? _)%Z eqn:C; [reflexivity | apply Z.leb_gt in C; lia]. }
  replace (S m - 1)%nat with m in Late by lia.
  assert (St : CircuitBreaker._state tripped = open) by (rewrite T; reflexivity).
  assert (Lt : CircuitBreaker._last_failure_time tripped = Some (clock m))
    by (rewrite T; reflexivity).
  assert (Rt' : CircuitBreaker.recovery_timeout tripped = recovery_timeout)
    by (rewrite T; exact Rt).
  assert (P : probing = CircuitBreaker._transition_to_half_open tripped).
  { unfold probing, CircuitBreaker.can_execute, CircuitBreaker._check_state_transition,
      CircuitBreaker.recovered. cbn [snd]. rewrite St, Lt, Rt'.
    apply Z.leb_le in Late. rewrite Late. reflexivity. }
  split; [exact St |].
  split.
  { change (fst (CircuitBreaker.can_execute read tripped))
      with (match CircuitBreaker._state probing with open => false | _ => true end).
    rewrite P. reflexivity. }
  split; [rewrite P; reflexivity |].
  destruct (record_successes_half_open (Z.to_nat half_open_max_calls) probing)
    as (R1 & R2 & R3).
  { rewrite P. reflexivity. }
  { lia. }
  { rewrite P.
    change (CircuitBreaker.half_open_max_calls
              (CircuitBreaker._transition_to_half_open tripped))
      with (CircuitBreaker.half_open_max_calls tripped).
    change (CircuitBreaker._successes_in_half_open
              (CircuitBreaker._transition_to_half_open tripped)) with 0%Z.
    rewrite Hm. lia. }
  fold recovered in R1, R2, R3.
  split; [exact R1 |]. split; [exact R2 |].
  unfold CircuitBreaker.can_execute, CircuitBreaker._check_state_transition.
  rewrite R1. cbn. rewrite R1. reflexivity.
Qed.

Lemma breaker_recovery_cycle_witness :
  CircuitBreaker._state
    (record_successes 2
       (snd (CircuitBreaker.can_execute 1100000%Z
               (CircuitBreaker.record_failures 1 0 Sample.clock "test"
                  (CircuitBreaker.__init__ 1 1 2))))) = closed.
Proof.
  refine (proj1 (proj2 (proj2 (proj2
            (breaker_recovery_cycle 1 1 2 Sample.clock "test" 1100000%Z 0%Z _ _ _))))).
  - lia.
  - lia.
  - vm_compute. discriminate.
Defined.

(** ** The threat classifier *)

Lemma analyze_inv (s : SentinelAI.t) (features : list Q) (idx : nat) (limit : Q)
    (label : string) (factors factors' : list string) :
  SentinelAI.analyze s features idx limit label factors = Ok factors' ->
  factors' = factors \/ exists text, factors' = factors ++ [text].
Proof.
  unfold SentinelAI.analyze. destruct (Nat.ltb idx (List.length features)).
  - intro H. do 5 bind_inv H. destruct (Qlt_bool limit _); apply Ok_inj in H; subst.
    + right. eexists. reflexivity.
    + left. reflexivity.
  - intro H. apply Ok_inj in H. left. congruence.
Qed.

Lemma classify_threat_inv (s : SentinelAI.t) (features : list Q) (anomaly_score : Q)
    (threat : ThreatType) (factors : list string) :
  SentinelAI._classify_threat s features anomaly_score = Ok (threat, factors) ->
  threat <> WORKER_BEHAVIOR
  /\ threat <> POOL_HOPPING
  /\ threat <> DDOS_ATTEMPT
  /\ (List.length factors <= 3)%nat
  /\ (threat = UNKNOWN -> 0.8 < anomaly_score)
  /\ (threat = NONE -> anomaly_score <= 0.8).
Proof.
  unfold SentinelAI._classify_threat. intro H.
  bind_inv H. bind_inv H. bind_inv H.
  assert (L : (List.length v1 <= 3)%nat).
  { apply analyze_inv in E, E0, E1.
    destruct E as [-> | (t0 & ->)]; destruct E0 as [-> | (t1 & ->)];
      destruct E1 as [-> | (t2 & ->)]; rewrite ?length_app; simpl; lia. }
  repeat match type of H with
         | (if ?b then _ else _) = _ => destruct b eqn:?
         end;
    apply Ok_inj in H; injection H as <- <-;
    repeat split; try discriminate; try exact L.
  - intros _. apply Qlt_bool_iff. assumption.
  - intros _. apply Qlt_bool_false_iff. assumption.
Qed.

(** X19. Whenever [_classify_threat] returns, the threat type is one of
    SHARE_MANIPULATION, HASHRATE_ANOMALY, EARNINGS_ANOMALY, NETWORK_ATTACK,
    UNKNOWN and NONE, never WORKER_BEHAVIOR, POOL_HOPPING or DDOS_ATTEMPT;
    it lists at most three contributing factors; it is UNKNOWN only for a
    score above 0.8 and NONE only for a score of at most 0.8. *)
Theorem classify_threat_range (s : SentinelAI.t) (features : list Q) (anomaly_score : Q)
    (threat : ThreatType) (factors : list string) :
  SentinelAI._classify_threat s features anomaly_score = Ok (threat, factors) ->
  threat <> WORKER_BEHAVIOR
  /\ threat <> POOL_HOPPING
  /\ threat <> DDOS_ATTEMPT
  /\ (List.length factors <= 3)%nat
  /\ (threat = UNKNOWN -> 0.8 < anomaly_score)
  /\ (threat = NONE -> anomaly_score <= 0.8).
Proof.
  apply classify_threat_inv.
Qed.

Lemma classify_threat_range_witness :
  exists threat factors,
    SentinelAI._classify_threat Sample.scorer [100] 0 = Ok (threat, factors)
    /\ threat <> WORKER_BEHAVIOR.
Proof.
  do 2 eexists. split; [vm_compute; reflexivity |].
  refine (proj1 (classify_threat_range Sample.scorer [100] 0 _ _ _)).
  vm_compute. reflexivity.
Defined.

(** X20. With no threshold supplied, a contamination of at most 0.1 and a
    CRITICAL threshold of at most 0.9 (the defaults), every anomaly that
    [detect] reports has severity CRITICAL and a threat type other than
    NONE: the lower severity bands are never reported. *)
Theorem default_anomalies_are_critical (s : SentinelAI.t) (features : NdArray)
    (now : Time) (r : AnomalyDetectionResult) (s' : SentinelAI.t) :
  SentinelAI.detect s features None now = Ok (r, s') ->
  SentinelAI.contamination s <= 0.1 ->
  SentinelAI.severity_thresholds s CRITICAL <= 0.9 ->
  is_anomaly r = true ->
  severity r = CRITICAL /\ threat_type r <> NONE.
Proof.
  intros H C T A. apply detect_inv_full in H. cbv zeta in H.
  destruct H as (scores & row & [threat factors] & _ & _ & _ & _ & Ec & Ha & Ht & Hs & _).
  rewrite A in Ha, Ht, Hs. symmetry in Ha. apply Qlt_bool_iff in Ha.
  cbn [threshold_or] in Ha.
  split.
  - rewrite Hs. unfold SentinelAI._determine_severity.
    assert (G : Qle_bool (SentinelAI.severity_thresholds s CRITICAL) (anomaly_score r) = true)
      by (apply Qle_bool_iff; lra).
    rewrite G. reflexivity.
  - rewrite Ht. cbn [fst]. intro N. subst threat.
    apply classify_threat_inv in Ec. destruct Ec as (_ & _ & _ & _ & _ & Le).
    specialize (Le eq_refl). lra.
Qed.

Lemma default_anomalies_are_critical_witness :
  exists r s',
    SentinelAI.detect Sample.scorer (Matrix [[2]; [0]]) None 0%Z = Ok (r, s')
    /\ severity r = CRITICAL /\ threat_type r <> NONE.
Proof.
  do 2 eexists. split; [vm_compute; reflexivity |].
  refine (default_anomalies_are_critical Sample.scorer (Matrix [[2]; [0]]) 0%Z _ _ _ _ _ _).
  - vm_compute. reflexivity.
  - vm_compute. discriminate.
  - vm_compute. discriminate.
  - reflexivity.
Defined.

(** ** The classifier reads its own factor texts *)

Lemma numeric_app (a b : string) :
  numeric (a ++ b) = numeric a && numeric b.
Proof.
  induction a as [| c a IH]; simpl; [reflexivity |].
  rewrite IH. apply andb_assoc.
Qed.

Lemma numeric_zeros (n : nat) : numeric (zeros n) = true.
Proof. induction n as [| n IH]; simpl; [reflexivity | exact IH]. Qed.

Lemma numeric_string_of_uint (d : Decimal.uint) :
  numeric (NilEmpty.string_of_uint d) = true.
Proof. induction d; simpl; auto. Qed.

Lemma numeric_string_of_Z (z : Z) : numeric (string_of_Z z) = true.
Proof.
  unfold string_of_Z, NilZero.string_of_int, NilZero.string_of_uint.
  destruct (Z.to_int z) as [d | d]; destruct d; simpl;
    try reflexivity; apply numeric_string_of_uint.
Qed.

Lemma numeric_format_fixed (n : nat) (x : Q) : numeric (format_fixed n x) = true.
Proof.
  unfold format_fixed, pad_left.
  assert (S : numeric (if Qlt_bool x 0 then "-" else "")%string = true)
    by (destruct (Qlt_bool x 0); reflexivity).
  destruct n as [| n]; rewrite !numeric_app, ?S, ?numeric_string_of_Z, ?numeric_zeros;
    reflexivity.
Qed.

Lemma append_assoc (a b c : string) : ((a ++ b) ++ c = a ++ (b ++ c))%string.
Proof.
  induction a as [| x a IH]; simpl; [reflexivity | rewrite IH; reflexivity].
Qed.

(** A run of numeric characters cannot begin an occurrence of a needle
    whose first character is not numeric. *)
Lemma contains_skip_numeric (c0 : ascii) (rest num tail : string) :
  numeric_char c0 = false ->
  numeric num = true ->
  contains (String c0 rest) (num ++ tail) = contains (String c0 rest) tail.
Proof.
  intros C0 N. induction num as [| c num IH]; [reflexivity |].
  simpl in N. apply andb_prop in N. destruct N as [Nc Nn].
  change (String c num ++ tail)%string with (String c (num ++ tail)%string).
  cbn [contains]. rewrite (IH Nn).
  assert (P : prefix (String c0 rest) (String c (num ++ tail)) = false).
  { cbn [prefix]. destruct (ascii_dec c0 c) as [-> | _]; [congruence | reflexivity]. }
  rewrite P. reflexivity.
Qed.

Lemma sigma_bytes :
  sigma = String (Ascii true true true true false false true true)
            (String (Ascii true true false false false false false true) EmptyString).
Proof. reflexivity. Qed.

Ltac scan_text :=
  repeat (simpl;
          rewrite ?contains_skip_numeric by first [reflexivity | assumption]);
  try reflexivity.

(** Which of the three labels the rendered list of factors contains. *)
Lemma rendered_factors_contain (h e r : bool) (n1 n2 n3 : string) :
  numeric n1 = true -> numeric n2 = true -> numeric n3 = true ->
  let rendered :=
    py_str_list
      ((if h then [("hashrate_deviation" ++ ": " ++ n1 ++ sigma)%string] else [])
       ++ (if e then [("earnings_deviation" ++ ": " ++ n2 ++ sigma)%string] else [])
       ++ (if r then [("high_reject_rate" ++ ": " ++ n3 ++ sigma)%string] else [])) in
  contains "hashrate_deviation" rendered = h
  /\ contains "earnings_deviation" rendered = e
  /\ contains "high_reject_rate" rendered = r.
Proof.
  intros N1 N2 N3. rewrite sigma_bytes. cbv zeta. unfold py_str_list.
  destruct h, e, r; cbn [app map String.concat]; rewrite ?append_assoc;
    repeat split; scan_text.
Qed.

Lemma index_nth (xs : list Q) (i : nat) :
  (i < List.length xs)%nat -> index xs i = Ok (nth i xs 0).
Proof.
  intro L. unfold index. rewrite (nth_error_nth' xs 0 L). reflexivity.
Qed.

Lemma analyze_by_deviation (s : SentinelAI.t) (n : nat) (x : list Q) (idx : nat)
    (limit : Q) (label : string) (factors : list string) :
  Fitted s n -> List.length x = n ->
  SentinelAI.analyze s x idx limit label factors
  = Ok (factors ++ if deviates s x idx limit
                   then [factor_text label (z_score s x idx)] else []).
Proof.
  intros (_ & _ & _ & _ & (mean & Em & Lm) & (std & Es & Ls)) Lx.
  unfold SentinelAI.analyze, deviates, z_score, factor_text, stat_at.
  rewrite Em, Es.
  destruct (Nat.ltb idx (List.length x)) eqn:L; cbn [andb].
  - apply Nat.ltb_lt in L.
    rewrite (index_nth x idx L). cbn [bind Ok SentinelAI.statistics].
    rewrite (index_nth mean idx) by lia. cbn [bind Ok].
    rewrite (index_nth std idx) by lia. cbn [bind Ok].
    destruct (Qlt_bool limit _); [reflexivity |].
    rewrite app_nil_r. reflexivity.
  - rewrite app_nil_r. reflexivity.
Qed.

(** X21. On a fitted scorer and a vector of the fitted width,
    [_classify_threat] returns the factors of the deviating features, in
    the order hashrate, earnings, reject rate, and the threat type given by
    the precedence: SHARE_MANIPULATION when hashrate and earnings both
    deviate by more than 3 standard deviations, HASHRATE_ANOMALY when
    hashrate alone does, EARNINGS_ANOMALY when earnings alone does,
    NETWORK_ATTACK when only the reject rate deviates by more than 2,
    UNKNOWN when nothing deviates and the score is above 0.8, NONE
    otherwise.  The search of the labels in the printed list of factors
    never confuses one label with another or with a number. *)
Theorem classify_threat_by_deviation (s : SentinelAI.t) (n : nat) (x : list Q)
    (anomaly_score : Q) :
  Fitted s n -> List.length x = n ->
  SentinelAI._classify_threat s x anomaly_score
  = Ok (threat_of (deviates s x SentinelAI.HASHRATE_IDX 3)
                  (deviates s x SentinelAI.EARNINGS_IDX 3)
                  (deviates s x SentinelAI.REJECT_RATE_IDX 2)
                  anomaly_score,
        factors_of s x).
Proof.
  intros F Lx. unfold SentinelAI._classify_threat.
  rewrite (analyze_by_deviation s n x _ _ _ _ F Lx). cbn [bind Ok].
  rewrite (analyze_by_deviation s n x _ _ _ _ F Lx). cbn [bind Ok].
  rewrite (analyze_by_deviation s n x _ _ _ _ F Lx). cbn [bind Ok].
  rewrite app_nil_l, <- app_assoc. fold (factors_of s x).
  destruct (rendered_factors_contain
              (deviates s x SentinelAI.HASHRATE_IDX 3)
              (deviates s x SentinelAI.EARNINGS_IDX 3)
              (deviates s x SentinelAI.REJECT_RATE_IDX 2)
              (format_fixed 2 (z_score s x SentinelAI.HASHRATE_IDX))
              (format_fixed 2 (z_score s x SentinelAI.EARNINGS_IDX))
              (format_fixed 2 (z_score s x SentinelAI.REJECT_RATE_IDX))
              (numeric_format_fixed _ _) (numeric_format_fixed _ _)
              (numeric_format_fixed _ _)) as (H & E & R).
  fold (factor_text "hashrate_deviation" (z_score s x SentinelAI.HASHRATE_IDX)) in H, E, R.
  fold (factor_text "earnings_deviation" (z_score s x SentinelAI.EARNINGS_IDX)) in H, E, R.
  fold (factor_text "high_reject_rate" (z_score s x SentinelAI.REJECT_RATE_IDX)) in H, E, R.
  fold (factors_of s x) in H, E, R.
  rewrite H, E, R. unfold threat_of.
  destruct (deviates s x SentinelAI.HASHRATE_IDX 3),
    (deviates s x SentinelAI.EARNINGS_IDX 3),
    (deviates s x SentinelAI.REJECT_RATE_IDX 2),
    (Qlt_bool 0.8 anomaly_score); reflexivity.
Qed.

Lemma classify_threat_by_deviation_witness :
  SentinelAI._classify_threat Sample.scorer [100] 0
  = Ok (HASHRATE_ANOMALY, factors_of Sample.scorer [100]).
Proof.
  refine (classify_threat_by_deviation Sample.scorer 1 [100] 0 _ _).
  - sample_fitted.
  - reflexivity.
Defined.

(** ** The number of weights *)

Lemma index_short {A : Type} (xs : list A) (i : nat) :
  (List.length xs <= i)%nat -> index xs i = Raise (IndexError "index out of range").
Proof.
  intro L. unfold index. apply nth_error_None in L. rewrite L. reflexivity.
Qed.

(** X22. The constructor accepts a weight list of fewer than three entries
    when its sum is 1 (for instance [1.0]), but no score can be computed
    with it: on a fitted scorer with fewer than three weights, [detect]
    raises [IndexError] on every vector of the fitted width. *)
Theorem detect_needs_three_weights (s : SentinelAI.t) (n : nat) (x : list Q)
    (threshold : option Q) (now : Time) :
  Fitted s n ->
  List.length x = n ->
  (List.length (SentinelAI.ensemble_weights s) < 3)%nat ->
  SentinelAI.detect s (Vector x) threshold now = Raise (IndexError "index out of range")
  /\ exists s0, SentinelAI.__init__ 0.1 (Some [1]) None = Ok s0
                /\ SentinelAI.ensemble_weights s0 = [1].
Proof.
  intros F Lx Lw. split; [| eexists; split; vm_compute; reflexivity].
  destruct (normalize_row s n x F Lx) as (x' & En).
  destruct F as (Ef & (d1 & E1) & (d2 & E2) & (d3 & E3) & _).
  unfold SentinelAI.detect. rewrite Ef. cbn [negb].
  unfold SentinelAI._get_ensemble_score.
  rewrite En, E1, E2, E3.
  cbn [bind Ok SentinelAI.detector decision_function map].
  rewrite !normalize_scores_single. cbn [bind Ok].
  destruct (SentinelAI.ensemble_weights s) as [| w0 [| w1 [| w2 ws]]];
    try reflexivity.
  simpl in Lw. lia.
Qed.

Lemma detect_needs_three_weights_witness :
  SentinelAI.detect (with_weights [1] Sample.scorer) (Vector [100]) None 0%Z
  = Raise (IndexError "index out of range").
Proof.
  refine (proj1 (detect_needs_three_weights (with_weights [1] Sample.scorer) 1 [100]
                   None 0%Z _ _ _)).
  - sample_fitted.
  - reflexivity.
  - simpl. lia.
Defined.

(** X23. Only the first three weights are used: weights beyond the third
    take part in the validation of the sum but not in the score, which for
    a list [w0, w1, w2, ...] is the one computed with [w0, w1, w2] alone;
    when these three are not negative, every score lies between 0 and
    [w0 + w1 + w2], whatever the sum of the whole list. *)
Theorem ensemble_score_uses_three_weights (s : SentinelAI.t) (w0 w1 w2 : Q)
    (more : list Q) (data : list (list Q)) :
  SentinelAI._get_ensemble_score (with_weights (w0 :: w1 :: w2 :: more) s) data
  = SentinelAI._get_ensemble_score (with_weights [w0; w1; w2] s) data
  /\ forall scores,
      SentinelAI._get_ensemble_score (with_weights (w0 :: w1 :: w2 :: more) s) data
      = Ok scores ->
      0 <= w0 -> 0 <= w1 -> 0 <= w2 ->
      Forall (fun q => 0 <= q <= w0 + w1 + w2) scores.
Proof.
  split.
  - unfold SentinelAI._get_ensemble_score.
    change (SentinelAI._normalize (with_weights (w0 :: w1 :: w2 :: more) s) data)
      with (SentinelAI._normalize (with_weights [w0; w1; w2] s) data).
    destruct (SentinelAI._normalize _ data) as [e | nz]; [reflexivity |].
    cbn [bind with_weights SentinelAI._iforest SentinelAI._lof SentinelAI._knn].
    destruct (SentinelAI.detector (SentinelAI._iforest s)) as [e | d1]; [reflexivity |].
    destruct (SentinelAI.detector (SentinelAI._lof s)) as [e | d2]; [reflexivity |].
    destruct (SentinelAI.detector (SentinelAI._knn s)) as [e | d3]; [reflexivity |].
    cbn [bind].
    destruct (normalize_scores (decision_function d1 nz)) as [e | a]; [reflexivity |].
    destruct (normalize_scores (decision_function d2 nz)) as [e | b]; [reflexivity |].
    destruct (normalize_scores (decision_function d3 nz)) as [e | c]; reflexivity.
  - intros scores H P0 P1 P2. apply get_ensemble_score_inv in H.
    destruct H as (nz & d1 & d2 & d3 & a & b & c & v0 & v1 & v2
                   & _ & Ea & Eb & Ec & W0 & W1 & W2 & ->).
    cbn in W0, W1, W2. apply Ok_inj in W0, W1, W2. subst v0 v1 v2.
    apply normalize_scores_unit_interval in Ea, Eb, Ec.
    apply weighted_combination_bounds; assumption.
Qed.

(** ** The rescaling keeps the order of the raw scores *)

(** X24. [normalize_scores] keeps the order of the raw scores of a batch:
    a row with a raw score at most that of another row gets a rescaled
    score at most that of the other; and when the raw scores spread over
    at least 1e-8, a row with the smallest raw score gets 0 and a row with
    the largest gets 1. *)
Theorem normalize_scores_keeps_order (scores normalized : list Q) :
  normalize_scores scores = Ok normalized ->
  (forall (i j : nat) (a b na nb : Q),
      nth_error scores i = Some a -> nth_error scores j = Some b ->
      nth_error normalized i = Some na -> nth_error normalized j = Some nb ->
      a <= b -> na <= nb)
  /\ (forall (i : nat) (a na : Q),
        nth_error scores i = Some a -> nth_error normalized i = Some na ->
        1e-8 <= fold_left Qmax (tl scores) (hd 0 scores)
                - fold_left Qmin (tl scores) (hd 0 scores) ->
        (a == fold_left Qmin (tl scores) (hd 0 scores) -> na == 0)
        /\ (a == fold_left Qmax (tl scores) (hd 0 scores) -> na == 1)).
Proof.
  unfold normalize_scores. destruct scores as [| s0 rest]; [discriminate |].
  cbn [hd tl].
  set (lo := fold_left Qmin rest s0). set (hi := fold_left Qmax rest s0).
  destruct (Qlt_bool (hi - lo) 1e-8) eqn:R; intro H; apply Ok_inj in H; subst normalized.
  - apply Qlt_bool_iff in R. split.
    + intros i j a b na nb _ _ Hi Hj _.
      rewrite nth_error_map in Hi, Hj.
      destruct (nth_error (s0 :: rest) i); [| discriminate Hi].
      destruct (nth_error (s0 :: rest) j); [| discriminate Hj].
      injection Hi as <-. injection Hj as <-. apply Qle_refl.
    + intros i a na _ _ Spread. lra.
  - apply Qlt_bool_false_iff in R.
    assert (Hpos : 0 < hi - lo) by (eapply Qlt_le_trans; [| exact R]; reflexivity).
    split.
    + intros i j a b na nb Ha Hb Hi Hj Le.
      rewrite nth_error_map, Ha in Hi. rewrite nth_error_map, Hb in Hj.
      injection Hi as <-. injection Hj as <-.
      unfold Qdiv. apply Qmult_le_compat_r; [lra |].
      apply Qlt_le_weak. apply Qinv_lt_0_compat. exact Hpos.
    + intros i a na Ha Hi _.
      rewrite nth_error_map, Ha in Hi. injection Hi as <-. split.
      * intro E. rewrite E. unfold Qdiv. setoid_replace (lo - lo) with 0 by ring.
        apply Qmult_0_l.
      * intro E. rewrite E. apply Qmult_inv_r. lra.
Qed.

Lemma normalize_scores_keeps_order_witness :
  (1 - 1) / (3 - 1) <= (2 - 1) / (3 - 1).
Proof.
  refine (proj1 (normalize_scores_keeps_order [3; 1; 2]
                   [(3 - 1) / (3 - 1); (1 - 1) / (3 - 1); (2 - 1) / (3 - 1)] _)
            1%nat 2%nat 1 2 _ _ _ _ _ _ _).
  - reflexivity.
  - reflexivity.
  - reflexivity.
  - reflexivity.
  - reflexivity.
  - vm_compute. discriminate.
Defined.

(** ** The recovery time reported by [get_state] *)

(** X25. While an open breaker has not recovered, [get_state] reports it
    open together with the recovery time [last_failure + recovery_timeout];
    that instant is the first at which a read finds the breaker half-open:
    a read at the reported time performs the transition, a read one
    microsecond earlier does not.  Once the breaker is no longer open,
    [get_state] reports no recovery time. *)
Theorem get_state_recovery_time (cb : CircuitBreaker.t) (last now : Time) :
  CircuitBreaker._state cb = open ->
  CircuitBreaker._last_failure_time cb = Some last ->
  (now - last < CircuitBreaker.recovery_timeout cb * 1000000)%Z ->
  let due := (last + CircuitBreaker.recovery_timeout cb * 1000000)%Z in
  cbs_is_open (fst (CircuitBreaker.get_state now cb)) = true
  /\ cbs_recovery_time (fst (CircuitBreaker.get_state now cb)) = Some due
  /\ cbs_last_failure (fst (CircuitBreaker.get_state now cb)) = Some last
  /\ snd (CircuitBreaker.get_state now cb) = cb
  /\ fst (CircuitBreaker.state (due - 1)%Z cb) = open
  /\ fst (CircuitBreaker.state due cb) = half_open
  /\ cbs_recovery_time (fst (CircuitBreaker.get_state due cb)) = None
  /\ cbs_is_open (fst (CircuitBreaker.get_state due cb)) = false.
Proof.
  intros St Lt Early. cbv zeta.
  assert (N : CircuitBreaker._check_state_transition now cb = cb).
  { unfold CircuitBreaker._check_state_transition, CircuitBreaker.recovered.
    rewrite St, Lt. apply Z.leb_gt in Early. rewrite Early. reflexivity. }
  assert (B : CircuitBreaker._check_state_transition
                (last + CircuitBreaker.recovery_timeout cb * 1000000 - 1)%Z cb = cb).
  { unfold CircuitBreaker._check_state_transition, CircuitBreaker.recovered.
    rewrite St, Lt.
    destruct (_ <=? _)%Z eqn:C; [apply Z.leb_le in C; lia | reflexivity]. }
  assert (D : CircuitBreaker._check_state_transition
                (last + CircuitBreaker.recovery_timeout cb * 1000000)%Z cb
              = CircuitBreaker._transition_to_half_open cb).
  { unfold CircuitBreaker._check_state_transition, CircuitBreaker.recovered.
    rewrite St, Lt.
    destruct (_ <=? _)%Z eqn:C; [reflexivity | apply Z.leb_gt in C; lia]. }
  unfold CircuitBreaker.get_state, CircuitBreaker.state. rewrite N, B, D.
  cbn [fst snd cbs_is_open cbs_recovery_time cbs_last_failure]. rewrite St, Lt.
  repeat split.
Qed.

Lemma get_state_recovery_time_witness :
  cbs_recovery_time
    (fst (CircuitBreaker.get_state 5%Z
            (CircuitBreaker.record_failure 0%Z "test" (CircuitBreaker.__init__ 1 1 3))))
  = Some 1000000%Z.
Proof.
  refine (proj1 (proj2 (get_state_recovery_time
                          (CircuitBreaker.record_failure 0%Z "test"
                             (CircuitBreaker.__init__ 1 1 3)) 0%Z 5%Z _ _ _))).
  - reflexivity.
  - reflexivity.
  - simpl. lia.
Defined.

(** ** Detections of single vectors, end to end *)

Lemma store_keeps (P : AnomalyDetectionResult -> Prop) (s : SentinelAI.t)
    (r : AnomalyDetectionResult) :
  Forall P (SentinelAI._detection_history s) -> P r ->
  Forall P (SentinelAI._detection_history (SentinelAI.store s r)).
Proof.
  intros H Pr. rewrite store_history.
  assert (A : Forall P (SentinelAI._detection_history s ++ [r])).
  { apply Forall_app. split; [exact H | constructor; [exact Pr | constructor]]. }
  destruct (_ <? _)%Z; [| exact A].
  destruct (SentinelAI._detection_history s ++ [r]) as [| r0 l]; [constructor |].
  inversion A; assumption.
Qed.

Lemma detect_batch_from_quiet (clock : nat -> Time) (rows : list (list Q)) :
  forall (i : nat) (s s' : SentinelAI.t) (outcome : PyResult (list AnomalyDetectionResult)),
    SentinelAI.contamination s <= 1 ->
    SentinelAI.detect_batch_from i s rows None clock = (outcome, s') ->
    Forall (fun r => is_anomaly r = false) (SentinelAI._detection_history s) ->
    Forall (fun r => is_anomaly r = false) (SentinelAI._detection_history s')
    /\ forall results, outcome = Ok results ->
                       Forall (fun r => is_anomaly r = false) results.
Proof.
  induction rows as [| row rows IH]; intros i s s' outcome C H Q.
  - simpl in H. injection H as <- <-. split; [exact Q |].
    intros results E. apply Ok_inj in E. subst. constructor.
  - cbn [SentinelAI.detect_batch_from] in H.
    destruct (SentinelAI.detect s (Vector row) None (clock i)) as [e | [r s1]] eqn:D.
    + injection H as <- <-. split; [exact Q | intros results E; discriminate E].
    + destruct (SentinelAI.detect_batch_from (S i) s1 rows None clock) as [rest s2] eqn:R.
      injection H as <- <-.
      assert (N : is_anomaly r = false).
      { rewrite (detect_vector_anomaly _ _ _ _ _ _ D). apply Qlt_bool_false_iff.
        cbn [threshold_or]. lra. }
      pose proof D as D'. apply detect_inv in D'. destruct D' as (_ & _ & _ & _ & Es1).
      assert (C1 : SentinelAI.contamination s1 <= 1) by (subst s1; exact C).
      assert (Q1 : Forall (fun r => is_anomaly r = false) (SentinelAI._detection_history s1))
        by (subst s1; apply store_keeps; assumption).
      destruct (IH _ _ _ _ C1 R Q1) as (Q2 & A2). split; [exact Q2 |].
      intros results E. destruct rest as [e | rest]; [discriminate E |].
      cbn [bind] in E. apply Ok_inj in E. subst results.
      constructor; [exact N | apply A2; reflexivity].
Qed.

Lemma record_success_fresh (cb : CircuitBreaker.t) :
  CircuitBreaker._state cb = closed -> CircuitBreaker._failures cb = 0%Z ->
  CircuitBreaker._state (CircuitBreaker.record_success cb) = closed
  /\ CircuitBreaker._failures (CircuitBreaker.record_success cb) = 0%Z.
Proof.
  intros St F. unfold CircuitBreaker.record_success. rewrite St. cbn. rewrite F.
  split; [exact St | reflexivity].
Qed.

Lemma quiet_results_keep_closed (results : list AnomalyDetectionResult) :
  Forall (fun r => is_anomaly r = false) results ->
  forall (clocks : list (nat -> Time)) (cb : CircuitBreaker.t),
    CircuitBreaker._state cb = closed -> CircuitBreaker._failures cb = 0%Z ->
    let cb' := fold_left (fun cb cr => CircuitBreaker.process_detection (fst cr) (snd cr) cb)
                 (combine clocks results) cb in
    CircuitBreaker._state cb' = closed /\ CircuitBreaker._failures cb' = 0%Z.
Proof.
  induction 1 as [| r l Hr _ IH]; intros clocks cb St F; cbv zeta.
  - destruct clocks; cbn; auto.
  - destruct clocks as [| c clocks]; [cbn; auto |].
    cbn [combine fold_left fst snd].
    assert (E : CircuitBreaker.process_detection c r cb = CircuitBreaker.record_success cb)
      by (unfold CircuitBreaker.process_detection; rewrite Hr; reflexivity).
    rewrite E. destruct (record_success_fresh cb St F) as (St' & F').
    apply IH; assumption.
Qed.

(** X26. End to end, with the default threshold and a contamination of at
    most 1: a batch of single vectors run through [detect_batch] on a
    scorer with an empty history yields no anomaly at all;
    [get_statistics] then reports zero anomalies and empty distributions,
    and a fresh circuit breaker fed with every result through
    [process_detection] stays closed with its failure counter at 0. *)
Theorem vectors_never_trip_the_breaker (s s' : SentinelAI.t) (rows : list (list Q))
    (clock : nat -> Time) (results : list AnomalyDetectionResult)
    (failure_threshold recovery_timeout half_open_max_calls : Z)
    (clocks : list (nat -> Time)) :
  SentinelAI.contamination s <= 1 ->
  SentinelAI._detection_history s = [] ->
  SentinelAI.detect_batch s rows None clock = (Ok results, s') ->
  Forall (fun r => is_anomaly r = false) results
  /\ (match get_statistics s' with
      | NoDetections total => total = 0%Z
      | Detections _ anomalies rate threats severities _ =>
          anomalies = 0%Z /\ rate == 0 /\ threats = [] /\ severities = []
      end)
  /\ let cb := fold_left (fun cb cr => CircuitBreaker.process_detection (fst cr) (snd cr) cb)
                 (combine clocks results)
                 (CircuitBreaker.__init__ failure_threshold recovery_timeout
                    half_open_max_calls) in
     CircuitBreaker._state cb = closed /\ CircuitBreaker._failures cb = 0%Z.
Proof.
  intros C H0 D. unfold SentinelAI.detect_batch in D.
  destruct (detect_batch_from_quiet clock rows 0 s s' (Ok results) C D) as (Q & A).
  { rewrite H0. constructor. }
  specialize (A results eq_refl).
  split; [exact A |]. split.
  - unfold get_statistics.
    destruct (SentinelAI._detection_history s') as [| r0 h] eqn:Hs; [reflexivity |].
    assert (F : filter is_anomaly (r0 :: h) = []).
    { clear - Q. induction Q as [| r l Hr _ IH]; [reflexivity |].
      cbn [filter]. rewrite Hr. exact IH. }
    rewrite F. cbn [fold_left fst snd List.length].
    repeat split; try (unfold Qdiv; apply Qmult_0_l).
  - apply quiet_results_keep_closed; [exact A | reflexivity | reflexivity].
Qed.

Lemma vectors_never_trip_the_breaker_witness :
  Forall (fun r => is_anomaly r = false)
    (match fst (SentinelAI.detect_batch Sample.scorer Sample.batch None Sample.clock) with
     | inr results => results
     | inl _ => []
     end).
Proof.
  destruct (SentinelAI.detect_batch Sample.scorer Sample.batch None Sample.clock)
    as [[e | results] s'] eqn:D; [constructor |].
  refine (proj1 (vectors_never_trip_the_breaker Sample.scorer s' Sample.batch Sample.clock
                   results 5 60 3 [] _ _ D)).
  - vm_compute. discriminate.
  - reflexivity.
Defined.

(** ** The decision of [detect] on a feature vector *)

(** C1. For a fitted scorer of contamination at most 1 (with the three
    weights the score needs) and every feature vector of the fitted width,
    [detect] returns a result, whatever threshold is or is not supplied,
    and this result is anomalous if and only if its ensemble score is
    strictly greater than the threshold: the supplied one, or
    [1 - contamination] when none is supplied.  The comparison [detect]
    makes is the one with the threshold in force, and with the default
    contamination 0.1 the default threshold is 0.9. *)
Theorem detect_anomalous_iff_above_threshold (s : SentinelAI.t) (n : nat) (x : list Q)
    (threshold : option Q) (now : Time) :
  Fitted s n ->
  List.length x = n ->
  (3 <= List.length (SentinelAI.ensemble_weights s))%nat ->
  SentinelAI.contamination s <= 1 ->
  (exists r s',
      SentinelAI.detect s (Vector x) threshold now = Ok (r, s')
      /\ (is_anomaly r = true
          <-> match threshold with
              | Some t => t
              | None => 1 - SentinelAI.contamination s
              end < anomaly_score r)
      /\ is_anomaly r
         = Qlt_bool (threshold_or threshold (1 - SentinelAI.contamination s))
                    (anomaly_score r))
  /\ threshold_or None (1 - SentinelAI.default_contamination) == 0.9.
Proof.
  intros F Lx Lw C. split; [| reflexivity].
  destruct (detect_single_total s n x threshold now F Lx Lw) as (r & s' & D & Z0).
  exists r, s'. split; [exact D |].
  pose proof (detect_vector_anomaly _ _ _ _ _ _ D) as A.
  pose proof D as D'. apply detect_inv in D'. destruct D' as (_ & _ & _ & Ha & _).
  split; [| exact Ha].
  rewrite A, Z0. destruct threshold as [t |]; cbn [threshold_or].
  - destruct (Qeq_bool t 0) eqn:E.
    + apply Qeq_bool_eq in E. split.
      * intro P. apply Qlt_bool_iff in P. lra.
      * intro P. lra.
    + apply Qlt_bool_iff.
  - apply Qlt_bool_iff.
Qed.

Lemma detect_anomalous_iff_above_threshold_witness :
  exists r s',
    SentinelAI.detect Sample.scorer (Vector [100]) (Some 0) 7%Z = Ok (r, s')
    /\ (is_anomaly r = true <-> 0 < anomaly_score r).
Proof.
  destruct (proj1 (detect_anomalous_iff_above_threshold Sample.scorer 1 [100] (Some 0) 7%Z
                     ltac:(sample_fitted) eq_refl ltac:(simpl; lia)
                     ltac:(vm_compute; discriminate)))
    as (r & s' & D & I & _).
  exists r, s'. split; [exact D | exact I].
Defined.
